(** * TwitchQuestForge: character progression, combat and merchant rules

    A shallow embedding of the domain model ([internal/models]), the
    in-memory backend ([internal/storage/memory.go]) and the services
    ([internal/services]) of the Twitch RPG server, together with the
    properties its specification states about them.

    Conventions of the embedding:
    - Go's [int] is the 64-bit two's complement integer; it is carried as a
      [Z] and every arithmetic operation of the source is followed by
      [GoInt.wrap].
    - Go's [float64] is IEEE 754 binary64, carried as a [spec_float] with
      the operations of [SpecFloat] at precision 53.
    - A method with a pointer receiver that mutates its receiver returns the
      updated record next to its result.
    - [time.Now()] and [rand.Float64()] are explicit inputs. *)

From Stdlib Require Import ZArith Lia Bool List String.
From Stdlib Require Import Floats.SpecFloat.
From Stdlib Require Import Sorting.Permutation Sorting.Sorted.
From stdpp Require Import base option list gmap strings pretty.

Local Open Scope string_scope.
Local Open Scope Z_scope.

(** ** Go's [int] *)

Module GoInt.

Definition int_min : Z := - 2 ^ 63.
Definition int_max : Z := 2 ^ 63 - 1.

(** Two's complement reduction of a mathematical integer to 64 bits. *)
Definition wrap (z : Z) : Z := (z + 2 ^ 63) mod 2 ^ 64 - 2 ^ 63.

Definition add (a b : Z) : Z := wrap (a + b).
Definition sub (a b : Z) : Z := wrap (a - b).
Definition mul (a b : Z) : Z := wrap (a * b).
(** Go's [/] on integers truncates toward zero. *)
Definition quot (a b : Z) : Z := wrap (Z.quot a b).

Definition in_int (z : Z) : Prop := int_min <= z <= int_max.

(** Congruence modulo 2^64. *)
Definition eqm (a b : Z) : Prop := a mod 2 ^ 64 = b mod 2 ^ 64.

End GoInt.

Arguments GoInt.wrap : simpl never.

(** ** Domain model: [internal/models] *)

(** [time.Time], an instant in nanoseconds on some clock. *)
Definition Time := Z.

Module Stats.
Record t := mk {
  Strength : Z;
  Agility : Z;
  Vitality : Z;
  Intelligence : Z
}.
End Stats.

Module Item.
(** [ItemType] and [ItemRarity] are Go string types. *)
Definition ItemType := string.
Definition ItemRarity := string.

Definition ItemTypeBoots : ItemType := "boots".
Definition ItemTypePants : ItemType := "pants".
Definition ItemTypeArmor : ItemType := "armor".
Definition ItemTypeHelmet : ItemType := "helmet".
Definition ItemTypeRing : ItemType := "ring".
Definition ItemTypeChain : ItemType := "chain".

Definition RarityCommon : ItemRarity := "common".
Definition RarityRare : ItemRarity := "rare".
Definition RarityEpic : ItemRarity := "epic".
Definition RarityLegendary : ItemRarity := "legendary".

Record t := mk {
  ID : Z;
  Name : string;
  Type_ : ItemType;
  Rarity : ItemRarity;
  StrengthBonus : Z;
  AgilityBonus : Z;
  VitalityBonus : Z;
  IntelligenceBonus : Z;
  SpecialEffect : option string;
  Value : Z;
  IsSpecial : bool;
  CreatedAt : Time
}.
End Item.

Module Equipment.
(** Each slot is a nilable pointer to an item. *)
Record t := mk {
  Boots : option Item.t;
  Pants : option Item.t;
  Armor : option Item.t;
  Helmet : option Item.t;
  Ring : option Item.t;
  Chain : option Item.t
}.

Definition empty : t := mk None None None None None None.

Definition slots (e : t) : list (option Item.t) :=
  [Boots e; Pants e; Armor e; Helmet e; Ring e; Chain e].
End Equipment.

Module Character.

Record t := mk {
  ID : Z;
  Username : string;
  TwitchUserID : option string;
  Level : Z;
  Experience : Z;
  ChannelPointsSpent : Z;
  Strength : Z;
  Agility : Z;
  Vitality : Z;
  Intelligence : Z;
  BootsID : option Z;
  PantsID : option Z;
  ArmorID : option Z;
  HelmetID : option Z;
  RingID : option Z;
  ChainID : option Z;
  CreatedAt : Time;
  UpdatedAt : Time;
  (* calculated fields, not stored in the database *)
  Equipment : option Equipment.t;
  TotalStats : option Stats.t;
  CombatPower : Z
}.

(** Field assignments [c.F = v]. *)
Definition set_Level (v : Z) (c : t) : t :=
  mk (ID c) (Username c) (TwitchUserID c) v (Experience c)
     (ChannelPointsSpent c) (Strength c) (Agility c) (Vitality c)
     (Intelligence c) (BootsID c) (PantsID c) (ArmorID c) (HelmetID c)
     (RingID c) (ChainID c) (CreatedAt c) (UpdatedAt c) (Equipment c)
     (TotalStats c) (CombatPower c).
Definition set_Experience (v : Z) (c : t) : t :=
  mk (ID c) (Username c) (TwitchUserID c) (Level c) v
     (ChannelPointsSpent c) (Strength c) (Agility c) (Vitality c)
     (Intelligence c) (BootsID c) (PantsID c) (ArmorID c) (HelmetID c)
     (RingID c) (ChainID c) (CreatedAt c) (UpdatedAt c) (Equipment c)
     (TotalStats c) (CombatPower c).
Definition set_ChannelPointsSpent (v : Z) (c : t) : t :=
  mk (ID c) (Username c) (TwitchUserID c) (Level c) (Experience c)
     v (Strength c) (Agility c) (Vitality c)
     (Intelligence c) (BootsID c) (PantsID c) (ArmorID c) (HelmetID c)
     (RingID c) (ChainID c) (CreatedAt c) (UpdatedAt c) (Equipment c)
     (TotalStats c) (CombatPower c).
Definition set_Strength (v : Z) (c : t) : t :=
  mk (ID c) (Username c) (TwitchUserID c) (Level c) (Experience c)
     (ChannelPointsSpent c) v (Agility c) (Vitality c)
     (Intelligence c) (BootsID c) (PantsID c) (ArmorID c) (HelmetID c)
     (RingID c) (ChainID c) (CreatedAt c) (UpdatedAt c) (Equipment c)
     (TotalStats c) (CombatPower c).
Definition set_Agility (v : Z) (c : t) : t :=
  mk (ID c) (Username c) (TwitchUserID c) (Level c) (Experience c)
     (ChannelPointsSpent c) (Strength c) v (Vitality c)
     (Intelligence c) (BootsID c) (PantsID c) (ArmorID c) (HelmetID c)
     (RingID c) (ChainID c) (CreatedAt c) (UpdatedAt c) (Equipment c)
     (TotalStats c) (CombatPower c).
Definition set_Vitality (v : Z) (c : t) : t :=
  mk (ID c) (Username c) (TwitchUserID c) (Level c) (Experience c)
     (ChannelPointsSpent c) (Strength c) (Agility c) v
     (Intelligence c) (BootsID c) (PantsID c) (ArmorID c) (HelmetID c)
     (RingID c) (ChainID c) (CreatedAt c) (UpdatedAt c) (Equipment c)
     (TotalStats c) (CombatPower c).
Definition set_Intelligence (v : Z) (c : t) : t :=
  mk (ID c) (Username c) (TwitchUserID c) (Level c) (Experience c)
     (ChannelPointsSpent c) (Strength c) (Agility c) (Vitality c)
     v (BootsID c) (PantsID c) (ArmorID c) (HelmetID c)
     (RingID c) (ChainID c) (CreatedAt c) (UpdatedAt c) (Equipment c)
     (TotalStats c) (CombatPower c).
Definition set_UpdatedAt (v : Time) (c : t) : t :=
  mk (ID c) (Username c) (TwitchUserID c) (Level c) (Experience c)
     (ChannelPointsSpent c) (Strength c) (Agility c) (Vitality c)
     (Intelligence c) (BootsID c) (PantsID c) (ArmorID c) (HelmetID c)
     (RingID c) (ChainID c) (CreatedAt c) v (Equipment c)
     (TotalStats c) (CombatPower c).
Definition set_Equipment (v : option Equipment.t) (c : t) : t :=
  mk (ID c) (Username c) (TwitchUserID c) (Level c) (Experience c)
     (ChannelPointsSpent c) (Strength c) (Agility c) (Vitality c)
     (Intelligence c) (BootsID c) (PantsID c) (ArmorID c) (HelmetID c)
     (RingID c) (ChainID c) (CreatedAt c) (UpdatedAt c) v
     (TotalStats c) (CombatPower c).
Definition set_TotalStats (v : option Stats.t) (c : t) : t :=
  mk (ID c) (Username c) (TwitchUserID c) (Level c) (Experience c)
     (ChannelPointsSpent c) (Strength c) (Agility c) (Vitality c)
     (Intelligence c) (BootsID c) (PantsID c) (ArmorID c) (HelmetID c)
     (RingID c) (ChainID c) (CreatedAt c) (UpdatedAt c) (Equipment c)
     v (CombatPower c).
Definition set_CombatPower (v : Z) (c : t) : t :=
  mk (ID c) (Username c) (TwitchUserID c) (Level c) (Experience c)
     (ChannelPointsSpent c) (Strength c) (Agility c) (Vitality c)
     (Intelligence c) (BootsID c) (PantsID c) (ArmorID c) (HelmetID c)
     (RingID c) (ChainID c) (CreatedAt c) (UpdatedAt c) (Equipment c)
     (TotalStats c) v.

(** [CalculateBaseStats]: the four base stats without equipment. *)
Definition CalculateBaseStats (c : t) : Stats.t :=
  Stats.mk (Strength c) (Agility c) (Vitality c) (Intelligence c).

(** One [if c.Equipment.X != nil { baseStats.S += X.SBonus ... }] block. *)
Definition add_slot (slot : option Item.t) (s : Stats.t) : Stats.t :=
  match slot with
  | None => s
  | Some it =>
      Stats.mk (GoInt.add (Stats.Strength s) (Item.StrengthBonus it))
               (GoInt.add (Stats.Agility s) (Item.AgilityBonus it))
               (GoInt.add (Stats.Vitality s) (Item.VitalityBonus it))
               (GoInt.add (Stats.Intelligence s) (Item.IntelligenceBonus it))
  end.

(** [CalculateTotalStats]: base stats plus the bonuses of the populated
    slots, in the order boots, pants, armor, helmet, ring, chain. *)
Definition CalculateTotalStats (c : t) : Stats.t :=
  let baseStats := CalculateBaseStats c in
  match Equipment c with
  | None => baseStats
  | Some e =>
      add_slot (Equipment.Chain e)
        (add_slot (Equipment.Ring e)
          (add_slot (Equipment.Helmet e)
            (add_slot (Equipment.Armor e)
              (add_slot (Equipment.Pants e)
                (add_slot (Equipment.Boots e) baseStats)))))
  end.

(** [CalculateCombatPower]: weighted sum of the total stats plus a level
    bonus. *)
Definition CalculateCombatPower (c : t) : Z :=
  let totalStats := CalculateTotalStats c in
  GoInt.add
    (GoInt.add
      (GoInt.add
        (GoInt.add (GoInt.mul (Stats.Strength totalStats) 3)
                   (GoInt.mul (Stats.Agility totalStats) 2))
        (GoInt.mul (Stats.Vitality totalStats) 2))
      (GoInt.mul (Stats.Intelligence totalStats) 1))
    (GoInt.mul (Level c) 5).

(** [CanUpgradeStat]. *)
Definition CanUpgradeStat (c : t) (statType : string) (channelPoints : Z) : bool :=
  (0 <? channelPoints) &&
  (String.eqb statType "strength" || String.eqb statType "agility"
   || String.eqb statType "vitality" || String.eqb statType "intelligence").

(** [UpgradeStat]: the receiver after the call and the returned flag. *)
Definition UpgradeStat (c : t) (statType : string) (channelPoints : Z) : t * bool :=
  if negb (CanUpgradeStat c statType channelPoints) then (c, false)
  else
    let pointsPerUpgrade := 100 in
    let upgradeAmount := GoInt.quot channelPoints pointsPerUpgrade in
    if upgradeAmount <=? 0 then (c, false)
    else
      let upgraded :=
        if String.eqb statType "strength" then
          Some (set_Strength (GoInt.add (Strength c) upgradeAmount) c)
        else if String.eqb statType "agility" then
          Some (set_Agility (GoInt.add (Agility c) upgradeAmount) c)
        else if String.eqb statType "vitality" then
          Some (set_Vitality (GoInt.add (Vitality c) upgradeAmount) c)
        else if String.eqb statType "intelligence" then
          Some (set_Intelligence (GoInt.add (Intelligence c) upgradeAmount) c)
        else None in
      match upgraded with
      | None => (c, false)
      | Some c1 =>
          (set_ChannelPointsSpent
             (GoInt.add (ChannelPointsSpent c1) channelPoints) c1, true)
      end.

(** [GetNextLevelExperience]: level * 1000. *)
Definition GetNextLevelExperience (c : t) : Z := GoInt.mul (Level c) 1000.

(** The body of the level-up loop of [AddExperience]. *)
Definition level_up (c : t) : t :=
  let c1 := set_Experience (GoInt.sub (Experience c) (GetNextLevelExperience c)) c in
  let c2 := set_Level (GoInt.add (Level c1) 1) c1 in
  let c3 := set_Strength (GoInt.add (Strength c2) 1) c2 in
  let c4 := set_Agility (GoInt.add (Agility c3) 1) c3 in
  let c5 := set_Vitality (GoInt.add (Vitality c4) 1) c4 in
  set_Intelligence (GoInt.add (Intelligence c5) 1) c5.

(** The [for c.Experience >= c.GetNextLevelExperience()] loop; [fuel]
    bounds the number of iterations, [None] means it ran out. *)
Fixpoint AddExperience_loop (fuel : nat) (c : t) (leveledUp : bool)
  : option (t * bool) :=
  if GetNextLevelExperience c <=? Experience c then
    match fuel with
    | O => None
    | S fuel' => AddExperience_loop fuel' (level_up c) true
    end
  else Some (c, leveledUp).

(** [AddExperience]: adds experience and handles level ups. *)
Definition AddExperience (fuel : nat) (c : t) (exp : Z) : option (t * bool) :=
  AddExperience_loop fuel
    (set_Experience (GoInt.add (Experience c) exp) c) false.

End Character.

(** ** Go's [float64] *)

Module Float64.

Definition prec : Z := 53.
Definition emax : Z := 1024.

(** The conversion [float64(n)] of an integer: round to nearest, ties to
    even. *)
Definition of_int (n : Z) : spec_float := binary_normalize prec emax n 0 false.

(** [x / y] *)
Definition div (x y : spec_float) : spec_float := SFdiv prec emax x y.

(** [x > y]; false as soon as one side is NaN. *)
Definition gt (x y : spec_float) : bool := SFltb y x.

(** [x <= y]; false as soon as one side is NaN. *)
Definition le (x y : spec_float) : bool := SFleb x y.

Definition is_nan (x : spec_float) : bool :=
  match x with
  | S754_nan => true
  | _ => false
  end.

End Float64.

(** ** Combat, event and merchant records *)

Module CombatLog.
Record t := mk {
  ID : Z;
  AttackerID : Z;
  DefenderID : Z;
  WinnerID : Z;
  AttackerPower : Z;
  DefenderPower : Z;
  CombatLogText : string;
  CreatedAt : Time;
  (* populated fields *)
  Attacker : option Character.t;
  Defender : option Character.t;
  Winner : option Character.t
}.

Definition set_ID_CreatedAt (id : Z) (now : Time) (l : t) : t :=
  mk id (AttackerID l) (DefenderID l) (WinnerID l) (AttackerPower l)
     (DefenderPower l) (CombatLogText l) now (Attacker l) (Defender l)
     (Winner l).
End CombatLog.

Module CombatResult.
Record t := mk {
  Winner : Character.t;
  Loser : Character.t;
  AttackerPower : Z;
  DefenderPower : Z;
  CombatLog : string;
  ExperienceGained : Z;
  RewardItems : list Item.t
}.
End CombatResult.

Module Event.
(** Modelled from the spec: the declaration of [models.Event] is not among
    the sources; the fields are those the in-memory backend and the event
    service read and write (an append-only notification record with a type
    tag, a payload and a delivered flag). *)
Record t := mk {
  ID : Z;
  Type_ : string;
  Title : string;
  Description : string;
  Data : string;
  IsTriggered : bool;
  CreatedAt : Time;
  ExpiresAt : option Time
}.
End Event.

Module MerchantEvent.
Record t := mk {
  ID : Z;
  EventType : string;
  AvailableItems : string;
  StartTime : Time;
  EndTime : option Time;
  IsActive : bool;
  (* populated fields *)
  Items : list Item.t
}.

Definition set_IsActive (v : bool) (m : t) : t :=
  mk (ID m) (EventType m) (AvailableItems m) (StartTime m) (EndTime m) v
     (Items m).
End MerchantEvent.

(** A Go [(value, error)] pair: either the value or the message of the
    error. *)
Inductive result (A : Type) : Type :=
| Ok (a : A)
| Error (msg : string).
Arguments Ok {A} a.
Arguments Error {A} msg.

(** [time.Duration(minutes) * time.Minute], in nanoseconds. *)
Definition minutes (n : Z) : Z := GoInt.mul n 60000000000.

(** [t.Add(d)], with times in nanoseconds. *)
Definition time_add (t : Time) (d : Z) : Time := t + d.

(** ** The in-memory backend: [internal/storage/memory.go] *)

Module MemoryStorage.

Record t := mk {
  characters : gmap Z Character.t;
  items : gmap Z Item.t;
  combatLogs : list CombatLog.t;
  events : list Event.t;
  (** [merchants] holds values: each entry is the copy made when the event
      was appended. *)
  merchants : list MerchantEvent.t;
  (** The [MerchantEvent] objects allocated by [CreateMerchant], by address;
      [activeMerchant] is a nilable pointer to one of them. *)
  merchantObjects : list MerchantEvent.t;
  activeMerchant : option nat;
  inventories : gmap Z (list Item.t);
  nextCharacterID : Z;
  nextCombatLogID : Z;
  nextEventID : Z;
  nextMerchantID : Z
}.

Definition set_characters (v : gmap Z Character.t) (ms : t) : t :=
  mk v (items ms) (combatLogs ms) (events ms) (merchants ms)
     (merchantObjects ms) (activeMerchant ms) (inventories ms)
     (nextCharacterID ms) (nextCombatLogID ms) (nextEventID ms)
     (nextMerchantID ms).

(** [initializeSampleData], on the maps of [NewMemoryStorage]. *)
Definition sample_items (now1 now2 now3 : Time) : gmap Z Item.t :=
  <[3 := Item.mk 3 "Leather Pants" Item.ItemTypePants Item.RarityCommon
           1 3 2 0 None 40 false now3]>
  (<[2 := Item.mk 2 "Mystic Sword" Item.ItemTypeRing Item.RarityRare
            5 3 2 4 (Some "Increases magic damage") 200 true now2]>
   (<[1 := Item.mk 1 "Iron Boots" Item.ItemTypeBoots Item.RarityCommon
             2 1 1 0 None 50 false now1]> ∅)).

(** The one-character string holding a double quote. *)
Definition dquote : string := String (Ascii.ascii_of_nat 34) EmptyString.

Definition sample_event (now : Time) : Event.t :=
  Event.mk 1 "combat" "Epic Battle" "A fierce battle took place in the arena"
    ("{" ++ dquote ++ "winner" ++ dquote ++ ": " ++ dquote ++ "TestUser"
     ++ dquote ++ ", " ++ dquote ++ "experience" ++ dquote ++ ": 100}")
    false now None.

(** [NewMemoryStorage]; the four times are the successive [time.Now()]
    readings of [initializeSampleData]. *)
Definition NewMemoryStorage (now1 now2 now3 now4 : Time) : t :=
  mk ∅ (sample_items now1 now2 now3) [] [sample_event now4] [] [] None ∅
     1 1 1 1.

(** [CreateCharacter]; [created] and [updated] are the two [time.Now()]
    readings. Returns the store and the new character, or the error. *)
Definition CreateCharacter (ms : t) (username : string)
    (twitchUserID : option string) (created updated : Time)
  : t * result Character.t :=
  if existsb (fun kc => String.eqb (Character.Username (snd kc)) username)
       (map_to_list (characters ms))
  then (ms, Error ("character with username '" ++ username ++ "' already exists"))
  else
    let char0 :=
      Character.mk (nextCharacterID ms) username twitchUserID 1 0 0
        10 10 10 10 None None None None None None created updated
        None None 0 in
    let char := Character.set_CombatPower (Character.CalculateCombatPower char0) char0 in
    (mk (<[nextCharacterID ms := char]> (characters ms)) (items ms)
        (combatLogs ms) (events ms) (merchants ms) (merchantObjects ms)
        (activeMerchant ms) (inventories ms)
        (GoInt.add (nextCharacterID ms) 1) (nextCombatLogID ms)
        (nextEventID ms) (nextMerchantID ms),
     Ok char).

(** [GetCharacterByID]: a copy of the stored record with its combat power
    recomputed, or [nil]. *)
Definition GetCharacterByID (ms : t) (id : Z) : option Character.t :=
  match characters ms !! id with
  | None => None
  | Some char =>
      Some (Character.set_CombatPower (Character.CalculateCombatPower char) char)
  end.

(** [UpdateCharacter]: stamps the record and stores it under its own ID.
    Returns the store, and the stamped record (the caller's object is
    stamped too) or the error. *)
Definition UpdateCharacter (ms : t) (char : Character.t) (now : Time)
  : t * result Character.t :=
  match characters ms !! Character.ID char with
  | None => (ms, Error "character not found")
  | Some _ =>
      let char' := Character.set_UpdatedAt now char in
      (set_characters (<[Character.ID char := char']> (characters ms)) ms,
       Ok char')
  end.

(** [GetAllCharacters]. The [range] over the map visits the entries in an
    unspecified order; [order] is the sequence of keys it happens to visit,
    a permutation of the keys of the map. *)
Definition GetAllCharacters (ms : t) (order : list Z) : list Character.t :=
  omap (fun id =>
          match characters ms !! id with
          | None => None
          | Some char =>
              Some (Character.set_CombatPower
                      (Character.CalculateCombatPower char) char)
          end) order.

(** The iteration orders a [range] over the characters can take. *)
Definition iteration_order (ms : t) (order : list Z) : Prop :=
  order ≡ₚ (map_to_list (characters ms)).*1.

(** [GetItemByID]. *)
Definition GetItemByID (ms : t) (id : Z) : option Item.t := items ms !! id.

(** [AddCombatLog]. *)
Definition AddCombatLog (ms : t) (log : CombatLog.t) (now : Time) : t :=
  mk (characters ms) (items ms)
     (combatLogs ms ++ [CombatLog.set_ID_CreatedAt (nextCombatLogID ms) now log])
     (events ms) (merchants ms) (merchantObjects ms) (activeMerchant ms)
     (inventories ms) (nextCharacterID ms)
     (GoInt.add (nextCombatLogID ms) 1) (nextEventID ms) (nextMerchantID ms).

(** [GetCurrentMerchant]: a copy of the active event while it has not
    expired; an expired event is dropped from [activeMerchant]. *)
Definition GetCurrentMerchant (ms : t) (now : Time)
  : t * option MerchantEvent.t :=
  match activeMerchant ms with
  | None => (ms, None)
  | Some p =>
      match merchantObjects ms !! p with
      | None => (ms, None)
      | Some m =>
          if MerchantEvent.IsActive m then
            match MerchantEvent.EndTime m with
            | None => (ms, Some m)
            | Some e =>
                if now <? e then (ms, Some m)
                else
                  (mk (characters ms) (items ms) (combatLogs ms) (events ms)
                      (merchants ms) (merchantObjects ms) None
                      (inventories ms) (nextCharacterID ms)
                      (nextCombatLogID ms) (nextEventID ms)
                      (nextMerchantID ms), None)
            end
          else (ms, None)
      end
  end.

(** [CreateMerchant]; [now1] and [now2] are the two [time.Now()] readings.
    The previously active object, if any, is deactivated in place; the new
    object is allocated, made the active one, and a copy of it is appended
    to [merchants]. *)
Definition CreateMerchant (ms : t) (eventType : string) (durationMinutes : Z)
    (now1 now2 : Time) : t * MerchantEvent.t :=
  let objects :=
    match activeMerchant ms with
    | None => merchantObjects ms
    | Some p => alter (MerchantEvent.set_IsActive false) p (merchantObjects ms)
    end in
  let endTime := time_add now1 (minutes durationMinutes) in
  let merchant :=
    MerchantEvent.mk (nextMerchantID ms) eventType "[1,2,3]" now2
      (Some endTime) true [] in
  (mk (characters ms) (items ms) (combatLogs ms) (events ms)
      (merchants ms ++ [merchant]) (objects ++ [merchant])
      (Some (length objects)) (inventories ms) (nextCharacterID ms)
      (nextCombatLogID ms) (nextEventID ms)
      (GoInt.add (nextMerchantID ms) 1),
   merchant).

(** [PurchaseItem]: no stock is kept in this backend. *)
Definition PurchaseItem (ms : t) (characterID itemID price : Z)
  : t * result unit :=
  match characters ms !! characterID with
  | None => (ms, Error "character not found")
  | Some char =>
      match items ms !! itemID with
      | None => (ms, Error "item not found")
      | Some item =>
          let char' :=
            Character.set_ChannelPointsSpent
              (GoInt.add (Character.ChannelPointsSpent char) price) char in
          (mk (<[characterID := char']> (characters ms)) (items ms)
              (combatLogs ms) (events ms) (merchants ms)
              (merchantObjects ms) (activeMerchant ms)
              (<[characterID :=
                   (default [] (inventories ms !! characterID) ++ [item])%list]>
                 (inventories ms))
              (nextCharacterID ms) (nextCombatLogID ms) (nextEventID ms)
              (nextMerchantID ms),
           Ok tt)
      end
  end.

End MemoryStorage.

(** ** The relational backend

    The tables of [scripts/schema.sql] that the services query, each as the
    list of its rows in insertion order, with the counters of the
    [AUTO_INCREMENT] keys.  A statement sent to the database is modelled by
    what it does to these rows; driver and connection failures are not
    modelled, so the only error a query reports is [sql.ErrNoRows]. *)

Module MerchantEventItem.
(** A row of [merchant_event_items], with the columns the statements of
    [MerchantService] name. *)
Record t := mk {
  id : Z;
  merchant_event_id : Z;
  item_id : Z;
  price_channel_points : Z;
  stock : Z;
  purchased : Z
}.

Definition set_purchased (v : Z) (r : t) : t :=
  mk (id r) (merchant_event_id r) (item_id r) (price_channel_points r)
     (stock r) v.
End MerchantEventItem.

Module CharacterItemRow.
(** A row of [character_items]. *)
Record t := mk {
  id : Z;
  character_id : Z;
  item_id : Z;
  quantity : Z;
  acquired_at : Time
}.

Definition set_quantity (v : Z) (r : t) : t :=
  mk (id r) (character_id r) (item_id r) v (acquired_at r).
End CharacterItemRow.

Module Database.

Record t := mk {
  (** [characters]: the persisted columns of a [Character.t]; the calculated
      fields of a row are not stored and never read. *)
  characters : list Character.t;
  items : list Item.t;
  character_items : list CharacterItemRow.t;
  combat_logs : list CombatLog.t;
  merchant_events : list MerchantEvent.t;
  merchant_event_items : list MerchantEventItem.t;
  next_character_item_id : Z;
  next_combat_log_id : Z;
  next_merchant_event_id : Z;
  next_merchant_event_item_id : Z
}.

Definition set_characters (v : list Character.t) (db : t) : t :=
  mk v (items db) (character_items db) (combat_logs db) (merchant_events db)
     (merchant_event_items db) (next_character_item_id db)
     (next_combat_log_id db) (next_merchant_event_id db)
     (next_merchant_event_item_id db).

Definition set_merchant_event_items (v : list MerchantEventItem.t) (db : t) : t :=
  mk (characters db) (items db) (character_items db) (combat_logs db)
     (merchant_events db) v (next_character_item_id db)
     (next_combat_log_id db) (next_merchant_event_id db)
     (next_merchant_event_item_id db).

End Database.

(** The process-wide state: [database.DB] ([None] when the connection is
    nil) and [storage.Memory]. *)
Record World := mkWorld {
  DB : option Database.t;
  Memory : MemoryStorage.t
}.

(** ** [ItemService] *)

Module ItemService.

(** [GetItemByID], relational path:
    [SELECT ... FROM items WHERE id = ?]. *)
Definition GetItemByID_db (db : Database.t) (id : Z) : option Item.t :=
  find (fun it => Item.ID it =? id) (Database.items db).

(** [GetItemByID]. *)
Definition GetItemByID (w : World) (id : Z) : option Item.t :=
  match DB w with
  | None => MemoryStorage.GetItemByID (Memory w) id
  | Some db => GetItemByID_db db id
  end.


(** [AddItemToCharacter], relational path. *)
Definition AddItemToCharacter_db (db : Database.t)
    (characterID itemID quantity : Z) (now : Time) : Database.t :=
  let matches (r : CharacterItemRow.t) : bool :=
    (CharacterItemRow.character_id r =? characterID)
    && (CharacterItemRow.item_id r =? itemID) in
  let rows := Database.character_items db in
  let '(rows', next) :=
    match find matches rows with
    | None =>
        ((rows ++ [CharacterItemRow.mk (Database.next_character_item_id db)
                     characterID itemID quantity now])%list,
         GoInt.add (Database.next_character_item_id db) 1)
    | Some _ =>
        (map (fun r =>
                if matches r
                then CharacterItemRow.set_quantity
                       (GoInt.add (CharacterItemRow.quantity r) quantity) r
                else r) rows,
         Database.next_character_item_id db)
    end in
  Database.mk (Database.characters db) (Database.items db) rows'
    (Database.combat_logs db) (Database.merchant_events db)
    (Database.merchant_event_items db) next (Database.next_combat_log_id db)
    (Database.next_merchant_event_id db)
    (Database.next_merchant_event_item_id db).

End ItemService.

(** ** [CharacterService] *)

Module CharacterService.

(** The struct a row of [characters] is scanned into by the lookups by id
    and by username: every stored column, calculated fields zero. *)
Definition scan (row : Character.t) : Character.t :=
  Character.mk (Character.ID row) (Character.Username row)
    (Character.TwitchUserID row) (Character.Level row)
    (Character.Experience row) (Character.ChannelPointsSpent row)
    (Character.Strength row) (Character.Agility row) (Character.Vitality row)
    (Character.Intelligence row) (Character.BootsID row)
    (Character.PantsID row) (Character.ArmorID row) (Character.HelmetID row)
    (Character.RingID row) (Character.ChainID row) (Character.CreatedAt row)
    (Character.UpdatedAt row) None None 0.

(** [loadCharacterEquipment]: one item lookup per populated slot. *)
Definition loadCharacterEquipment (db : Database.t) (character : Character.t)
  : Character.t :=
  let load (slot : option Z) : option Item.t :=
    match slot with
    | None => None
    | Some id => ItemService.GetItemByID_db db id
    end in
  let equipment :=
    Equipment.mk (load (Character.BootsID character))
      (load (Character.PantsID character))
      (load (Character.ArmorID character))
      (load (Character.HelmetID character))
      (load (Character.RingID character))
      (load (Character.ChainID character)) in
  Character.set_Equipment (Some equipment) character.

(** [GetCharacterByID], relational path: the row, its equipment, and the
    derived stats; [None] is [nil] (no such row). *)
Definition GetCharacterByID_db (db : Database.t) (id : Z) : option Character.t :=
  match find (fun row => Character.ID row =? id) (Database.characters db) with
  | None => None
  | Some row =>
      let character := loadCharacterEquipment db (scan row) in
      let totalStats := Character.CalculateTotalStats character in
      let character := Character.set_TotalStats (Some totalStats) character in
      Some (Character.set_CombatPower
              (Character.CalculateCombatPower character) character)
  end.

(** [GetCharacterByID]. *)
Definition GetCharacterByID (w : World) (id : Z) : result (option Character.t) :=
  match DB w with
  | None => Error "database connection not available"
  | Some db => Ok (GetCharacterByID_db db id)
  end.

(** Whether [UPDATE characters SET ...] changes a column of [row]. *)
Definition columns_differ (row character : Character.t) : bool :=
  negb
    ((Character.Level row =? Character.Level character)
     && (Character.Experience row =? Character.Experience character)
     && (Character.ChannelPointsSpent row =? Character.ChannelPointsSpent character)
     && (Character.Strength row =? Character.Strength character)
     && (Character.Agility row =? Character.Agility character)
     && (Character.Vitality row =? Character.Vitality character)
     && (Character.Intelligence row =? Character.Intelligence character)
     && bool_decide (Character.BootsID row = Character.BootsID character)
     && bool_decide (Character.PantsID row = Character.PantsID character)
     && bool_decide (Character.ArmorID row = Character.ArmorID character)
     && bool_decide (Character.HelmetID row = Character.HelmetID character)
     && bool_decide (Character.RingID row = Character.RingID character)
     && bool_decide (Character.ChainID row = Character.ChainID character)).

(** What the [UPDATE] makes of a row with the id of [character]: the
    thirteen named columns are overwritten, and [updated_at]
    ([ON UPDATE CURRENT_TIMESTAMP]) is stamped when one of them changes. *)
Definition updated_row (row character : Character.t) (now : Time) : Character.t :=
  Character.mk (Character.ID row) (Character.Username row)
    (Character.TwitchUserID row) (Character.Level character)
    (Character.Experience character) (Character.ChannelPointsSpent character)
    (Character.Strength character) (Character.Agility character)
    (Character.Vitality character) (Character.Intelligence character)
    (Character.BootsID character) (Character.PantsID character)
    (Character.ArmorID character) (Character.HelmetID character)
    (Character.RingID character) (Character.ChainID character)
    (Character.CreatedAt row)
    (if columns_differ row character then now else Character.UpdatedAt row)
    (Character.Equipment row) (Character.TotalStats row)
    (Character.CombatPower row).

(** [UpdateCharacter]: [UPDATE characters SET ... WHERE id = ?]. *)
Definition UpdateCharacter (db : Database.t) (character : Character.t)
    (now : Time) : Database.t :=
  Database.set_characters
    (map (fun row =>
            if Character.ID row =? Character.ID character
            then updated_row row character now
            else row) (Database.characters db)) db.

(** The struct a row is scanned into by [GetAllCharacters], which selects
    id, username, level, experience, the four stats and created_at. *)
Definition scan_listing (row : Character.t) : Character.t :=
  Character.mk (Character.ID row) (Character.Username row) None
    (Character.Level row) (Character.Experience row) 0
    (Character.Strength row) (Character.Agility row) (Character.Vitality row)
    (Character.Intelligence row) None None None None None None
    (Character.CreatedAt row) 0 None None 0.

(** [a] comes no later than [b] under
    [ORDER BY level DESC, experience DESC]. *)
Definition leaderboard_leb (a b : Character.t) : bool :=
  (Character.Level b <? Character.Level a)
  || ((Character.Level a =? Character.Level b)
      && (Character.Experience b <=? Character.Experience a)).

Fixpoint order_insert (row : Character.t) (sorted : list Character.t)
  : list Character.t :=
  match sorted with
  | [] => [row]
  | r :: rest =>
      if leaderboard_leb row r then row :: r :: rest
      else r :: order_insert row rest
  end.

(** The rows under [ORDER BY level DESC, experience DESC]; rows that tie
    keep their table order. *)
Definition order_by_leaderboard (rows : list Character.t) : list Character.t :=
  fold_right order_insert [] rows.

(** [GetAllCharacters], relational path. *)
Definition GetAllCharacters_db (db : Database.t) : list Character.t :=
  map (fun row =>
         let char := scan_listing row in
         Character.set_CombatPower (Character.CalculateCombatPower char) char)
      (order_by_leaderboard (Database.characters db)).

(** [GetAllCharacters]. *)
Definition GetAllCharacters (w : World) : result (list Character.t) :=
  match DB w with
  | None => Error "database connection not available"
  | Some db => Ok (GetAllCharacters_db db)
  end.

End CharacterService.

(** ** [CombatService] *)

Module CombatService.

(** [fmt.Sprintf("%s defeated %s! Experience gained: %d", ...)]. *)
Definition combat_text (winner loser : string) (experienceGained : Z) : string :=
  winner ++ " defeated " ++ loser ++ "! Experience gained: "
  ++ pretty experienceGained.

(** The win chance of the attacker,
    [float64(attackerPower) / float64(attackerPower+defenderPower)]. *)
Definition attackerChance (attackerPower defenderPower : Z) : spec_float :=
  Float64.div (Float64.of_int attackerPower)
              (Float64.of_int (GoInt.add attackerPower defenderPower)).

(** The level-up check both combat flows apply to the winner: one
    comparison against level * 100. *)
Definition check_level_up (winner : Character.t) : Character.t :=
  let expForNextLevel := GoInt.mul (Character.Level winner) 100 in
  if expForNextLevel <=? Character.Experience winner then
    let winner1 := Character.set_Level (GoInt.add (Character.Level winner) 1) winner in
    Character.set_Experience
      (GoInt.sub (Character.Experience winner1) expForNextLevel) winner1
  else winner.

(** [startCombatMemory]; [randomRoll] is the draw of [rand.Float64()],
    [now1] and [now2] the clock readings of [UpdateCharacter] and
    [AddCombatLog]. *)
Definition startCombatMemory (ms : MemoryStorage.t) (attackerID defenderID : Z)
    (randomRoll : spec_float) (now1 now2 : Time)
  : MemoryStorage.t * result CombatResult.t :=
  match MemoryStorage.GetCharacterByID ms attackerID with
  | None => (ms, Error "attacker not found")
  | Some attacker =>
  match MemoryStorage.GetCharacterByID ms defenderID with
  | None => (ms, Error "defender not found")
  | Some defender =>
      let attackerPower := Character.CalculateCombatPower attacker in
      let defenderPower := Character.CalculateCombatPower defender in
      let chance := attackerChance attackerPower defenderPower in
      let '(winner, loser) :=
        if Float64.gt randomRoll chance then (defender, attacker)
        else (attacker, defender) in
      let experienceGained := GoInt.add 50 (GoInt.mul (Character.Level loser) 10) in
      let winner :=
        Character.set_Experience
          (GoInt.add (Character.Experience winner) experienceGained) winner in
      let winner := check_level_up winner in
      match MemoryStorage.UpdateCharacter ms winner now1 with
      | (ms1, Error msg) => (ms1, Error ("failed to update winner: " ++ msg))
      | (ms1, Ok winner) =>
          let text :=
            combat_text (Character.Username winner) (Character.Username loser)
              experienceGained in
          let combatResult :=
            CombatResult.mk winner loser attackerPower defenderPower text
              experienceGained [] in
          let combatLog :=
            CombatLog.mk 0 attackerID defenderID (Character.ID winner)
              attackerPower defenderPower text 0 None None None in
          (MemoryStorage.AddCombatLog ms1 combatLog now2, Ok combatResult)
      end
  end
  end.

(** [logCombat]: [INSERT INTO combat_logs ...]; the attacker column receives
    the winner's id and the defender column the loser's. *)
Definition logCombat (db : Database.t) (res : CombatResult.t) (now : Time)
  : Database.t :=
  let attackerID := Character.ID (CombatResult.Winner res) in
  let defenderID := Character.ID (CombatResult.Loser res) in
  Database.mk (Database.characters db) (Database.items db)
    (Database.character_items db)
    (Database.combat_logs db
     ++ [CombatLog.mk (Database.next_combat_log_id db) attackerID defenderID
           (Character.ID (CombatResult.Winner res))
           (CombatResult.AttackerPower res) (CombatResult.DefenderPower res)
           (CombatResult.CombatLog res) now None None None])
    (Database.merchant_events db) (Database.merchant_event_items db)
    (Database.next_character_item_id db)
    (GoInt.add (Database.next_combat_log_id db) 1)
    (Database.next_merchant_event_id db)
    (Database.next_merchant_event_item_id db).

(** [StartCombat], relational path. *)
Definition StartCombat_db (db : Database.t) (attackerID defenderID : Z)
    (randomRoll : spec_float) (now1 now2 : Time)
  : Database.t * result CombatResult.t :=
  match CharacterService.GetCharacterByID_db db attackerID with
  | None => (db, Error "attacker not found")
  | Some attacker =>
  match CharacterService.GetCharacterByID_db db defenderID with
  | None => (db, Error "defender not found")
  | Some defender =>
      let attackerPower := Character.CalculateCombatPower attacker in
      let defenderPower := Character.CalculateCombatPower defender in
      let chance := attackerChance attackerPower defenderPower in
      let '(winner, loser) :=
        if Float64.gt randomRoll chance then (defender, attacker)
        else (attacker, defender) in
      let experienceGained := GoInt.add 50 (GoInt.mul (Character.Level loser) 10) in
      let channelPointsReward := GoInt.add 25 (GoInt.mul (Character.Level loser) 5) in
      let winner :=
        Character.set_Experience
          (GoInt.add (Character.Experience winner) experienceGained) winner in
      let winner :=
        Character.set_ChannelPointsSpent
          (GoInt.sub (Character.ChannelPointsSpent winner) channelPointsReward)
          winner in
      let winner := check_level_up winner in
      let db1 := CharacterService.UpdateCharacter db winner now1 in
      let combatResult :=
        CombatResult.mk winner loser attackerPower defenderPower
          (combat_text (Character.Username winner) (Character.Username loser)
             experienceGained)
          experienceGained [] in
      (logCombat db1 combatResult now2, Ok combatResult)
  end
  end.

(** [StartCombat]. *)
Definition StartCombat (w : World) (attackerID defenderID : Z)
    (randomRoll : spec_float) (now1 now2 : Time)
  : World * result CombatResult.t :=
  match DB w with
  | None =>
      let '(ms, res) :=
        startCombatMemory (Memory w) attackerID defenderID randomRoll now1 now2 in
      (mkWorld None ms, res)
  | Some db =>
      let '(db', res) :=
        StartCombat_db db attackerID defenderID randomRoll now1 now2 in
      (mkWorld (Some db') (Memory w), res)
  end.

End CombatService.

(** ** [MerchantService] *)

Module MerchantService.





(** [PurchaseItem], relational path. *)
Definition PurchaseItem_db (db : Database.t)
    (characterID merchantEventItemID : Z) (now1 now2 : Time)
  : Database.t * result unit :=
  match find (fun r => MerchantEventItem.id r =? merchantEventItemID)
          (Database.merchant_event_items db) with
  | None =>
      (db, Error "failed to get merchant event item: sql: no rows in result set")
  | Some line =>
      let itemID := MerchantEventItem.item_id line in
      let price := MerchantEventItem.price_channel_points line in
      let stock := MerchantEventItem.stock line in
      let purchased := MerchantEventItem.purchased line in
      if stock <=? purchased then (db, Error "item is out of stock")
      else
        match CharacterService.GetCharacterByID_db db characterID with
        | None => (db, Error "character not found")
        | Some character =>
            if GoInt.add (Character.ChannelPointsSpent character) 1000
               <? GoInt.add (Character.ChannelPointsSpent character) price
            then (db, Error "insufficient channel points")
            else
              (* UPDATE merchant_event_items SET purchased = purchased + 1
                 WHERE id = ? *)
              let db1 :=
                Database.set_merchant_event_items
                  (map (fun r =>
                          if MerchantEventItem.id r =? merchantEventItemID
                          then MerchantEventItem.set_purchased
                                 (GoInt.add (MerchantEventItem.purchased r) 1) r
                          else r)
                       (Database.merchant_event_items db)) db in
              let db2 :=
                ItemService.AddItemToCharacter_db db1 characterID itemID 1 now1 in
              let character :=
                Character.set_ChannelPointsSpent
                  (GoInt.add (Character.ChannelPointsSpent character) price)
                  character in
              (CharacterService.UpdateCharacter db2 character now2, Ok tt)
        end
  end.

(** [PurchaseItem]. *)
Definition PurchaseItem (w : World) (characterID merchantEventItemID : Z)
    (now1 now2 : Time) : World * result unit :=
  match DB w with
  | None =>
      let itemID := merchantEventItemID in
      let price := 100 in
      let '(ms, res) :=
        MemoryStorage.PurchaseItem (Memory w) characterID itemID price in
      (mkWorld None ms, res)
  | Some db =>
      let '(db', res) :=
        PurchaseItem_db db characterID merchantEventItemID now1 now2 in
      (mkWorld (Some db') (Memory w), res)
  end.

End MerchantService.

(** ** The specification's formulas *)

Module Spec.

(** The bonus a slot contributes to one stat: the item's bonus when the slot
    is populated, nothing otherwise. *)
Definition slot_bonus (bonus : Item.t -> Z) (slot : option Item.t) : Z :=
  match slot with
  | Some it => bonus it
  | None => 0
  end.

(** Sum of one bonus over the six equipment slots; zero when no equipment
    is attached to the character. *)
Definition equipment_bonus (bonus : Item.t -> Z) (c : Character.t) : Z :=
  match Character.Equipment c with
  | None => 0
  | Some e => fold_right Z.add 0 (map (slot_bonus bonus) (Equipment.slots e))
  end.

Definition total_strength (c : Character.t) : Z :=
  Character.Strength c + equipment_bonus Item.StrengthBonus c.
Definition total_agility (c : Character.t) : Z :=
  Character.Agility c + equipment_bonus Item.AgilityBonus c.
Definition total_vitality (c : Character.t) : Z :=
  Character.Vitality c + equipment_bonus Item.VitalityBonus c.
Definition total_intelligence (c : Character.t) : Z :=
  Character.Intelligence c + equipment_bonus Item.IntelligenceBonus c.

(** combatPower = 3 STR + 2 AGI + 2 VIT + 1 INT + 5 level over total stats,
    as a mathematical integer. *)
Definition combatPower (c : Character.t) : Z :=
  3 * total_strength c + 2 * total_agility c + 2 * total_vitality c
  + 1 * total_intelligence c + 5 * Character.Level c.

(** The four recognised stat kinds. *)
Definition stat_kinds : list string :=
  ["strength"; "agility"; "vitality"; "intelligence"].

(** [q] when [kind] names the stat [name], zero otherwise. *)
Definition raise_of (kind name : string) (q : Z) : Z :=
  if decide (kind = name) then q else 0.

(** Fields that neither a stat upgrade nor a level-up touches. *)
Definition same_profile (c c' : Character.t) : Prop :=
  Character.ID c' = Character.ID c /\
  Character.Username c' = Character.Username c /\
  Character.TwitchUserID c' = Character.TwitchUserID c /\
  Character.BootsID c' = Character.BootsID c /\
  Character.PantsID c' = Character.PantsID c /\
  Character.ArmorID c' = Character.ArmorID c /\
  Character.HelmetID c' = Character.HelmetID c /\
  Character.RingID c' = Character.RingID c /\
  Character.ChainID c' = Character.ChainID c /\
  Character.CreatedAt c' = Character.CreatedAt c /\
  Character.Equipment c' = Character.Equipment c /\
  Character.TotalStats c' = Character.TotalStats c.

(** requiredExperienceForNextLevel(level) = level * 1000. *)
Definition requiredExperienceForNextLevel (level : Z) : Z := level * 1000.

(** Experience consumed by [k] successive level-ups starting at [level]. *)
Fixpoint consumed_experience (level : Z) (k : nat) : Z :=
  match k with
  | O => 0
  | S k' => requiredExperienceForNextLevel level
            + consumed_experience (level + 1) k'
  end.

(** What [k] level-ups make of a character, in exact arithmetic. *)
Definition levelled (c c' : Character.t) (k : nat) : Prop :=
  Character.Level c' = Character.Level c + Z.of_nat k /\
  Character.Strength c' = Character.Strength c + Z.of_nat k /\
  Character.Agility c' = Character.Agility c + Z.of_nat k /\
  Character.Vitality c' = Character.Vitality c + Z.of_nat k /\
  Character.Intelligence c' = Character.Intelligence c + Z.of_nat k /\
  Character.ChannelPointsSpent c' = Character.ChannelPointsSpent c /\
  Character.UpdatedAt c' = Character.UpdatedAt c /\
  Character.CombatPower c' = Character.CombatPower c /\
  same_profile c c'.

(** Room for the stats to grow by [n] without leaving Go's [int]. *)
Definition stats_fit (c : Character.t) (n : Z) : Prop :=
  (GoInt.int_min <= Character.Strength c /\ Character.Strength c + n <= GoInt.int_max) /\
  (GoInt.int_min <= Character.Agility c /\ Character.Agility c + n <= GoInt.int_max) /\
  (GoInt.int_min <= Character.Vitality c /\ Character.Vitality c + n <= GoInt.int_max) /\
  (GoInt.int_min <= Character.Intelligence c /\ Character.Intelligence c + n <= GoInt.int_max).

(** The win probability of the attacker in the words of the spec,
    attackerPower / (attackerPower + defenderPower): the quotient of the two
    integers, rounded to a [float64] as the draw is. *)
Definition win_ratio (attackerPower defenderPower : Z) : spec_float :=
  Float64.div (Float64.of_int attackerPower)
    (Float64.of_int (attackerPower + defenderPower)).

(** A character as listAll returns it for a stored [row], in the words of
    the spec: the row's identity, level, experience, base stats and creation
    time, no equipment joined, and the combat power of the base stats alone,
    3 STR + 2 AGI + 2 VIT + INT + 5 level, in Go's [int]. *)
Definition listed (row c : Character.t) : Prop :=
  Character.ID c = Character.ID row /\
  Character.Username c = Character.Username row /\
  Character.Level c = Character.Level row /\
  Character.Experience c = Character.Experience row /\
  Character.Strength c = Character.Strength row /\
  Character.Agility c = Character.Agility row /\
  Character.Vitality c = Character.Vitality row /\
  Character.Intelligence c = Character.Intelligence row /\
  Character.CreatedAt c = Character.CreatedAt row /\
  Character.Equipment c = None /\
  Character.TotalStats c = None /\
  Character.CombatPower c
  = GoInt.wrap (3 * Character.Strength row + 2 * Character.Agility row
                + 2 * Character.Vitality row + Character.Intelligence row
                + 5 * Character.Level row).

End Spec.

(** ** Observations on the state, and runs of the in-memory backend *)

Module System.

(** The character a combat call loads for an id, on the backend in use. *)
Definition loaded (w : World) (id : Z) : option Character.t :=
  match DB w with
  | None => MemoryStorage.GetCharacterByID (Memory w) id
  | Some db => CharacterService.GetCharacterByID_db db id
  end.

(** The persisted record of an id, on the backend in use. *)
Definition stored (w : World) (id : Z) : option Character.t :=
  match DB w with
  | None => MemoryStorage.characters (Memory w) !! id
  | Some db => find (fun row => Character.ID row =? id) (Database.characters db)
  end.

(** The combat log of the backend in use. *)
Definition combat_log (w : World) : list CombatLog.t :=
  match DB w with
  | None => MemoryStorage.combatLogs (Memory w)
  | Some db => Database.combat_logs db
  end.

(** The merchant line item of an id: a row of [merchant_event_items]; the
    in-memory backend keeps none. *)
Definition line_item (w : World) (id : Z) : option MerchantEventItem.t :=
  match DB w with
  | None => None
  | Some db =>
      find (fun r => MerchantEventItem.id r =? id)
        (Database.merchant_event_items db)
  end.

(** Every character of the in-memory store sits under its own id. *)
Definition well_keyed (ms : MemoryStorage.t) : Prop :=
  forall (k : Z) (c : Character.t),
    MemoryStorage.characters ms !! k = Some c -> Character.ID c = k.

(** No stored character of the in-memory store has equipment attached. *)
Definition unequipped (ms : MemoryStorage.t) : Prop :=
  forall (k : Z) (c : Character.t),
    MemoryStorage.characters ms !! k = Some c -> Character.Equipment c = None.

(** The store invariant: records sit under their own id and carry no
    equipment. *)
Definition tidy (ms : MemoryStorage.t) : Prop := well_keyed ms /\ unequipped ms.

(** A draw of [rand.Float64()]: a number in [0, 1). *)
Definition unit_draw (r : spec_float) : Prop :=
  Float64.le (Float64.of_int 0) r = true /\ SFltb r (Float64.of_int 1) = true.

(** Leaderboard order: level descending, then experience descending. *)
Definition leaderboard_le (a b : Character.t) : Prop :=
  Character.Level b < Character.Level a
  \/ (Character.Level a = Character.Level b
      /\ Character.Experience b <= Character.Experience a).

(** What differs between two worlds is at most the characters, the combat
    log and its id counter. *)
Definition same_elsewhere (w w' : World) : Prop :=
  match DB w, DB w' with
  | None, None =>
      let ms := Memory w in
      let ms' := Memory w' in
      MemoryStorage.items ms' = MemoryStorage.items ms /\
      MemoryStorage.events ms' = MemoryStorage.events ms /\
      MemoryStorage.merchants ms' = MemoryStorage.merchants ms /\
      MemoryStorage.merchantObjects ms' = MemoryStorage.merchantObjects ms /\
      MemoryStorage.activeMerchant ms' = MemoryStorage.activeMerchant ms /\
      MemoryStorage.inventories ms' = MemoryStorage.inventories ms /\
      MemoryStorage.nextCharacterID ms' = MemoryStorage.nextCharacterID ms /\
      MemoryStorage.nextEventID ms' = MemoryStorage.nextEventID ms /\
      MemoryStorage.nextMerchantID ms' = MemoryStorage.nextMerchantID ms
  | Some db, Some db' =>
      Memory w' = Memory w /\
      Database.items db' = Database.items db /\
      Database.character_items db' = Database.character_items db /\
      Database.merchant_events db' = Database.merchant_events db /\
      Database.merchant_event_items db' = Database.merchant_event_items db /\
      Database.next_character_item_id db' = Database.next_character_item_id db /\
      Database.next_merchant_event_id db' = Database.next_merchant_event_id db /\
      Database.next_merchant_event_item_id db'
      = Database.next_merchant_event_item_id db
  | _, _ => False
  end.

(** The operations that create characters and resolve combats on the
    in-memory backend. *)
Inductive op : Type :=
| Create (username : string) (twitchUserID : option string)
    (created updated : Time)
| Combat (attackerID defenderID : Z) (randomRoll : spec_float)
    (now1 now2 : Time).

Definition step (ms : MemoryStorage.t) (o : op) : MemoryStorage.t :=
  match o with
  | Create username twitchUserID created updated =>
      fst (MemoryStorage.CreateCharacter ms username twitchUserID created updated)
  | Combat attackerID defenderID randomRoll now1 now2 =>
      fst (CombatService.startCombatMemory ms attackerID defenderID randomRoll
             now1 now2)
  end.

(** An operation the running system can perform: the roll of a combat is a
    draw of [rand.Float64()]. *)
Definition possible (o : op) : Prop :=
  match o with
  | Create _ _ _ _ => True
  | Combat _ _ randomRoll _ _ => unit_draw randomRoll
  end.

(** The stores the in-memory backend can be in. *)
Inductive reachable : MemoryStorage.t -> Prop :=
| reachable_new (now1 now2 now3 now4 : Time) :
    reachable (MemoryStorage.NewMemoryStorage now1 now2 now3 now4)
| reachable_step (ms : MemoryStorage.t) (o : op) :
    reachable ms -> possible o -> reachable (step ms o).

(** [n] rounds in which character 1 beats character 2 and then character 2
    beats character 1, each as the attacker with the given roll. *)
Fixpoint rounds (n : nat) (roll : spec_float) (ms : MemoryStorage.t)
  : MemoryStorage.t :=
  match n with
  | O => ms
  | S n' =>
      rounds n' roll (step (step ms (Combat 1 2 roll 0 0)) (Combat 2 1 roll 0 0))
  end.

(** The two fighters in the order (winner, loser) for the roll [r]: the
    defender wins when the roll exceeds the attacker's chance. *)
Definition resolve (r : spec_float) (attacker defender : Character.t)
  : Character.t * Character.t :=
  if Float64.gt r
       (CombatService.attackerChance (Character.CalculateCombatPower attacker)
          (Character.CalculateCombatPower defender))
  then (defender, attacker)
  else (attacker, defender).

(** The experience both flows grant for beating [loser]. *)
Definition experience_for (loser : Character.t) : Z :=
  GoInt.add 50 (GoInt.mul (Character.Level loser) 10).

(** The winner as the in-memory flow hands it to [UpdateCharacter], and as
    it is stored. *)
Definition reward_memory (winner loser : Character.t) : Character.t :=
  CombatService.check_level_up
    (Character.set_Experience
       (GoInt.add (Character.Experience winner) (experience_for loser))
       winner).

Definition rewarded_memory (winner loser : Character.t) (now : Time)
  : Character.t :=
  Character.set_UpdatedAt now (reward_memory winner loser).

(** The winner as the relational flow hands it to [UpdateCharacter]. *)
Definition rewarded_db (winner loser : Character.t) : Character.t :=
  CombatService.check_level_up
    (Character.set_ChannelPointsSpent
       (GoInt.sub
          (Character.ChannelPointsSpent
             (Character.set_Experience
                (GoInt.add (Character.Experience winner) (experience_for loser))
                winner))
          (GoInt.add 25 (GoInt.mul (Character.Level loser) 5)))
       (Character.set_Experience
          (GoInt.add (Character.Experience winner) (experience_for loser))
          winner)).

(** The outcome of the in-memory flow for a given winner and loser: the
    store with the winner's record replaced and the log entry appended, and
    the result handed back. *)
Definition memory_outcome (ms : MemoryStorage.t) (a d : Z) (n1 n2 : Time)
    (attacker defender winner loser : Character.t)
  : MemoryStorage.t * result CombatResult.t :=
  let winner' := rewarded_memory winner loser n1 in
  let text :=
    CombatService.combat_text (Character.Username winner')
      (Character.Username loser) (experience_for loser) in
  (MemoryStorage.AddCombatLog
     (MemoryStorage.set_characters
        (<[Character.ID (reward_memory winner loser) := winner']>
           (MemoryStorage.characters ms)) ms)
     (CombatLog.mk 0 a d (Character.ID winner')
        (Character.CalculateCombatPower attacker)
        (Character.CalculateCombatPower defender) text 0 None None None) n2,
   Ok (CombatResult.mk winner' loser
         (Character.CalculateCombatPower attacker)
         (Character.CalculateCombatPower defender) text
         (experience_for loser) [])).

(** The outcome of the relational flow for a given winner and loser. *)
Definition db_outcome (db : Database.t) (n1 n2 : Time)
    (attacker defender winner loser : Character.t)
  : Database.t * result CombatResult.t :=
  let winner' := rewarded_db winner loser in
  let res :=
    CombatResult.mk winner' loser
      (Character.CalculateCombatPower attacker)
      (Character.CalculateCombatPower defender)
      (CombatService.combat_text (Character.Username winner')
         (Character.Username loser) (experience_for loser))
      (experience_for loser) [] in
  (CombatService.logCombat
     (CharacterService.UpdateCharacter db winner' n1) res n2, Ok res).

(** What the reward and the level-up check keep of the winner. *)
Definition kept (c c' : Character.t) : Prop :=
  Spec.same_profile c c' /\
  Character.Strength c' = Character.Strength c /\
  Character.Agility c' = Character.Agility c /\
  Character.Vitality c' = Character.Vitality c /\
  Character.Intelligence c' = Character.Intelligence c.



(** [n] consecutive purchase attempts of one line item by one character;
    the outcomes, first attempt first, and the final state. *)
Fixpoint purchases (n : nat) (w : World) (characterID lineItemID : Z)
  : World * list (result unit) :=
  match n with
  | O => (w, [])
  | S n' =>
      let '(w1, res) :=
        MerchantService.PurchaseItem w characterID lineItemID 0 0 in
      let '(w2, rest) := purchases n' w1 characterID lineItemID in
      (w2, res :: rest)
  end.

(** A character as a listing returns it: the record with its combat power
    recomputed. *)
Definition refreshed (c : Character.t) : Character.t :=
  Character.set_CombatPower (Character.CalculateCombatPower c) c.

(** The combat power of [c] is the weighted sum of its base stats alone. *)
Definition base_power (c : Character.t) : Prop :=
  Character.CombatPower c
  = GoInt.wrap (3 * Character.Strength c + 2 * Character.Agility c
                + 2 * Character.Vitality c + 1 * Character.Intelligence c
                + 5 * Character.Level c).

End System.

(** ** The claims that the code does not bear out, as stated *)

Module Stated.

(** "For every successful combat resolution, the loser's persisted character
    record is unchanged afterwards." *)
Definition loser_untouched : Prop :=
  forall (w : World) (a d : Z) (r : spec_float) (n1 n2 : Time)
         (w' : World) (res : CombatResult.t),
    CombatService.StartCombat w a d r n1 n2 = (w', Ok res) ->
    System.stored w' (Character.ID (CombatResult.Loser res))
    = System.stored w (Character.ID (CombatResult.Loser res)).

(** "For every purchase call, purchaseItem checks purchased < stock ... and
    on success increments the purchased count." *)
Definition stock_checked : Prop :=
  forall (w : World) (characterID lineItemID : Z) (n1 n2 : Time) (w' : World),
    MerchantService.PurchaseItem w characterID lineItemID n1 n2 = (w', Ok tt) ->
    exists line : MerchantEventItem.t,
      System.line_item w lineItemID = Some line /\
      MerchantEventItem.purchased line < MerchantEventItem.stock line /\
      System.line_item w' lineItemID
      = Some (MerchantEventItem.set_purchased
                (MerchantEventItem.purchased line + 1) line).

(** "The attacker is the winner iff r <= attackerPower / (attackerPower +
    defenderPower) (otherwise the defender wins)", for two distinct existing
    characters and a draw of [rand.Float64()]. *)
Definition attacker_wins_by_ratio : Prop :=
  forall (w : World) (a d : Z) (r : spec_float) (n1 n2 : Time)
         (attacker defender : Character.t) (w' : World) (res : CombatResult.t),
    System.loaded w a = Some attacker ->
    System.loaded w d = Some defender ->
    a <> d ->
    System.unit_draw r ->
    CombatService.StartCombat w a d r n1 n2 = (w', Ok res) ->
    (Character.ID (CombatResult.Winner res) = a
     <-> Float64.le r
           (Spec.win_ratio (Character.CalculateCombatPower attacker)
              (Character.CalculateCombatPower defender)) = true).

(** "listAll returns all characters ordered by level descending, then
    experience descending": whatever the state, the call hands back a list
    with a record for every stored character, in leaderboard order. *)
Definition listing_ordered : Prop :=
  forall w : World,
    exists l : list Character.t,
      CharacterService.GetAllCharacters w = Ok l /\
      (forall (id : Z) (c : Character.t),
         System.stored w id = Some c ->
         exists c' : Character.t, In c' l /\ Character.ID c' = id) /\
      StronglySorted System.leaderboard_le l.

(** The same order, asked of the listing of the in-memory store. *)
Definition store_listing_ordered : Prop :=
  forall (ms : MemoryStorage.t) (order : list Z),
    System.reachable ms ->
    MemoryStorage.iteration_order ms order ->
    StronglySorted System.leaderboard_le
      (MemoryStorage.GetAllCharacters ms order).

End Stated.

(** ** Sample data *)

Module Samples.

(** The store at start-up. *)
Definition store0 : MemoryStorage.t := MemoryStorage.NewMemoryStorage 0 0 0 0.

(** ... after creating "alice" (id 1) and "bob" (id 2). *)
Definition store2 : MemoryStorage.t :=
  System.step (System.step store0 (System.Create "alice" None 1 1))
    (System.Create "bob" None 2 2).

(** The draws 0.0 and 0.75. *)
Definition roll_zero : spec_float := Float64.of_int 0.
Definition roll_high : spec_float :=
  Float64.div (Float64.of_int 3) (Float64.of_int 4).

(** "alice" as created. *)
Definition alice : Character.t :=
  Character.mk 1 "alice" None 1 0 0 10 10 10 10 None None None None None None
    1 1 None None 85.

(** "alice" wearing the sample boots and ring. *)
Definition iron_boots : Item.t :=
  Item.mk 1 "Iron Boots" Item.ItemTypeBoots Item.RarityCommon 2 1 1 0 None 50
    false 0.
Definition mystic_ring : Item.t :=
  Item.mk 2 "Mystic Sword" Item.ItemTypeRing Item.RarityRare 5 3 2 4
    (Some "Increases magic damage") 200 true 0.
Definition alice_equipped : Character.t :=
  Character.set_Equipment
    (Some (Equipment.mk (Some iron_boots) None None None (Some mystic_ring) None))
    alice.

(** A relational backend with two characters, the sample items and one
    merchant line item with two units in stock, one of them sold. *)
Definition row (id : Z) (name : string) (level experience : Z) : Character.t :=
  Character.mk id name None level experience 0 10 10 10 10 None None None None
    None None 0 0 None None 0.

Definition database : Database.t :=
  Database.mk [row 1 "alice" 1 0; row 2 "bob" 3 120] [iron_boots; mystic_ring]
    [] [] []
    [MerchantEventItem.mk 1 1 2 400 2 1] 1 1 1 2.

Definition world_db : World := mkWorld (Some database) store0.
Definition world_memory : World := mkWorld None store2.

(** "bob" as created. *)
Definition bob : Character.t :=
  Character.mk 2 "bob" None 1 0 0 10 10 10 10 None None None None None None
    2 2 None None 85.

(** [store2] after "bob" has beaten "alice" twice. *)
Definition store_bob_ahead : MemoryStorage.t :=
  System.step (System.step store2 (System.Combat 2 1 roll_zero 3 3))
    (System.Combat 2 1 roll_zero 4 4).

(** [store2] after 1858 rounds of mutual wins and one more win of "alice",
    who is then at level 205; then "carol" (id 3) is created. *)
Definition veteran_store : MemoryStorage.t :=
  System.step (System.rounds 1858 roll_zero store2)
    (System.Combat 1 2 roll_zero 0 0).

Definition newcomer_store : MemoryStorage.t :=
  System.step veteran_store (System.Create "carol" None 4 4).




(** A relational backend whose two characters have no level and no stats:
    both have combat power 0. *)
Definition idle (id : Z) (name : string) : Character.t :=
  Character.mk id name None 0 0 0 0 0 0 0 None None None None None None
    0 0 None None 0.

Definition idle_database : Database.t :=
  Database.mk [idle 1 "alice"; idle 2 "bob"] [] [] [] [] [] 1 1 1 1.

Definition idle_world : World := mkWorld (Some idle_database) Samples.store0.

End Samples.

(** ** Item methods: [internal/models/item.go] *)

Module ItemOps.

(** [GetTotalStatBonus] *)
Definition GetTotalStatBonus (i : Item.t) : Z :=
  GoInt.add
    (GoInt.add (GoInt.add (Item.StrengthBonus i) (Item.AgilityBonus i))
       (Item.VitalityBonus i))
    (Item.IntelligenceBonus i).

(** [CanEquipToSlot] *)
Definition CanEquipToSlot (i : Item.t) (slotType : Item.ItemType) : bool :=
  String.eqb (Item.Type_ i) slotType.

(** The map literal [rarityOrder] of [IsUpgradeFor]; a key that is not in
    the map reads as 0. *)
Definition rarityOrder (r : Item.ItemRarity) : Z :=
  if String.eqb r Item.RarityCommon then 1
  else if String.eqb r Item.RarityRare then 2
  else if String.eqb r Item.RarityEpic then 3
  else if String.eqb r Item.RarityLegendary then 4
  else 0.

(** [IsUpgradeFor]; [other] is a nilable pointer. *)
Definition IsUpgradeFor (i : Item.t) (other : option Item.t) : bool :=
  match other with
  | None => true
  | Some other =>
      if negb (String.eqb (Item.Type_ i) (Item.Type_ other)) then false
      else
        let thisTotalBonus := GetTotalStatBonus i in
        let otherTotalBonus := GetTotalStatBonus other in
        if negb (thisTotalBonus =? otherTotalBonus)
        then otherTotalBonus <? thisTotalBonus
        else rarityOrder (Item.Rarity other) <? rarityOrder (Item.Rarity i)
  end.

(** [ValidateItemType] *)
Definition ValidateItemType (itemType : string) : bool :=
  String.eqb itemType Item.ItemTypeBoots
  || String.eqb itemType Item.ItemTypePants
  || String.eqb itemType Item.ItemTypeArmor
  || String.eqb itemType Item.ItemTypeHelmet
  || String.eqb itemType Item.ItemTypeRing
  || String.eqb itemType Item.ItemTypeChain.

(** [ValidateItemRarity] *)
Definition ValidateItemRarity (rarity : string) : bool :=
  String.eqb rarity Item.RarityCommon
  || String.eqb rarity Item.RarityRare
  || String.eqb rarity Item.RarityEpic
  || String.eqb rarity Item.RarityLegendary.

End ItemOps.

(** ** More of the in-memory backend: [internal/storage/memory.go] *)

Module MemoryStorageOps.
Import MemoryStorage.

Definition set_events (v : list Event.t) (ms : t) : t :=
  mk (characters ms) (items ms) (combatLogs ms) v (merchants ms)
     (merchantObjects ms) (activeMerchant ms) (inventories ms)
     (nextCharacterID ms) (nextCombatLogID ms) (nextEventID ms)
     (nextMerchantID ms).

Definition set_IsTriggered (v : bool) (e : Event.t) : Event.t :=
  Event.mk (Event.ID e) (Event.Type_ e) (Event.Title e) (Event.Description e)
    (Event.Data e) v (Event.CreatedAt e) (Event.ExpiresAt e).

(** The characters a [range] over the map visits when it takes the keys in
    the order [order]. *)
Definition visited_characters (ms : t) (order : list Z) : list Character.t :=
  omap (fun id => characters ms !! id) order.

(** The items a [range] over the map visits when it takes the keys in the
    order [order], and the orders it can take. *)
Definition visited_items (ms : t) (order : list Z) : list Item.t :=
  omap (fun id => items ms !! id) order.

Definition items_order (ms : t) (order : list Z) : Prop :=
  order ≡ₚ (map_to_list (items ms)).*1.

(** The loop of [GetCharacterByUsername]: the first visited character with
    the username, as a copy with its combat power recomputed. *)
Fixpoint GetCharacterByUsername_loop (visited : list Character.t)
    (username : string) : option Character.t :=
  match visited with
  | [] => None
  | char :: rest =>
      if String.eqb (Character.Username char) username
      then Some (Character.set_CombatPower
                   (Character.CalculateCombatPower char) char)
      else GetCharacterByUsername_loop rest username
  end.

(** [GetCharacterByUsername] *)
Definition GetCharacterByUsername (ms : t) (order : list Z) (username : string)
  : option Character.t :=
  GetCharacterByUsername_loop (visited_characters ms order) username.

(** The loop of [GetRandomItems], with its accumulator [items] and its
    counter [added]. *)
Fixpoint GetRandomItems_loop (visited : list Item.t) (count : Z)
    (isSpecial : bool) (items : list Item.t) (added : Z) : list Item.t :=
  match visited with
  | [] => items
  | item :: rest =>
      if Bool.eqb (Item.IsSpecial item) isSpecial && (added <? count)
      then GetRandomItems_loop rest count isSpecial (items ++ [item])
             (GoInt.add added 1)
      else GetRandomItems_loop rest count isSpecial items added
  end.

(** [GetRandomItems] *)
Definition GetRandomItems (ms : t) (order : list Z) (count : Z)
    (isSpecial : bool) : list Item.t :=
  GetRandomItems_loop (visited_items ms order) count isSpecial [] 0.

(** The loop of [GetItemsByType], with its accumulator and its two
    counters; it leaves the loop at the first item of the type met once
    [limit] items were added. *)
Fixpoint GetItemsByType_loop (visited : list Item.t) (itemType : Item.ItemType)
    (limit offset : Z) (items : list Item.t) (skipped added : Z)
  : list Item.t :=
  match visited with
  | [] => items
  | item :: rest =>
      if String.eqb (Item.Type_ item) itemType then
        if skipped <? offset then
          GetItemsByType_loop rest itemType limit offset items
            (GoInt.add skipped 1) added
        else if limit <=? added then items
        else
          GetItemsByType_loop rest itemType limit offset (items ++ [item])
            skipped (GoInt.add added 1)
      else GetItemsByType_loop rest itemType limit offset items skipped added
  end.

(** [GetItemsByType] *)
Definition GetItemsByType (ms : t) (order : list Z) (itemType : Item.ItemType)
    (limit offset : Z) : list Item.t :=
  GetItemsByType_loop (visited_items ms order) itemType limit offset [] 0 0.

(** The loop [for i := len(l) - 1; i >= start; i--] of [GetCombatHistory]
    and [GetLatestEvents]; [n] is [i + 1]. *)
Fixpoint newest_first {A : Type} (l : list A) (n : nat) (start : Z)
    (result : list A) : list A :=
  match n with
  | O => result
  | S i =>
      if start <=? Z.of_nat i then
        match l !! i with
        | Some x => newest_first l i start (result ++ [x])
        | None => result
        end
      else result
  end.

(** [start := len(l) - limit; if start < 0 { start = 0 }] *)
Definition history_start (len : nat) (limit : Z) : Z :=
  let start := GoInt.sub (Z.of_nat len) limit in
  if start <? 0 then 0 else start.

(** [GetCombatHistory] *)
Definition GetCombatHistory (ms : t) (limit : Z) : list CombatLog.t :=
  newest_first (combatLogs ms) (length (combatLogs ms))
    (history_start (length (combatLogs ms)) limit) [].

(** [GetLatestEvents] *)
Definition GetLatestEvents (ms : t) (limit : Z) : list Event.t :=
  newest_first (events ms) (length (events ms))
    (history_start (length (events ms)) limit) [].

(** The loop of [MarkEventTriggered]: the events with the first one of the
    id flagged, or [None] when no event has the id. *)
Fixpoint MarkEventTriggered_loop (events : list Event.t) (eventID : Z)
  : option (list Event.t) :=
  match events with
  | [] => None
  | e :: rest =>
      if Event.ID e =? eventID then Some (set_IsTriggered true e :: rest)
      else
        match MarkEventTriggered_loop rest eventID with
        | Some rest' => Some (e :: rest')
        | None => None
        end
  end.

(** [MarkEventTriggered] *)
Definition MarkEventTriggered (ms : t) (eventID : Z) : t * result unit :=
  match MarkEventTriggered_loop (events ms) eventID with
  | Some events' => (set_events events' ms, Ok tt)
  | None => (ms, Error "event not found")
  end.

(** [GetCharacterInventory] *)
Definition GetCharacterInventory (ms : t) (characterID : Z) : list Item.t :=
  match inventories ms !! characterID with
  | Some inventory => inventory
  | None => []
  end.

End MemoryStorageOps.

(** ** Invariants of the in-memory character map *)

Module Invariants.

(** No two stored characters share a username. *)
Definition unique_usernames (ms : MemoryStorage.t) : Prop :=
  forall (k1 k2 : Z) (c1 c2 : Character.t),
    MemoryStorage.characters ms !! k1 = Some c1 ->
    MemoryStorage.characters ms !! k2 = Some c2 ->
    Character.Username c1 = Character.Username c2 ->
    k1 = k2.

(** Every id in use is positive and below the id the next character will
    get. *)
Definition ids_below_counter (ms : MemoryStorage.t) : Prop :=
  1 <= MemoryStorage.nextCharacterID ms /\
  forall (k : Z) (c : Character.t),
    MemoryStorage.characters ms !! k = Some c ->
    1 <= k < MemoryStorage.nextCharacterID ms.

(** The record [CreateCharacter] makes for a username. *)
Definition fresh_character (id : Z) (username : string)
    (twitchUserID : option string) (created updated : Time) : Character.t :=
  Character.mk id username twitchUserID 1 0 0 10 10 10 10
    None None None None None None created updated None None 85.

End Invariants.

(** ** More of the services *)

Module ItemServiceOps.

(** [CharacterOwnsItem], relational path:
    [SELECT COUNT( * ) FROM character_items
     WHERE character_id = ? AND item_id = ?], then [count > 0]. *)
Definition CharacterOwnsItem_db (db : Database.t) (characterID itemID : Z)
  : bool :=
  let count :=
    Z.of_nat
      (length
         (filter (fun r => CharacterItemRow.character_id r = characterID
                           /\ CharacterItemRow.item_id r = itemID)
            (Database.character_items db))) in
  0 <? count.

(** [CharacterOwnsItem]: without a database every character is taken to
    own every item. *)
Definition CharacterOwnsItem (w : World) (characterID itemID : Z) : bool :=
  match DB w with
  | None => true
  | Some db => CharacterOwnsItem_db db characterID itemID
  end.

End ItemServiceOps.

Module CharacterServiceOps.

(** The six slot columns of a character. *)
Definition set_slots (boots pants armor helmet ring chain : option Z)
    (c : Character.t) : Character.t :=
  Character.mk (Character.ID c) (Character.Username c)
    (Character.TwitchUserID c) (Character.Level c) (Character.Experience c)
    (Character.ChannelPointsSpent c) (Character.Strength c)
    (Character.Agility c) (Character.Vitality c) (Character.Intelligence c)
    boots pants armor helmet ring chain
    (Character.CreatedAt c) (Character.UpdatedAt c) (Character.Equipment c)
    (Character.TotalStats c) (Character.CombatPower c).

(** The [switch] of [EquipItem] and of [UnequipItem]: the slot named by the
    type is set to [v]; [None] is the [default] case. *)
Definition assign_slot (slotType : Item.ItemType) (v : option Z)
    (c : Character.t) : option Character.t :=
  let b := Character.BootsID c in
  let p := Character.PantsID c in
  let a := Character.ArmorID c in
  let h := Character.HelmetID c in
  let r := Character.RingID c in
  let n := Character.ChainID c in
  if String.eqb slotType Item.ItemTypeBoots then Some (set_slots v p a h r n c)
  else if String.eqb slotType Item.ItemTypePants then Some (set_slots b v a h r n c)
  else if String.eqb slotType Item.ItemTypeArmor then Some (set_slots b p v h r n c)
  else if String.eqb slotType Item.ItemTypeHelmet then Some (set_slots b p a v r n c)
  else if String.eqb slotType Item.ItemTypeRing then Some (set_slots b p a h v n c)
  else if String.eqb slotType Item.ItemTypeChain then Some (set_slots b p a h r v c)
  else None.

(** [UpdateCharacter] as the services call it.  It does not test
    [database.DB]; the callers below reach it only with a database, having
    loaded the character first. *)
Definition UpdateCharacter (w : World) (character : Character.t) (now : Time)
  : World * result unit :=
  match DB w with
  | None => (w, Error "nil database")
  | Some db =>
      (mkWorld (Some (CharacterService.UpdateCharacter db character now))
         (Memory w), Ok tt)
  end.

(** [EquipItem] *)
Definition EquipItem (w : World) (characterID itemID : Z) (now : Time)
  : World * result unit :=
  match ItemService.GetItemByID w itemID with
  | None => (w, Error "item not found")
  | Some item =>
      match CharacterService.GetCharacterByID w characterID with
      | Error msg => (w, Error msg)
      | Ok None => (w, Error "character not found")
      | Ok (Some character) =>
          if negb (ItemServiceOps.CharacterOwnsItem w characterID itemID)
          then (w, Error "character does not own this item")
          else
            match assign_slot (Item.Type_ item) (Some itemID) character with
            | None => (w, Error "invalid item type")
            | Some character => UpdateCharacter w character now
            end
      end
  end.

(** [UnequipItem] *)
Definition UnequipItem (w : World) (characterID : Z)
    (slotType : Item.ItemType) (now : Time) : World * result unit :=
  match CharacterService.GetCharacterByID w characterID with
  | Error msg => (w, Error msg)
  | Ok None => (w, Error "character not found")
  | Ok (Some character) =>
      match assign_slot slotType None character with
      | None => (w, Error "invalid slot type")
      | Some character => UpdateCharacter w character now
      end
  end.

(** The slot column of a character that holds items of a type. *)
Definition slot_of (slotType : Item.ItemType) (c : Character.t) : option Z :=
  if String.eqb slotType Item.ItemTypeBoots then Character.BootsID c
  else if String.eqb slotType Item.ItemTypePants then Character.PantsID c
  else if String.eqb slotType Item.ItemTypeArmor then Character.ArmorID c
  else if String.eqb slotType Item.ItemTypeHelmet then Character.HelmetID c
  else if String.eqb slotType Item.ItemTypeRing then Character.RingID c
  else if String.eqb slotType Item.ItemTypeChain then Character.ChainID c
  else None.

(** The item loaded into the slot of a type. *)
Definition worn (slotType : Item.ItemType) (c : Character.t) : option Item.t :=
  match Character.Equipment c with
  | None => None
  | Some e =>
      if String.eqb slotType Item.ItemTypeBoots then Equipment.Boots e
      else if String.eqb slotType Item.ItemTypePants then Equipment.Pants e
      else if String.eqb slotType Item.ItemTypeArmor then Equipment.Armor e
      else if String.eqb slotType Item.ItemTypeHelmet then Equipment.Helmet e
      else if String.eqb slotType Item.ItemTypeRing then Equipment.Ring e
      else if String.eqb slotType Item.ItemTypeChain then Equipment.Chain e
      else None
  end.

End CharacterServiceOps.

(** ** Floating point: products and the conversion to [int] *)

Module Float64Ops.

(** [x * y] *)
Definition mul (x y : spec_float) : spec_float :=
  SFmul Float64.prec Float64.emax x y.

(** The conversion [int(f)]: the fraction is discarded (truncation toward
    zero).  For a value [int] cannot represent, and for infinities and NaN,
    the result depends on the platform; [unrepresentable] is what it
    yields. *)
Definition to_int (unrepresentable : Z) (f : spec_float) : Z :=
  match f with
  | S754_zero _ => 0
  | S754_finite s m e =>
      let magnitude :=
        match e with
        | Z0 => Zpos m
        | Zpos p => Zpos m * 2 ^ Zpos p
        | Zneg p => Zpos m / 2 ^ Zpos p
        end in
      let v := if s then - magnitude else magnitude in
      if (GoInt.int_min <=? v) && (v <=? GoInt.int_max) then v
      else unrepresentable
  | _ => unrepresentable
  end.

(** The constants 1.0, 1.5, 2.0, 3.0 and 1.2 as [float64]. *)
Definition c_1_0 : spec_float := Float64.of_int 1.
Definition c_1_5 : spec_float := Float64.div (Float64.of_int 3) (Float64.of_int 2).
Definition c_2_0 : spec_float := Float64.of_int 2.
Definition c_3_0 : spec_float := Float64.of_int 3.
Definition c_1_2 : spec_float := Float64.div (Float64.of_int 6) (Float64.of_int 5).

End Float64Ops.

Module ItemValue.

(** [GetRarityMultiplier] *)
Definition GetRarityMultiplier (i : Item.t) : spec_float :=
  if String.eqb (Item.Rarity i) Item.RarityCommon then Float64Ops.c_1_0
  else if String.eqb (Item.Rarity i) Item.RarityRare then Float64Ops.c_1_5
  else if String.eqb (Item.Rarity i) Item.RarityEpic then Float64Ops.c_2_0
  else if String.eqb (Item.Rarity i) Item.RarityLegendary then Float64Ops.c_3_0
  else Float64Ops.c_1_0.

(** [GetEffectiveValue] *)
Definition GetEffectiveValue (unrepresentable : Z) (i : Item.t) : Z :=
  Float64Ops.to_int unrepresentable
    (Float64Ops.mul (Float64.of_int (Item.Value i)) (GetRarityMultiplier i)).

End ItemValue.

(** ** [SimulateCombat]: [internal/models/combat.go] *)

Module Arena.

(** [power + (power * (rand.Intn(40) - 20) / 100)] for the draw [draw] of
    [rand.Intn(40)]. *)
Definition roll (power draw : Z) : Z :=
  GoInt.add power (GoInt.quot (GoInt.mul power (GoInt.sub draw 20)) 100).

Definition attacker_text (attacker defender : string) (attackerRoll defenderRoll : Z)
  : string :=
  attacker ++ " besiegt " ++ defender ++ "! (" ++ pretty attackerRoll ++ " vs "
  ++ pretty defenderRoll ++ " Kampfkraft)".

Definition defender_text (defender attacker : string) (defenderRoll attackerRoll : Z)
  : string :=
  defender ++ " verteidigt sich erfolgreich gegen " ++ attacker ++ "! ("
  ++ pretty defenderRoll ++ " vs " ++ pretty attackerRoll ++ " Kampfkraft)".

(** [SimulateCombat].  [draw1] and [draw2] are the two draws of
    [rand.Intn(40)]; [same_object] tells whether the two pointers are one
    and the same object, which is what [winner == defender] then sees also
    when the attacker wins. *)
Definition SimulateCombat (attacker defender : Character.t)
    (same_object : bool) (draw1 draw2 : Z) (unrepresentable : Z)
  : CombatResult.t :=
  let attackerPower := Character.CalculateCombatPower attacker in
  let defenderPower := Character.CalculateCombatPower defender in
  let attackerRoll := roll attackerPower draw1 in
  let defenderRoll := roll defenderPower draw2 in
  let attacker_wins := defenderRoll <? attackerRoll in
  let winner := if attacker_wins then attacker else defender in
  let loser := if attacker_wins then defender else attacker in
  let combatLog :=
    if attacker_wins
    then attacker_text (Character.Username attacker)
           (Character.Username defender) attackerRoll defenderRoll
    else defender_text (Character.Username defender)
           (Character.Username attacker) defenderRoll attackerRoll in
  let experienceGained := GoInt.mul (Character.Level loser) 50 in
  let experienceGained :=
    if (if attacker_wins then same_object else true)
    then Float64Ops.to_int unrepresentable
           (Float64Ops.mul (Float64.of_int experienceGained) Float64Ops.c_1_2)
    else experienceGained in
  CombatResult.mk winner loser attackerPower defenderPower combatLog
    experienceGained [].

End Arena.

(** ** More sample data *)

Module Wardrobe.

(** A second pair of boots, better than the iron ones. *)
Definition steel_boots : Item.t :=
  Item.mk 4 "Steel Boots" Item.ItemTypeBoots Item.RarityRare 3 2 1 0 None 120
    false 0.

(** The sample database with "alice" owning the iron boots. *)
Definition database : Database.t :=
  Database.mk (Database.characters Samples.database)
    (Database.items Samples.database)
    [CharacterItemRow.mk 1 1 1 1 0] [] []
    (Database.merchant_event_items Samples.database) 2 1 1 2.

Definition world : World := mkWorld (Some database) Samples.store0.

(** A fighter far stronger than "alice". *)
Definition champion : Character.t :=
  Character.mk 9 "champion" None 20 0 0 60 60 60 60 None None None None None
    None 0 0 None None 0.

End Wardrobe.

(** ** Runs of the services *)

Module Runs.




End Runs.

(** * Properties *)

(** ** Arithmetic of [GoInt.wrap] *)

Module GoIntFacts.
Import GoInt.

Lemma wrap_in_int z : in_int (wrap z).
Proof.
  unfold in_int, wrap, int_min, int_max.
  pose proof (Z.mod_pos_bound (z + 2 ^ 63) (2 ^ 64) ltac:(lia)). lia.
Qed.

Lemma wrap_id z : in_int z -> wrap z = z.
Proof.
  unfold in_int, wrap, int_min, int_max. intros H.
  rewrite Z.mod_small; lia.
Qed.

Lemma wrap_eqm z : wrap z mod 2 ^ 64 = z mod 2 ^ 64.
Proof.
  unfold wrap.
  rewrite Zminus_mod, Zmod_mod, <- Zminus_mod.
  f_equal. lia.
Qed.

Lemma wrap_congr a b : a mod 2 ^ 64 = b mod 2 ^ 64 -> wrap a = wrap b.
Proof.
  intros H. unfold wrap. f_equal.
  rewrite (Zplus_mod a), (Zplus_mod b), H. reflexivity.
Qed.

Lemma wrap_add_l a b : wrap (wrap a + b) = wrap (a + b).
Proof.
  apply wrap_congr. rewrite Zplus_mod, wrap_eqm, <- Zplus_mod. reflexivity.
Qed.

Lemma wrap_add_r a b : wrap (a + wrap b) = wrap (a + b).
Proof. rewrite Z.add_comm, wrap_add_l. f_equal. lia. Qed.

Lemma wrap_mul_l a b : wrap (wrap a * b) = wrap (a * b).
Proof.
  apply wrap_congr. rewrite Zmult_mod, wrap_eqm, <- Zmult_mod. reflexivity.
Qed.

Lemma wrap_wrap a : wrap (wrap a) = wrap a.
Proof. apply wrap_id, wrap_in_int. Qed.

End GoIntFacts.

(** ** Stat totals and combat power *)

Module CombatPowerFacts.
Import GoInt GoIntFacts.

Lemma eqm_refl a : eqm a a.
Proof. reflexivity. Qed.

Lemma add_eqm a b a' b' : eqm a a' -> eqm b b' -> eqm (add a b) (a' + b').
Proof.
  unfold eqm, add. intros Ha Hb.
  rewrite wrap_eqm, Zplus_mod, Ha, Hb, <- Zplus_mod. reflexivity.
Qed.

Lemma mul_eqm a n a' : eqm a a' -> eqm (mul a n) (n * a').
Proof.
  unfold eqm, mul. intros Ha.
  rewrite wrap_eqm, Zmult_mod, Ha, <- Zmult_mod. f_equal. lia.
Qed.

Lemma eqm_in_int a b : in_int a -> in_int b -> eqm a b -> a = b.
Proof.
  intros Ha Hb H. rewrite <- (wrap_id a Ha), <- (wrap_id b Hb).
  apply wrap_congr, H.
Qed.

Lemma add_slot_eqm slot s x y z w :
  eqm (Stats.Strength s) x -> eqm (Stats.Agility s) y ->
  eqm (Stats.Vitality s) z -> eqm (Stats.Intelligence s) w ->
  let s' := Character.add_slot slot s in
  eqm (Stats.Strength s') (x + Spec.slot_bonus Item.StrengthBonus slot) /\
  eqm (Stats.Agility s') (y + Spec.slot_bonus Item.AgilityBonus slot) /\
  eqm (Stats.Vitality s') (z + Spec.slot_bonus Item.VitalityBonus slot) /\
  eqm (Stats.Intelligence s') (w + Spec.slot_bonus Item.IntelligenceBonus slot).
Proof.
  intros Hx Hy Hz Hw. destruct slot as [it|]; simpl.
  - repeat split; apply add_eqm; auto using eqm_refl.
  - rewrite !Z.add_0_r. auto.
Qed.

(** The total stats of the code are the specification's totals, reduced to
    64 bits. *)
Lemma total_stats_eqm c :
  let ts := Character.CalculateTotalStats c in
  eqm (Stats.Strength ts) (Spec.total_strength c) /\
  eqm (Stats.Agility ts) (Spec.total_agility c) /\
  eqm (Stats.Vitality ts) (Spec.total_vitality c) /\
  eqm (Stats.Intelligence ts) (Spec.total_intelligence c).
Proof.
  unfold Character.CalculateTotalStats, Spec.total_strength, Spec.total_agility,
    Spec.total_vitality, Spec.total_intelligence, Spec.equipment_bonus.
  destruct (Character.Equipment c) as [e|]; simpl.
  - pose proof (add_slot_eqm (Equipment.Boots e) (Character.CalculateBaseStats c)
                  _ _ _ _ (eqm_refl _) (eqm_refl _) (eqm_refl _) (eqm_refl _))
      as (B1 & B2 & B3 & B4).
    pose proof (add_slot_eqm (Equipment.Pants e) _ _ _ _ _ B1 B2 B3 B4)
      as (P1 & P2 & P3 & P4).
    pose proof (add_slot_eqm (Equipment.Armor e) _ _ _ _ _ P1 P2 P3 P4)
      as (A1 & A2 & A3 & A4).
    pose proof (add_slot_eqm (Equipment.Helmet e) _ _ _ _ _ A1 A2 A3 A4)
      as (H1 & H2 & H3 & H4).
    pose proof (add_slot_eqm (Equipment.Ring e) _ _ _ _ _ H1 H2 H3 H4)
      as (R1 & R2 & R3 & R4).
    pose proof (add_slot_eqm (Equipment.Chain e) _ _ _ _ _ R1 R2 R3 R4)
      as (C1 & C2 & C3 & C4).
    simpl in *.
    repeat split; [ clear - C1 | clear - C2 | clear - C3 | clear - C4 ];
      match goal with
      | H : eqm ?a ?x |- eqm ?a ?y => replace y with x by lia; exact H
      end.
  - rewrite !Z.add_0_r. repeat split.
Qed.

(** The combat power of the code is the specification's value reduced to
    64 bits, for every character. *)
Lemma CalculateCombatPower_wrap c :
  Character.CalculateCombatPower c = wrap (Spec.combatPower c).
Proof.
  pose proof (total_stats_eqm c) as (S1 & S2 & S3 & S4).
  apply eqm_in_int; [apply wrap_in_int | apply wrap_in_int |].
  unfold eqm. rewrite (wrap_eqm (Spec.combatPower c)).
  unfold Character.CalculateCombatPower, Spec.combatPower.
  repeat apply add_eqm; apply mul_eqm; auto using eqm_refl.
Qed.

(** C1. For every character the combat power computed by the code is
    3*STR + 2*AGI + 2*VIT + 1*INT + 5*level over the total stats (base stats
    plus the bonuses of the populated slots, base stats alone without
    equipment), as an exact integer whenever that value is representable
    in Go's [int]. *)
Theorem combat_power_formula (c : Character.t) :
  in_int (Spec.combatPower c) ->
  Character.CalculateCombatPower c
  = 3 * Spec.total_strength c + 2 * Spec.total_agility c
    + 2 * Spec.total_vitality c + 1 * Spec.total_intelligence c
    + 5 * Character.Level c.
Proof.
  intros Hr. rewrite CalculateCombatPower_wrap.
  rewrite wrap_id by exact Hr. reflexivity.
Qed.

End CombatPowerFacts.

(** ** Stat upgrades *)

Module UpgradeFacts.
Import GoInt GoIntFacts.

Lemma quot_100 points : 0 <= points -> in_int points ->
  quot points 100 = points / 100.
Proof.
  intros Hp Hr. unfold quot. rewrite Z.quot_div_nonneg by lia.
  apply wrap_id. unfold in_int, int_min, int_max in *.
  pose proof (Z.div_pos points 100 Hp ltac:(lia)).
  pose proof (Z.div_le_upper_bound points 100 (2 ^ 63 - 1) ltac:(lia)). lia.
Qed.

Lemma quot_100_nonpos points : points < 100 -> in_int points ->
  quot points 100 <= 0.
Proof.
  intros Hp Hr. unfold quot.
  assert (Hq : - 2 ^ 63 <= Z.quot points 100 <= 0).
  { unfold in_int, int_min, int_max in Hr.
    destruct (Z_lt_le_dec points 0) as [Hn|Hn].
    - pose proof (Z.quot_opp_l points 100 ltac:(lia)) as Ho.
      assert (Hq : Z.quot (- points) 100 = (- points) / 100)
        by (apply Z.quot_div_nonneg; lia).
      pose proof (Z.div_pos (- points) 100 ltac:(lia) ltac:(lia)).
      pose proof (Z.div_le_upper_bound (- points) 100 (2 ^ 63) ltac:(lia) ltac:(lia)).
      lia.
    - rewrite Z.quot_small by lia. lia. }
  rewrite wrap_id; [lia | unfold in_int, int_min, int_max; lia].
Qed.

Lemma can_upgrade_iff c statType points :
  Character.CanUpgradeStat c statType points = true <->
  0 < points /\ In statType Spec.stat_kinds.
Proof.
  unfold Character.CanUpgradeStat, Spec.stat_kinds.
  rewrite andb_true_iff, !orb_true_iff, Z.ltb_lt, !String.eqb_eq. simpl.
  intuition congruence.
Qed.

(** C2. A stat upgrade with a recognised stat kind and at least 100 points
    raises exactly that stat by floor(points/100), adds the whole tendered
    amount to the spent-points counter, keeps every other field and reports
    success; any other call reports failure and returns the character as it
    was. *)
Theorem upgrade_stat_spec (c : Character.t) (statType : string) (points : Z) :
  in_int points ->
  (In statType Spec.stat_kinds -> 1 <= points / 100 ->
   in_int (Character.Strength c + Spec.raise_of statType "strength" (points / 100)) ->
   in_int (Character.Agility c + Spec.raise_of statType "agility" (points / 100)) ->
   in_int (Character.Vitality c + Spec.raise_of statType "vitality" (points / 100)) ->
   in_int (Character.Intelligence c
           + Spec.raise_of statType "intelligence" (points / 100)) ->
   in_int (Character.ChannelPointsSpent c + points) ->
   exists c',
     Character.UpgradeStat c statType points = (c', true) /\
     Character.Strength c'
     = Character.Strength c + Spec.raise_of statType "strength" (points / 100) /\
     Character.Agility c'
     = Character.Agility c + Spec.raise_of statType "agility" (points / 100) /\
     Character.Vitality c'
     = Character.Vitality c + Spec.raise_of statType "vitality" (points / 100) /\
     Character.Intelligence c'
     = Character.Intelligence c
       + Spec.raise_of statType "intelligence" (points / 100) /\
     Character.ChannelPointsSpent c' = Character.ChannelPointsSpent c + points /\
     Character.Level c' = Character.Level c /\
     Character.Experience c' = Character.Experience c /\
     Character.UpdatedAt c' = Character.UpdatedAt c /\
     Character.CombatPower c' = Character.CombatPower c /\
     Spec.same_profile c c')
  /\
  (~ In statType Spec.stat_kinds \/ points <= 0 \/ points < 100 ->
   Character.UpgradeStat c statType points = (c, false)).
Proof.
  intros Hp. split.
  - intros Hk Hq HS HA HV HI HC.
    assert (Hpos : 100 <= points).
    { destruct (Z_lt_le_dec points 100) as [Hlt|]; [|lia].
      pose proof (Z.div_lt_upper_bound points 100 1 ltac:(lia) ltac:(lia)). lia. }
    assert (Hcan : Character.CanUpgradeStat c statType points = true)
      by (apply can_upgrade_iff; split; [lia | exact Hk]).
    unfold Character.UpgradeStat. rewrite Hcan. cbn [negb].
    rewrite quot_100 by (lia || exact Hp).
    replace (points / 100 <=? 0) with false by (symmetry; apply Z.leb_gt; lia).
    unfold Spec.stat_kinds in Hk. simpl in Hk.
    unfold Spec.raise_of in *.
    destruct Hk as [<-|[<-|[<-|[<-|[]]]]]; simpl in *;
      rewrite ?Z.add_0_r in *;
      eexists; (split; [reflexivity|]); simpl; unfold add;
      rewrite !wrap_id by assumption;
      unfold Spec.same_profile; simpl; repeat split; lia.
  - intros Hfail. unfold Character.UpgradeStat.
    destruct (Character.CanUpgradeStat c statType points) eqn:Hcan; [|reflexivity].
    apply can_upgrade_iff in Hcan as [Hpos Hk]. cbn [negb].
    destruct Hfail as [Hn|[Hn|Hn]]; [contradiction | lia |].
    pose proof (quot_100_nonpos points Hn Hp) as Hq.
    apply Z.leb_le in Hq. rewrite Hq. reflexivity.
Qed.

End UpgradeFacts.

(** ** Experience and level-ups *)

Module ExperienceFacts.
Import GoInt GoIntFacts.

Lemma consumed_experience_lower level k :
  1 <= level -> 1000 * Z.of_nat k <= Spec.consumed_experience level k.
Proof.
  revert level. induction k as [|k IH]; intros level Hl.
  - simpl. lia.
  - change (Spec.consumed_experience level (S k))
      with (Spec.requiredExperienceForNextLevel level
            + Spec.consumed_experience (level + 1) k).
    specialize (IH (level + 1) ltac:(lia)).
    unfold Spec.requiredExperienceForNextLevel. lia.
Qed.

Lemma level_up_unfold c :
  Character.level_up c
  = Character.mk (Character.ID c) (Character.Username c)
      (Character.TwitchUserID c) (add (Character.Level c) 1)
      (sub (Character.Experience c) (Character.GetNextLevelExperience c))
      (Character.ChannelPointsSpent c) (add (Character.Strength c) 1)
      (add (Character.Agility c) 1) (add (Character.Vitality c) 1)
      (add (Character.Intelligence c) 1) (Character.BootsID c)
      (Character.PantsID c) (Character.ArmorID c) (Character.HelmetID c)
      (Character.RingID c) (Character.ChainID c) (Character.CreatedAt c)
      (Character.UpdatedAt c) (Character.Equipment c)
      (Character.TotalStats c) (Character.CombatPower c).
Proof. destruct c; reflexivity. Qed.

(** The loop, from any state in which no threshold can overflow. *)
Lemma AddExperience_loop_spec fuel : forall c flag,
  1 <= Character.Level c ->
  0 <= Character.Experience c ->
  1000 * Character.Level c + Character.Experience c <= int_max ->
  Spec.stats_fit c (Character.Experience c / 1000) ->
  (Z.to_nat (Character.Experience c / 1000) <= fuel)%nat ->
  exists (k : nat) (c' : Character.t),
    Character.AddExperience_loop fuel c flag
    = Some (c', flag || (0 <? Z.of_nat k)) /\
    Spec.levelled c c' k /\
    Character.Experience c'
    = Character.Experience c - Spec.consumed_experience (Character.Level c) k /\
    (forall j : nat, (j < k)%nat ->
       Spec.requiredExperienceForNextLevel (Character.Level c + Z.of_nat j)
       <= Character.Experience c
          - Spec.consumed_experience (Character.Level c) j) /\
    0 <= Character.Experience c'
      < Spec.requiredExperienceForNextLevel (Character.Level c').
Proof.
  induction fuel as [|fuel IH]; intros c flag HL HE Hroom Hfit Hfuel.
  all: assert (Hthr : Character.GetNextLevelExperience c = Character.Level c * 1000)
    by (unfold Character.GetNextLevelExperience, mul; apply wrap_id;
        unfold in_int, int_min, int_max in *; lia).
  all: cbn [Character.AddExperience_loop]; rewrite Hthr.
  all: destruct (Z.leb_spec (Character.Level c * 1000) (Character.Experience c))
    as [Hge|Hlt].
  - exfalso.
    assert (1 <= Character.Experience c / 1000)
      by (apply Z.div_le_lower_bound; lia).
    lia.
  - exists 0%nat, c. rewrite orb_false_r. simpl.
    unfold Spec.levelled, Spec.same_profile, Spec.requiredExperienceForNextLevel.
    rewrite !Z.add_0_r, Z.sub_0_r. repeat split; try lia.
  - assert (Hdiv : 1 <= Character.Experience c / 1000)
      by (apply Z.div_le_lower_bound; lia).
    assert (Hdiv' : (Character.Experience c - Character.Level c * 1000) / 1000
                    = Character.Experience c / 1000 - Character.Level c).
    { replace (Character.Experience c - Character.Level c * 1000)
        with (Character.Experience c + (- Character.Level c) * 1000) by lia.
      rewrite Z.div_add by lia. lia. }
    destruct Hfit as ((S1 & S2) & (A1 & A2) & (V1 & V2) & (I1 & I2)).
    assert (Hup : Character.level_up c
      = Character.mk (Character.ID c) (Character.Username c)
          (Character.TwitchUserID c) (Character.Level c + 1)
          (Character.Experience c - Character.Level c * 1000)
          (Character.ChannelPointsSpent c) (Character.Strength c + 1)
          (Character.Agility c + 1) (Character.Vitality c + 1)
          (Character.Intelligence c + 1) (Character.BootsID c)
          (Character.PantsID c) (Character.ArmorID c) (Character.HelmetID c)
          (Character.RingID c) (Character.ChainID c) (Character.CreatedAt c)
          (Character.UpdatedAt c) (Character.Equipment c)
          (Character.TotalStats c) (Character.CombatPower c)).
    { rewrite level_up_unfold, Hthr. unfold add, sub.
      rewrite !wrap_id by (unfold in_int, int_min, int_max in *; lia).
      reflexivity. }
    rewrite Hup.
    edestruct (IH (Character.mk (Character.ID c) (Character.Username c)
          (Character.TwitchUserID c) (Character.Level c + 1)
          (Character.Experience c - Character.Level c * 1000)
          (Character.ChannelPointsSpent c) (Character.Strength c + 1)
          (Character.Agility c + 1) (Character.Vitality c + 1)
          (Character.Intelligence c + 1) (Character.BootsID c)
          (Character.PantsID c) (Character.ArmorID c) (Character.HelmetID c)
          (Character.RingID c) (Character.ChainID c) (Character.CreatedAt c)
          (Character.UpdatedAt c) (Character.Equipment c)
          (Character.TotalStats c) (Character.CombatPower c)) true)
      as (k & c' & Hrun & Hlev & Hexp & Hguard & Hexit); simpl.
    + lia.
    + lia.
    + unfold int_max in *. lia.
    + rewrite Hdiv'. unfold Spec.stats_fit; simpl. lia.
    + rewrite Hdiv'. lia.
    + exists (S k), c'. rewrite Hrun.
      split; [f_equal; f_equal; rewrite orb_true_r; reflexivity|].
      unfold Spec.levelled, Spec.same_profile in Hlev.
      simpl in Hlev, Hexp, Hguard, Hexit.
      destruct Hlev as (L1 & L2 & L3 & L4 & L5 & L6 & L7 & L8 & Hprof).
      split; [|split; [|split]].
      * unfold Spec.levelled, Spec.same_profile. rewrite Nat2Z.inj_succ.
        repeat split; first [lia | assumption | tauto].
      * change (Spec.consumed_experience (Character.Level c) (S k))
          with (Spec.requiredExperienceForNextLevel (Character.Level c)
                + Spec.consumed_experience (Character.Level c + 1) k).
        unfold Spec.requiredExperienceForNextLevel. lia.
      * intros [|j] Hj.
        -- simpl. unfold Spec.requiredExperienceForNextLevel. lia.
        -- specialize (Hguard j ltac:(lia)).
           change (Spec.consumed_experience (Character.Level c) (S j))
             with (Spec.requiredExperienceForNextLevel (Character.Level c)
                   + Spec.consumed_experience (Character.Level c + 1) j).
           unfold Spec.requiredExperienceForNextLevel in *. lia.
      * exact Hexit.
  - exists 0%nat, c. rewrite orb_false_r. simpl.
    unfold Spec.levelled, Spec.same_profile, Spec.requiredExperienceForNextLevel.
    rewrite !Z.add_0_r, Z.sub_0_r. repeat split; try lia.
Qed.

(** C3. [AddExperience] adds the amount and then, while the experience
    reaches level * 1000, subtracts that threshold, increments the level and
    adds one to each base stat: with enough fuel it returns the character
    after [k] level-ups, where every one of the [k] thresholds was reached
    and the next one is not.  In particular 1000 + 2000 experience takes a
    level-1 character to level 3 with each stat raised by exactly 2. *)
Theorem add_experience_spec :
  (forall (c : Character.t) (amount : Z) (fuel : nat),
     0 <= amount ->
     1 <= Character.Level c ->
     0 <= Character.Experience c ->
     1000 * Character.Level c + Character.Experience c + amount <= int_max ->
     Spec.stats_fit c ((Character.Experience c + amount) / 1000) ->
     (Z.to_nat ((Character.Experience c + amount) / 1000) <= fuel)%nat ->
     exists (k : nat) (c' : Character.t),
       Character.AddExperience fuel c amount = Some (c', 0 <? Z.of_nat k) /\
       Spec.levelled c c' k /\
       Character.Experience c'
       = Character.Experience c + amount
         - Spec.consumed_experience (Character.Level c) k /\
       (forall j : nat, (j < k)%nat ->
          Spec.requiredExperienceForNextLevel (Character.Level c + Z.of_nat j)
          <= Character.Experience c + amount
             - Spec.consumed_experience (Character.Level c) j) /\
       0 <= Character.Experience c'
         < Spec.requiredExperienceForNextLevel (Character.Level c'))
  /\
  (forall (c : Character.t) (fuel : nat),
     Character.Level c = 1 ->
     0 <= Character.Experience c < Spec.requiredExperienceForNextLevel 1 ->
     Spec.stats_fit c 3 ->
     (3 <= fuel)%nat ->
     exists c' : Character.t,
       Character.AddExperience fuel c
         (Spec.requiredExperienceForNextLevel 1
          + Spec.requiredExperienceForNextLevel 2) = Some (c', true) /\
       Character.Level c' = 3 /\
       Character.Experience c' = Character.Experience c /\
       Character.Strength c' = Character.Strength c + 2 /\
       Character.Agility c' = Character.Agility c + 2 /\
       Character.Vitality c' = Character.Vitality c + 2 /\
       Character.Intelligence c' = Character.Intelligence c + 2).
Proof.
  assert (General : forall (c : Character.t) (amount : Z) (fuel : nat),
     0 <= amount ->
     1 <= Character.Level c ->
     0 <= Character.Experience c ->
     1000 * Character.Level c + Character.Experience c + amount <= int_max ->
     Spec.stats_fit c ((Character.Experience c + amount) / 1000) ->
     (Z.to_nat ((Character.Experience c + amount) / 1000) <= fuel)%nat ->
     exists (k : nat) (c' : Character.t),
       Character.AddExperience fuel c amount = Some (c', 0 <? Z.of_nat k) /\
       Spec.levelled c c' k /\
       Character.Experience c'
       = Character.Experience c + amount
         - Spec.consumed_experience (Character.Level c) k /\
       (forall j : nat, (j < k)%nat ->
          Spec.requiredExperienceForNextLevel (Character.Level c + Z.of_nat j)
          <= Character.Experience c + amount
             - Spec.consumed_experience (Character.Level c) j) /\
       0 <= Character.Experience c'
         < Spec.requiredExperienceForNextLevel (Character.Level c')).
  { intros c amount fuel Ha HL HE Hroom Hfit Hfuel.
    unfold Character.AddExperience, add.
    rewrite wrap_id by (unfold in_int, int_min, int_max in *; lia).
    destruct (AddExperience_loop_spec fuel
                (Character.set_Experience (Character.Experience c + amount) c)
                false) as (k & c' & Hrun & Hlev & Hexp & Hguard & Hexit);
      simpl; try (assumption || lia).
    exists k, c'. simpl in *. split; [exact Hrun|].
    unfold Spec.levelled, Spec.same_profile in *. simpl in *. tauto. }
  split; [exact General|].
  intros c fuel HL HE Hfit Hfuel.
  unfold Spec.requiredExperienceForNextLevel in *. simpl in HE |- *.
  assert (Hdiv : (Character.Experience c + 3000) / 1000 = 3).
  { symmetry. apply Z.div_unique with (r := Character.Experience c); lia. }
  destruct (General c 3000 fuel) as (k & c' & Hrun & Hlev & Hexp & _ & Hexit);
    try rewrite Hdiv; try (assumption || lia).
  { destruct Hfit as ((? & ?) & _). unfold int_max in *. lia. }
  destruct Hlev as (L1 & L2 & L3 & L4 & L5 & _).
  rewrite HL in *. rewrite L1 in Hexit.
  assert (Hk : k = 2%nat).
  { destruct k as [|[|[|k]]]; simpl in Hexp;
      unfold Spec.requiredExperienceForNextLevel in *; try lia.
    pose proof (consumed_experience_lower (1 + 1 + 1 + 1) k ltac:(lia)). lia. }
  subst k. simpl in Hexp. unfold Spec.requiredExperienceForNextLevel in Hexp.
  exists c'. change (1 * 1000 + 2 * 1000) with 3000.
  rewrite Hrun. simpl in *. repeat split; lia.
Qed.

End ExperienceFacts.

(** ** Comparisons of [float64] values *)

Module FloatFacts.

Lemma SFcompare_antisym x y c :
  SFcompare x y = Some c -> SFcompare y x = Some (CompOpp c).
Proof.
  destruct x as [sx|sx| |sx mx ex], y as [sy|sy| |sy my ey]; simpl;
    try discriminate;
    try (intros [= <-]; try destruct sx; try destruct sy; reflexivity).
  intros [= <-]. f_equal.
  rewrite (Z.compare_antisym ex ey).
  change (PosDef.Pos.compare_cont Eq my mx) with (Pos.compare my mx).
  change (PosDef.Pos.compare_cont Eq mx my) with (Pos.compare mx my).
  rewrite (Pos.compare_antisym mx my).
  destruct sx, sy; try reflexivity;
    destruct (ex ?= ey); simpl; try reflexivity;
    destruct (mx ?= my)%positive; reflexivity.
Qed.

Lemma SFcompare_number x y :
  Float64.is_nan x = false -> Float64.is_nan y = false ->
  exists c, SFcompare x y = Some c.
Proof.
  destruct x, y; simpl; try discriminate; eauto.
Qed.

Lemma le_number x y : Float64.le x y = true -> Float64.is_nan y = false.
Proof.
  unfold Float64.le, SFleb. destruct x, y; simpl; try discriminate; reflexivity.
Qed.

(** Between numbers, [r > c] is the negation of [r <= c]. *)
Lemma gt_not_le r c :
  Float64.is_nan r = false -> Float64.is_nan c = false ->
  Float64.gt r c = negb (Float64.le r c).
Proof.
  intros Hr Hc. destruct (SFcompare_number r c Hr Hc) as [o Ho].
  unfold Float64.gt, Float64.le, SFltb, SFleb.
  rewrite Ho, (SFcompare_antisym _ _ _ Ho). destruct o; reflexivity.
Qed.

Lemma unit_draw_number r : System.unit_draw r -> Float64.is_nan r = false.
Proof. intros [H _]. exact (le_number _ _ H). Qed.

End FloatFacts.

(** ** The conversion and the quotient of Go's [int]s as [float64] *)

Module FloatRange.
Import GoInt.

Lemma digits2_pos_bounds (p : positive) :
  2 ^ (Zpos (digits2_pos p) - 1) <= Zpos p < 2 ^ Zpos (digits2_pos p).
Proof.
  induction p as [p IH|p IH|]; cbn [digits2_pos].
  - rewrite Pos2Z.inj_succ.
    replace (Z.succ (Zpos (digits2_pos p)) - 1) with (Zpos (digits2_pos p)) by lia.
    replace (Zpos (digits2_pos p)) with (Zpos (digits2_pos p) - 1 + 1) at 1 by lia.
    rewrite Z.pow_succ_r by lia. rewrite Z.pow_add_r by lia. lia.
  - rewrite Pos2Z.inj_succ.
    replace (Z.succ (Zpos (digits2_pos p)) - 1) with (Zpos (digits2_pos p)) by lia.
    replace (Zpos (digits2_pos p)) with (Zpos (digits2_pos p) - 1 + 1) at 1 by lia.
    rewrite Z.pow_succ_r by lia. rewrite Z.pow_add_r by lia. lia.
  - cbn. lia.
Qed.

Lemma Zdigits2_le (m k : Z) : 0 < m -> 0 <= k -> m < 2 ^ k -> Zdigits2 m <= k.
Proof.
  intros Hm Hk Hlt. destruct m as [|p|p]; try lia. cbn [Zdigits2].
  pose proof (digits2_pos_bounds p) as [Hlo _].
  destruct (Z_le_gt_dec (Zpos (digits2_pos p)) k) as [|Hgt]; [assumption|].
  assert (2 ^ k <= 2 ^ (Zpos (digits2_pos p) - 1))
    by (apply Z.pow_le_mono_r; lia).
  lia.
Qed.

Lemma shr_1_half (mrs : shr_record) :
  0 <= shr_m mrs -> shr_m (shr_1 mrs) = shr_m mrs / 2.
Proof.
  destruct mrs as [m r s]. cbn [shr_m shr_1]. intros Hm.
  destruct m as [|[p|p|]|p]; cbn [shr_m]; try reflexivity; try lia.
  - rewrite (Pos2Z.inj_xI p). apply Z.div_unique with (r := 1); lia.
  - rewrite (Pos2Z.inj_xO p). apply Z.div_unique with (r := 0); lia.
Qed.

Lemma iter_shr_1 (k : positive) (mrs : shr_record) :
  0 <= shr_m mrs ->
  shr_m (SpecFloat.iter_pos shr_1 k mrs) = shr_m mrs / 2 ^ Zpos k.
Proof.
  revert mrs. induction k as [k IH|k IH|]; intros mrs Hm; cbn [SpecFloat.iter_pos].
  - assert (H1 : 0 <= shr_m (shr_1 mrs))
      by (rewrite shr_1_half by exact Hm; apply Z.div_pos; lia).
    assert (H2 : 0 <= shr_m (SpecFloat.iter_pos shr_1 k (shr_1 mrs)))
      by (rewrite IH by exact H1; apply Z.div_pos; [exact H1|];
          apply Z.pow_pos_nonneg; lia).
    rewrite IH by exact H2. rewrite IH by exact H1.
    rewrite shr_1_half by exact Hm.
    rewrite !Z.div_div by (try apply Z.pow_pos_nonneg; lia).
    f_equal. rewrite (Pos2Z.inj_xI k).
    replace (2 * Zpos k + 1) with (1 + Zpos k + Zpos k) by lia.
    rewrite !Z.pow_add_r by lia. change (2 ^ 1) with 2. ring.
  - assert (H2 : 0 <= shr_m (SpecFloat.iter_pos shr_1 k mrs))
      by (rewrite IH by exact Hm; apply Z.div_pos; [exact Hm|];
          apply Z.pow_pos_nonneg; lia).
    rewrite IH by exact H2. rewrite IH by exact Hm.
    rewrite !Z.div_div by (try apply Z.pow_pos_nonneg; lia).
    f_equal. rewrite (Pos2Z.inj_xO k).
    replace (2 * Zpos k) with (Zpos k + Zpos k) by lia.
    rewrite Z.pow_add_r by lia. ring.
  - rewrite shr_1_half by exact Hm. reflexivity.
Qed.

Lemma shr_record_of_loc_m m l : shr_m (shr_record_of_loc m l) = m.
Proof. destruct l as [|[| |]]; reflexivity. Qed.

(** Shifting a positive mantissa to the precision of the format keeps it
    positive and raises the exponent by no more than the digits shed. *)
Lemma shr_fexp_positive (m e : Z) (l : location) :
  0 < m -> -1021 <= e ->
  0 < shr_m (fst (shr_fexp Float64.prec Float64.emax m e l)) /\
  shr_m (fst (shr_fexp Float64.prec Float64.emax m e l)) <= m /\
  e <= snd (shr_fexp Float64.prec Float64.emax m e l)
    <= e + Z.max 0 (Zdigits2 m - 53).
Proof.
  intros Hm He. unfold shr_fexp, fexp, emin, Float64.prec, Float64.emax.
  assert (Hd : 0 < Zdigits2 m) by (destruct m; cbn; lia).
  replace (Z.max (Zdigits2 m + e - 53) (3 - 1024 - 53) - e)
    with (Zdigits2 m - 53) by lia.
  unfold shr. destruct (Zdigits2 m - 53) as [|k|k] eqn:Hk;
    cbn [fst snd]; rewrite ?shr_record_of_loc_m; try lia.
  rewrite iter_shr_1 by (rewrite shr_record_of_loc_m; lia).
  rewrite shr_record_of_loc_m.
  assert (Hpow : 0 < 2 ^ Zpos k) by (apply Z.pow_pos_nonneg; lia).
  assert (Hlow : 2 ^ Zpos k <= m).
  { destruct m as [|p|p]; try lia. cbn [Zdigits2] in Hk.
    pose proof (digits2_pos_bounds p) as [Hlo _].
    assert (2 ^ Zpos k <= 2 ^ (Zpos (digits2_pos p) - 1))
      by (apply Z.pow_le_mono_r; lia).
    lia. }
  split; [apply Z.div_str_pos; lia|].
  split; [apply Z.div_le_upper_bound; nia|]. lia.
Qed.

Lemma round_nearest_even_bounds (m : Z) (l : location) :
  m <= round_nearest_even m l <= m + 1.
Proof.
  unfold round_nearest_even. destruct l as [|[| |]]; try lia.
  destruct (Z.even m); lia.
Qed.

(** Rounding a positive mantissa of at most 64 digits at a small exponent
    gives a finite nonzero number. *)
Lemma binary_round_aux_finite (sx : bool) (m e : Z) (l : location) :
  0 < m < 2 ^ 64 -> -1021 <= e <= 0 ->
  exists (m' : positive) (e' : Z),
    binary_round_aux Float64.prec Float64.emax sx m e l = S754_finite sx m' e'.
Proof.
  intros Hm He. unfold binary_round_aux.
  pose proof (shr_fexp_positive m e l ltac:(lia) ltac:(lia)) as (P1 & P2 & P3).
  pose proof (Zdigits2_le m 64 ltac:(lia) ltac:(lia) ltac:(lia)) as Hd1.
  destruct (shr_fexp Float64.prec Float64.emax m e l) as [mrs1 e1].
  cbn [fst snd] in P1, P2, P3.
  pose proof (round_nearest_even_bounds (shr_m mrs1) (loc_of_shr_record mrs1))
    as Hr.
  set (m1 := round_nearest_even (shr_m mrs1) (loc_of_shr_record mrs1)) in *.
  pose proof (shr_fexp_positive m1 e1 loc_Exact ltac:(lia) ltac:(lia))
    as (Q1 & Q2 & Q3).
  assert (Hd2 : Zdigits2 m1 <= 65).
  { apply Zdigits2_le; lia. }
  destruct (shr_fexp Float64.prec Float64.emax m1 e1 loc_Exact) as [mrs2 e2].
  cbn [fst snd] in Q1, Q2, Q3.
  destruct (shr_m mrs2) as [|m2|m2]; try lia.
  assert (Hle : (e2 <=? Float64.emax - Float64.prec) = true)
    by (apply Z.leb_le; unfold Float64.emax, Float64.prec; lia).
  rewrite Hle. eauto.
Qed.

Lemma digits2_pos_iter_xO (p k : positive) :
  Zpos (digits2_pos (Pos.iter xO p k)) = Zpos (digits2_pos p) + Zpos k.
Proof.
  induction k as [|k IH] using Pos.peano_ind.
  - cbn [Pos.iter digits2_pos]. lia.
  - rewrite Pos.iter_succ. cbn [digits2_pos]. lia.
Qed.

Lemma binary_round_finite (sx : bool) (p : positive) :
  Zpos p < 2 ^ 64 ->
  exists (m' : positive) (e' : Z),
    binary_round Float64.prec Float64.emax sx p 0 = S754_finite sx m' e'.
Proof.
  intros Hp. unfold binary_round, shl_align.
  pose proof (digits2_pos_bounds p) as [Hlo Hhi].
  assert (Hd : Zpos (digits2_pos p) <= 64)
    by (apply (Zdigits2_le (Zpos p)); lia).
  unfold fexp, emin, Float64.prec, Float64.emax.
  replace (Z.max (Zpos (digits2_pos p) + 0 - 53) (3 - 1024 - 53) - 0)
    with (Zpos (digits2_pos p) - 53) by lia.
  destruct (Zpos (digits2_pos p) - 53) as [|k|k] eqn:Hk.
  - apply binary_round_aux_finite; lia.
  - apply binary_round_aux_finite; lia.
  - apply binary_round_aux_finite.
    + split; [lia|].
      pose proof (digits2_pos_bounds (Pos.iter xO p k)) as [_ Hup].
      rewrite digits2_pos_iter_xO in Hup.
      replace (Zpos (digits2_pos p) + Zpos k) with 53 in Hup by lia.
      assert (2 ^ 53 < 2 ^ 64) by (apply Z.pow_lt_mono_r; lia). lia.
    + lia.
Qed.

(** The conversion of a Go [int]: zero for 0, a finite nonzero number
    otherwise. *)
Lemma of_int_zero (n : Z) : n = 0 -> Float64.of_int n = S754_zero false.
Proof. intros ->. reflexivity. Qed.

Lemma of_int_finite (n : Z) :
  in_int n -> n <> 0 ->
  exists (s : bool) (m : positive) (e : Z),
    Float64.of_int n = S754_finite s m e.
Proof.
  intros [Hlo Hhi] Hn. unfold Float64.of_int, binary_normalize.
  unfold int_min, int_max in *.
  destruct n as [|p|p]; [congruence| |].
  - destruct (binary_round_finite false p) as (m & e & H); [lia|]. eauto.
  - destruct (binary_round_finite true p) as (m & e & H); [lia|]. eauto.
Qed.

Lemma shr_fexp_nonneg (m e : Z) (l : location) :
  0 <= m -> 0 <= shr_m (fst (shr_fexp Float64.prec Float64.emax m e l)).
Proof.
  intros Hm. unfold shr_fexp, shr.
  destruct (fexp Float64.prec Float64.emax (Zdigits2 m + e) - e) as [|k|k];
    cbn [fst]; rewrite ?shr_record_of_loc_m; try lia.
  rewrite iter_shr_1 by (rewrite shr_record_of_loc_m; lia).
  rewrite shr_record_of_loc_m. apply Z.div_pos; [lia|].
  apply Z.pow_pos_nonneg; lia.
Qed.

(** The quotient of two finite nonzero numbers is never not-a-number. *)
Lemma div_finite_number (sx sy : bool) (mx my : positive) (ex ey : Z) :
  Float64.is_nan
    (Float64.div (S754_finite sx mx ex) (S754_finite sy my ey)) = false.
Proof.
  unfold Float64.div, SFdiv, SFdiv_core_binary.
  set (e' := Z.min _ _). set (s := ex - ey - e').
  set (m' := match s with
             | 0 => Zpos mx
             | Zpos _ => Z.shiftl (Zpos mx) s
             | Zneg _ => 0
             end).
  assert (Hm' : 0 <= m').
  { subst m'. destruct s; try lia. apply Z.shiftl_nonneg. lia. }
  pose proof (Z_div_mod m' (Zpos my) ltac:(lia)) as Hdiv.
  destruct (Z.div_eucl m' (Zpos my)) as [q rem].
  destruct Hdiv as [Heq Hrem].
  assert (Hq : 0 <= q) by nia.
  unfold binary_round_aux.
  pose proof (shr_fexp_nonneg q e' (new_location (Zpos my) rem) Hq) as N1.
  destruct (shr_fexp _ _ q e' _) as [mrs1 e1]. cbn [fst] in N1.
  pose proof (round_nearest_even_bounds (shr_m mrs1) (loc_of_shr_record mrs1))
    as Hr.
  set (m1 := round_nearest_even (shr_m mrs1) (loc_of_shr_record mrs1)) in *.
  pose proof (shr_fexp_nonneg m1 e1 loc_Exact ltac:(lia)) as N2.
  destruct (shr_fexp _ _ m1 e1 loc_Exact) as [mrs2 e2]. cbn [fst] in N2.
  destruct (shr_m mrs2) as [|m2|m2]; try lia; [reflexivity|].
  destruct (_ <=? _); reflexivity.
Qed.

(** attackerPower / (attackerPower + defenderPower) is not a number exactly
    when both powers are 0. *)
Lemma win_ratio_nan (ap dp : Z) :
  in_int ap -> in_int (ap + dp) ->
  Float64.is_nan (Spec.win_ratio ap dp) = (ap =? 0) && (dp =? 0).
Proof.
  intros Ha Hs. unfold Spec.win_ratio.
  destruct (Z.eqb_spec ap 0) as [->|Hap].
  - cbn [andb]. change (0 + dp) with dp in *.
    destruct (Z.eqb_spec dp 0) as [->|Hdp]; [reflexivity|].
    destruct (of_int_finite dp Hs Hdp) as (s & m & e & ->). reflexivity.
  - cbn [andb]. destruct (of_int_finite ap Ha Hap) as (s & m & e & ->).
    destruct (Z.eq_dec (ap + dp) 0) as [H0|H0].
    + rewrite H0. reflexivity.
    + destruct (of_int_finite (ap + dp) Hs H0) as (s' & m' & e' & ->).
      apply div_finite_number.
Qed.

End FloatRange.

(** ** Field projections of the updates *)

Module CharacterFacts.
Import System.

Lemma set_CombatPower_fields v c :
  let c' := Character.set_CombatPower v c in
  Character.ID c' = Character.ID c /\
  Character.Username c' = Character.Username c /\
  Character.Level c' = Character.Level c /\
  Character.Experience c' = Character.Experience c /\
  Character.ChannelPointsSpent c' = Character.ChannelPointsSpent c /\
  Character.Equipment c' = Character.Equipment c /\
  Character.CombatPower c' = v.
Proof. destruct c; simpl; repeat split. Qed.

(** The combat power does not depend on the cached [CombatPower] field. *)
Lemma CalculateCombatPower_set_CombatPower v c :
  Character.CalculateCombatPower (Character.set_CombatPower v c)
  = Character.CalculateCombatPower c.
Proof.
  destruct c.
  unfold Character.CalculateCombatPower, Character.CalculateTotalStats,
    Character.CalculateBaseStats, Character.set_CombatPower.
  cbn [Character.Strength Character.Agility Character.Vitality
       Character.Intelligence Character.Level Character.Equipment].
  reflexivity.
Qed.

Lemma kept_refl c : kept c c.
Proof. unfold kept, Spec.same_profile. repeat split. Qed.

Lemma kept_trans a b c : kept a b -> kept b c -> kept a c.
Proof.
  unfold kept, Spec.same_profile.
  intros ((A1 & A2 & A3 & A4 & A5 & A6 & A7 & A8 & A9 & A10 & A11 & A12)
          & A13 & A14 & A15 & A16)
         ((B1 & B2 & B3 & B4 & B5 & B6 & B7 & B8 & B9 & B10 & B11 & B12)
          & B13 & B14 & B15 & B16).
  repeat split; (etransitivity; [eassumption | eassumption]).
Qed.

Lemma kept_set_Experience v c : kept c (Character.set_Experience v c).
Proof. destruct c; unfold kept, Spec.same_profile; simpl; repeat split. Qed.

Lemma kept_set_Level v c : kept c (Character.set_Level v c).
Proof. destruct c; unfold kept, Spec.same_profile; simpl; repeat split. Qed.

Lemma kept_set_ChannelPointsSpent v c :
  kept c (Character.set_ChannelPointsSpent v c).
Proof. destruct c; unfold kept, Spec.same_profile; simpl; repeat split. Qed.

Lemma kept_set_UpdatedAt v c : kept c (Character.set_UpdatedAt v c).
Proof. destruct c; unfold kept, Spec.same_profile; simpl; repeat split. Qed.

Lemma kept_set_CombatPower v c : kept c (Character.set_CombatPower v c).
Proof. destruct c; unfold kept, Spec.same_profile; simpl; repeat split. Qed.

Lemma kept_check_level_up c : kept c (CombatService.check_level_up c).
Proof.
  unfold CombatService.check_level_up.
  destruct (_ <=? _); [|apply kept_refl].
  eapply kept_trans; [apply kept_set_Level | apply kept_set_Experience].
Qed.

Lemma check_level_up_points c :
  Character.ChannelPointsSpent (CombatService.check_level_up c)
  = Character.ChannelPointsSpent c.
Proof.
  unfold CombatService.check_level_up.
  destruct (_ <=? _); [|reflexivity]. destruct c; reflexivity.
Qed.

Lemma kept_ID c c' : kept c c' -> Character.ID c' = Character.ID c.
Proof. intros [H _]. apply H. Qed.

Lemma kept_Username c c' : kept c c' -> Character.Username c' = Character.Username c.
Proof. intros [H _]. apply H. Qed.

End CharacterFacts.

(** ** Combat resolution *)

Module CombatFacts.
Import GoInt GoIntFacts FloatFacts CharacterFacts System.

Lemma UpdateCharacter_stored ms c now :
  is_Some (MemoryStorage.characters ms !! Character.ID c) ->
  MemoryStorage.UpdateCharacter ms c now
  = (MemoryStorage.set_characters
       (<[Character.ID c := Character.set_UpdatedAt now c]>
          (MemoryStorage.characters ms)) ms,
     Ok (Character.set_UpdatedAt now c)).
Proof.
  intros [old Hold]. unfold MemoryStorage.UpdateCharacter. rewrite Hold.
  reflexivity.
Qed.

(** The in-memory flow, once both fighters are loaded and the winner's id is
    in the store. *)
Lemma startCombatMemory_resolved ms a d r n1 n2 attacker defender :
  MemoryStorage.GetCharacterByID ms a = Some attacker ->
  MemoryStorage.GetCharacterByID ms d = Some defender ->
  is_Some (MemoryStorage.characters ms
           !! Character.ID (reward_memory (fst (resolve r attacker defender))
                              (snd (resolve r attacker defender)))) ->
  CombatService.startCombatMemory ms a d r n1 n2
  = memory_outcome ms a d n1 n2 attacker defender
      (fst (resolve r attacker defender)) (snd (resolve r attacker defender)).
Proof.
  intros Ha Hd.
  unfold CombatService.startCombatMemory, resolve. rewrite Ha, Hd.
  destruct (Float64.gt r _) eqn:Hgt; intros Hin.
  - change (fst (?x, ?y)) with x in *. change (snd (?x, ?y)) with y in *.
    cbv beta iota zeta.
    change (CombatService.check_level_up
              (Character.set_Experience
                 (add (Character.Experience defender)
                    (add 50 (mul (Character.Level attacker) 10))) defender))
      with (reward_memory defender attacker).
    rewrite (UpdateCharacter_stored _ _ _ Hin). reflexivity.
  - change (fst (?x, ?y)) with x in *. change (snd (?x, ?y)) with y in *.
    cbv beta iota zeta.
    change (CombatService.check_level_up
              (Character.set_Experience
                 (add (Character.Experience attacker)
                    (add 50 (mul (Character.Level defender) 10))) attacker))
      with (reward_memory attacker defender).
    rewrite (UpdateCharacter_stored _ _ _ Hin). reflexivity.
Qed.

(** The relational flow, once both fighters are loaded. *)
Lemma StartCombat_db_resolved db a d r n1 n2 attacker defender :
  CharacterService.GetCharacterByID_db db a = Some attacker ->
  CharacterService.GetCharacterByID_db db d = Some defender ->
  CombatService.StartCombat_db db a d r n1 n2
  = db_outcome db n1 n2 attacker defender
      (fst (resolve r attacker defender)) (snd (resolve r attacker defender)).
Proof.
  intros Ha Hd.
  unfold CombatService.StartCombat_db, resolve. rewrite Ha, Hd.
  destruct (Float64.gt r _) eqn:Hgt.
  - change (fst (?x, ?y)) with x in *. change (snd (?x, ?y)) with y in *.
    unfold db_outcome, rewarded_db, experience_for.
    cbv beta iota zeta. reflexivity.
  - change (fst (?x, ?y)) with x in *. change (snd (?x, ?y)) with y in *.
    unfold db_outcome, rewarded_db, experience_for.
    cbv beta iota zeta. reflexivity.
Qed.

Lemma kept_rewarded_memory winner loser now :
  kept winner (rewarded_memory winner loser now).
Proof.
  unfold rewarded_memory, reward_memory.
  eapply kept_trans; [|apply kept_set_UpdatedAt].
  eapply kept_trans; [|apply kept_check_level_up].
  apply kept_set_Experience.
Qed.

Lemma kept_rewarded_db winner loser : kept winner (rewarded_db winner loser).
Proof.
  unfold rewarded_db.
  eapply kept_trans; [|apply kept_check_level_up].
  eapply kept_trans; [|apply kept_set_ChannelPointsSpent].
  apply kept_set_Experience.
Qed.

Lemma GetCharacterByID_memory_inv ms id c :
  MemoryStorage.GetCharacterByID ms id = Some c ->
  exists c0, MemoryStorage.characters ms !! id = Some c0 /\
             c = Character.set_CombatPower (Character.CalculateCombatPower c0) c0.
Proof.
  unfold MemoryStorage.GetCharacterByID.
  destruct (MemoryStorage.characters ms !! id) as [c0|]; [|discriminate].
  intros [= <-]. eauto.
Qed.

Lemma loaded_memory_ID ms id c :
  well_keyed ms -> MemoryStorage.GetCharacterByID ms id = Some c ->
  Character.ID c = id /\ is_Some (MemoryStorage.characters ms !! id).
Proof.
  intros Hk H. apply GetCharacterByID_memory_inv in H as (c0 & H0 & ->).
  split; [|eauto].
  rewrite (kept_ID _ _ (kept_set_CombatPower _ c0)). exact (Hk _ _ H0).
Qed.

Lemma GetCharacterByID_db_inv db id c :
  CharacterService.GetCharacterByID_db db id = Some c ->
  exists row,
    find (fun row => Character.ID row =? id) (Database.characters db) = Some row /\
    Character.ID c = id /\ Character.ID row = id /\
    Character.Username c = Character.Username row /\
    Character.Level c = Character.Level row /\
    Character.Experience c = Character.Experience row /\
    Character.ChannelPointsSpent c = Character.ChannelPointsSpent row /\
    Character.Strength c = Character.Strength row /\
    Character.Agility c = Character.Agility row /\
    Character.Vitality c = Character.Vitality row /\
    Character.Intelligence c = Character.Intelligence row /\
    Character.BootsID c = Character.BootsID row /\
    Character.PantsID c = Character.PantsID row /\
    Character.ArmorID c = Character.ArmorID row /\
    Character.HelmetID c = Character.HelmetID row /\
    Character.RingID c = Character.RingID row /\
    Character.ChainID c = Character.ChainID row.
Proof.
  unfold CharacterService.GetCharacterByID_db.
  destruct (find _ _) as [row|] eqn:Hf; [|discriminate].
  intros [= <-]. exists row. split; [reflexivity|].
  apply find_some in Hf as [_ Hid]. apply Z.eqb_eq in Hid.
  destruct row; simpl in *. repeat split; assumption.
Qed.

(** [experience_for] in exact arithmetic. *)
Lemma experience_for_exact loser :
  in_int (50 + 10 * Character.Level loser) ->
  experience_for loser = 50 + 10 * Character.Level loser.
Proof.
  intros H. unfold experience_for, add, mul.
  rewrite wrap_add_r. replace (50 + Character.Level loser * 10)
    with (50 + 10 * Character.Level loser) by lia.
  apply wrap_id, H.
Qed.

Lemma Ok_inj {A : Type} (x y : A) : Ok x = Ok y -> x = y.
Proof. intros H. injection H as H. exact H. Qed.

Lemma StartCombat_memory w a d r n1 n2 :
  DB w = None ->
  CombatService.StartCombat w a d r n1 n2
  = (mkWorld None
       (fst (CombatService.startCombatMemory (Memory w) a d r n1 n2)),
     snd (CombatService.startCombatMemory (Memory w) a d r n1 n2)).
Proof.
  intros H. unfold CombatService.StartCombat. rewrite H.
  destruct (CombatService.startCombatMemory _ _ _ _ _ _). reflexivity.
Qed.

Lemma StartCombat_relational w db a d r n1 n2 :
  DB w = Some db ->
  CombatService.StartCombat w a d r n1 n2
  = (mkWorld (Some (fst (CombatService.StartCombat_db db a d r n1 n2)))
       (Memory w),
     snd (CombatService.StartCombat_db db a d r n1 n2)).
Proof.
  intros H. unfold CombatService.StartCombat. rewrite H.
  destruct (CombatService.StartCombat_db _ _ _ _ _ _). reflexivity.
Qed.

(** A character is loaded exactly when a record is stored for its id. *)
Lemma loaded_None w id : loaded w id = None <-> stored w id = None.
Proof.
  unfold loaded, stored. destruct (DB w) as [db|].
  - unfold CharacterService.GetCharacterByID_db.
    destruct (find _ _); split; (discriminate || reflexivity).
  - unfold MemoryStorage.GetCharacterByID.
    destruct (_ !! _); split; (discriminate || reflexivity).
Qed.

(** C7. A combat call whose attacker or defender does not exist returns an
    error and leaves the whole state, characters and combat log included,
    exactly as it was. *)
Theorem combat_missing_fighter (w : World) (a d : Z) (r : spec_float)
    (n1 n2 : Time) :
  stored w a = None \/ stored w d = None ->
  exists msg : string,
    CombatService.StartCombat w a d r n1 n2 = (w, Error msg).
Proof.
  intros H.
  assert (H' : loaded w a = None \/ loaded w d = None)
    by (destruct H; [left | right]; apply loaded_None; assumption).
  clear H. destruct w as [[db|] ms]; unfold loaded in H'; cbn [DB Memory] in H'.
  - rewrite (StartCombat_relational _ db) by reflexivity.
    unfold CombatService.StartCombat_db.
    destruct (CharacterService.GetCharacterByID_db db a) as [attacker|].
    + destruct H' as [H'|H']; [discriminate|]. rewrite H'.
      exists "defender not found". reflexivity.
    + exists "attacker not found". reflexivity.
  - rewrite StartCombat_memory by reflexivity. cbn [Memory].
    unfold CombatService.startCombatMemory.
    destruct (MemoryStorage.GetCharacterByID ms a) as [attacker|].
    + destruct H' as [H'|H']; [discriminate|]. rewrite H'.
      exists "defender not found". reflexivity.
    + exists "attacker not found". reflexivity.
Qed.

(** Both flows succeed on two loaded fighters, with the outcome of
    [resolve]. *)
Lemma StartCombat_outcome w a d r n1 n2 attacker defender :
  loaded w a = Some attacker -> loaded w d = Some defender ->
  well_keyed (Memory w) ->
  let winner := fst (resolve r attacker defender) in
  let loser := snd (resolve r attacker defender) in
  exists w' res,
    CombatService.StartCombat w a d r n1 n2 = (w', Ok res) /\
    kept winner (CombatResult.Winner res) /\
    CombatResult.Loser res = loser /\
    CombatResult.ExperienceGained res = experience_for loser /\
    CombatResult.AttackerPower res = Character.CalculateCombatPower attacker /\
    CombatResult.DefenderPower res = Character.CalculateCombatPower defender /\
    Character.ID attacker = a /\ Character.ID defender = d.
Proof.
  intros Ha Hd Hk winner loser.
  destruct w as [[db|] ms]; unfold loaded in Ha, Hd; cbn [DB Memory] in *.
  - rewrite (StartCombat_relational _ db) by reflexivity.
    rewrite (StartCombat_db_resolved _ _ _ _ _ _ _ _ Ha Hd).
    fold winner loser. unfold db_outcome. cbn [fst snd].
    eexists _, _. split; [reflexivity|]. cbn [CombatResult.Winner
      CombatResult.Loser CombatResult.ExperienceGained
      CombatResult.AttackerPower CombatResult.DefenderPower].
    apply GetCharacterByID_db_inv in Ha as (_ & _ & Ha & _).
    apply GetCharacterByID_db_inv in Hd as (_ & _ & Hd & _).
    repeat split; try assumption; apply kept_rewarded_db.
  - destruct (loaded_memory_ID _ _ _ Hk Ha) as [Ia Sa].
    destruct (loaded_memory_ID _ _ _ Hk Hd) as [Id Sd].
    rewrite StartCombat_memory by reflexivity. cbn [Memory].
    rewrite (startCombatMemory_resolved _ _ _ _ _ _ _ _ Ha Hd).
    + fold winner loser. unfold memory_outcome. cbn [fst snd].
      eexists _, _. split; [reflexivity|]. cbn [CombatResult.Winner
        CombatResult.Loser CombatResult.ExperienceGained
        CombatResult.AttackerPower CombatResult.DefenderPower].
      repeat split; try assumption; apply kept_rewarded_memory.
    + unfold reward_memory.
      rewrite (kept_ID _ _ (kept_check_level_up _)),
        (kept_ID _ _ (kept_set_Experience _ _)).
      unfold resolve. destruct (Float64.gt r _); cbn [fst snd]; congruence.
Qed.

(** *** What a combat changes *)

Lemma find_UpdateCharacter db c now id :
  find (fun row => Character.ID row =? id)
    (Database.characters (CharacterService.UpdateCharacter db c now))
  = (fun row =>
       if Character.ID row =? Character.ID c
       then CharacterService.updated_row row c now else row)
    <$> find (fun row => Character.ID row =? id) (Database.characters db).
Proof.
  unfold CharacterService.UpdateCharacter, Database.set_characters.
  cbn [Database.characters].
  induction (Database.characters db) as [|row rows IH]; [reflexivity|].
  cbn [map find].
  assert (Hid : Character.ID
                  (if Character.ID row =? Character.ID c
                   then CharacterService.updated_row row c now else row)
                = Character.ID row) by (destruct (_ =? _); reflexivity).
  rewrite Hid. destruct (Character.ID row =? id); [reflexivity | exact IH].
Qed.

Lemma points_rewarded_memory winner loser now :
  Character.ChannelPointsSpent (rewarded_memory winner loser now)
  = Character.ChannelPointsSpent winner.
Proof.
  unfold rewarded_memory, reward_memory.
  transitivity (Character.ChannelPointsSpent
                  (CombatService.check_level_up
                     (Character.set_Experience
                        (add (Character.Experience winner) (experience_for loser))
                        winner))).
  - generalize (CombatService.check_level_up
                  (Character.set_Experience
                     (add (Character.Experience winner) (experience_for loser))
                     winner)).
    intros c; destruct c; reflexivity.
  - rewrite check_level_up_points. destruct winner; reflexivity.
Qed.

(** The frame of a combat on the in-memory backend. *)
Lemma combat_frame_memory ms a d r n1 n2 ms' res :
  CombatService.startCombatMemory ms a d r n1 n2 = (ms', Ok res) ->
  a <> d ->
  well_keyed ms ->
  Character.ID (CombatResult.Loser res)
  <> Character.ID (CombatResult.Winner res) /\
  (forall id : Z,
     id <> Character.ID (CombatResult.Winner res) ->
     MemoryStorage.characters ms' !! id = MemoryStorage.characters ms !! id) /\
  (exists old new : Character.t,
     MemoryStorage.characters ms !! Character.ID (CombatResult.Winner res)
     = Some old /\
     MemoryStorage.characters ms' !! Character.ID (CombatResult.Winner res)
     = Some new /\
     kept old new /\
     Character.ChannelPointsSpent new = Character.ChannelPointsSpent old) /\
  (exists entry : CombatLog.t,
     MemoryStorage.combatLogs ms' = (MemoryStorage.combatLogs ms ++ [entry])%list) /\
  same_elsewhere (mkWorld None ms) (mkWorld None ms').
Proof.
  intros Hrun Hne Hk.
  destruct (MemoryStorage.GetCharacterByID ms a) as [attacker|] eqn:Ha;
    [|unfold CombatService.startCombatMemory in Hrun; rewrite Ha in Hrun;
      discriminate].
  destruct (MemoryStorage.GetCharacterByID ms d) as [defender|] eqn:Hd;
    [|unfold CombatService.startCombatMemory in Hrun; rewrite Ha, Hd in Hrun;
      discriminate].
  destruct (loaded_memory_ID _ _ _ Hk Ha) as [Ia Sa].
  destruct (loaded_memory_ID _ _ _ Hk Hd) as [Id Sd].
  assert (Hwl : (fst (resolve r attacker defender) = attacker
                 /\ snd (resolve r attacker defender) = defender)
                \/ (fst (resolve r attacker defender) = defender
                    /\ snd (resolve r attacker defender) = attacker))
    by (unfold resolve; destruct (Float64.gt r _); cbn [fst snd]; auto).
  assert (Hkey : Character.ID
                   (reward_memory (fst (resolve r attacker defender))
                      (snd (resolve r attacker defender)))
                 = Character.ID (fst (resolve r attacker defender))).
  { unfold reward_memory.
    rewrite (kept_ID _ _ (kept_check_level_up _)),
      (kept_ID _ _ (kept_set_Experience _ _)). reflexivity. }
  rewrite (startCombatMemory_resolved _ _ _ _ _ _ _ _ Ha Hd) in Hrun
    by (rewrite Hkey; destruct Hwl as [[-> _]|[-> _]]; congruence).
  unfold memory_outcome in Hrun. rewrite Hkey in Hrun.
  pose proof (f_equal fst Hrun) as Hms. pose proof (f_equal snd Hrun) as Hres.
  clear Hrun. cbn [fst snd] in Hms, Hres.
  apply Ok_inj in Hres. subst ms' res.
  cbn [CombatResult.Winner CombatResult.Loser].
  rewrite (kept_ID _ _ (kept_rewarded_memory _ _ _)).
  set (winner := fst (resolve r attacker defender)) in *.
  set (loser := snd (resolve r attacker defender)) in *.
  assert (Hstored : exists c0,
             MemoryStorage.characters ms !! Character.ID winner = Some c0 /\
             winner = Character.set_CombatPower
                        (Character.CalculateCombatPower c0) c0).
  { destruct Hwl as [[-> _]|[-> _]].
    - rewrite Ia. apply GetCharacterByID_memory_inv, Ha.
    - rewrite Id. apply GetCharacterByID_memory_inv, Hd. }
  destruct Hstored as (c0 & Hc0 & Hw).
  split; [|split; [|split; [|split]]].
  - destruct Hwl as [[-> ->]|[-> ->]]; congruence.
  - intros id Hid. unfold MemoryStorage.AddCombatLog, MemoryStorage.set_characters.
    cbn [MemoryStorage.characters]. apply lookup_insert_ne. congruence.
  - exists c0, (rewarded_memory winner loser n1). split; [exact Hc0|].
    split.
    + unfold MemoryStorage.AddCombatLog, MemoryStorage.set_characters.
      cbn [MemoryStorage.characters]. apply lookup_insert_eq.
    + split.
      * eapply kept_trans; [|apply kept_rewarded_memory].
        rewrite Hw. apply kept_set_CombatPower.
      * rewrite points_rewarded_memory, Hw. destruct c0; reflexivity.
  - eexists. unfold MemoryStorage.AddCombatLog, MemoryStorage.set_characters.
    cbn [MemoryStorage.combatLogs]. reflexivity.
  - unfold same_elsewhere, MemoryStorage.AddCombatLog,
      MemoryStorage.set_characters. cbn. repeat split.
Qed.

Lemma find_UpdateCharacter_other db c now id :
  id <> Character.ID c ->
  find (fun row => Character.ID row =? id)
    (Database.characters (CharacterService.UpdateCharacter db c now))
  = find (fun row => Character.ID row =? id) (Database.characters db).
Proof.
  intros Hne. rewrite find_UpdateCharacter.
  destruct (find _ _) as [row|] eqn:Hf; [|reflexivity].
  apply find_some in Hf as [_ Hid]. apply Z.eqb_eq in Hid.
  cbn [fmap option_fmap option_map].
  destruct (Z.eqb_spec (Character.ID row) (Character.ID c)); [congruence|].
  reflexivity.
Qed.

Lemma kept_updated_row row c now :
  Character.Strength c = Character.Strength row ->
  Character.Agility c = Character.Agility row ->
  Character.Vitality c = Character.Vitality row ->
  Character.Intelligence c = Character.Intelligence row ->
  Character.BootsID c = Character.BootsID row ->
  Character.PantsID c = Character.PantsID row ->
  Character.ArmorID c = Character.ArmorID row ->
  Character.HelmetID c = Character.HelmetID row ->
  Character.RingID c = Character.RingID row ->
  Character.ChainID c = Character.ChainID row ->
  kept row (CharacterService.updated_row row c now).
Proof.
  intros. destruct row, c. unfold kept, Spec.same_profile. simpl in *.
  repeat split; assumption.
Qed.

(** The relational flow's writes, for any winner record handed to
    [UpdateCharacter]. *)
Lemma frame_db_writes db ms n1 n2 (res : CombatResult.t) (row : Character.t) :
  find (fun row => Character.ID row =? Character.ID (CombatResult.Winner res))
    (Database.characters db) = Some row ->
  kept row (CharacterService.updated_row row (CombatResult.Winner res) n1) ->
  let db' :=
    CombatService.logCombat
      (CharacterService.UpdateCharacter db (CombatResult.Winner res) n1)
      res n2 in
  (forall id : Z,
     id <> Character.ID (CombatResult.Winner res) ->
     find (fun row => Character.ID row =? id) (Database.characters db')
     = find (fun row => Character.ID row =? id) (Database.characters db)) /\
  (exists old new : Character.t,
     find (fun row => Character.ID row =? Character.ID (CombatResult.Winner res))
       (Database.characters db) = Some old /\
     find (fun row => Character.ID row =? Character.ID (CombatResult.Winner res))
       (Database.characters db') = Some new /\
     kept old new) /\
  (exists entry : CombatLog.t,
     Database.combat_logs db' = (Database.combat_logs db ++ [entry])%list) /\
  same_elsewhere (mkWorld (Some db) ms) (mkWorld (Some db') ms).
Proof.
  intros Hfind Hkept db'. subst db'.
  generalize dependent (CombatResult.Winner res). intros winner Hfind Hkept.
  split; [|split; [|split]].
  - intros id Hid. unfold CombatService.logCombat. cbn [Database.characters].
    apply find_UpdateCharacter_other. exact Hid.
  - exists row, (CharacterService.updated_row row winner n1).
    split; [exact Hfind|]. split; [|exact Hkept].
    unfold CombatService.logCombat. cbn [Database.characters].
    rewrite find_UpdateCharacter, Hfind. cbn [fmap option_fmap option_map].
    apply find_some in Hfind as [_ Hrid]. rewrite Hrid. reflexivity.
  - eexists. unfold CombatService.logCombat. cbn [Database.combat_logs].
    reflexivity.
  - unfold same_elsewhere, CombatService.logCombat,
      CharacterService.UpdateCharacter, Database.set_characters.
    cbn. repeat split.
Qed.

(** The row behind a loaded character agrees with it on stats and slots. *)
Lemma loaded_row db id c c' :
  CharacterService.GetCharacterByID_db db id = Some c ->
  kept c c' ->
  exists row,
    find (fun row => Character.ID row =? Character.ID c')
      (Database.characters db) = Some row /\
    kept row (CharacterService.updated_row row c' 0) /\
    Character.ID c = id.
Proof.
  intros Hc Hk.
  destruct (GetCharacterByID_db_inv _ _ _ Hc)
    as (row & Hf & Hi & _ & _ & _ & _ & _ & R1 & R2 & R3 & R4 & R5 & R6 & R7
        & R8 & R9 & R10).
  exists row. rewrite (kept_ID _ _ Hk). split; [rewrite Hi; exact Hf|].
  split; [|exact Hi].
  destruct Hk as ((_ & _ & _ & K4 & K5 & K6 & K7 & K8 & K9 & _)
                  & K13 & K14 & K15 & K16).
  apply kept_updated_row; congruence.
Qed.

Lemma kept_updated_row_now row c now now' :
  kept row (CharacterService.updated_row row c now) ->
  kept row (CharacterService.updated_row row c now').
Proof. intros H. destruct row, c. exact H. Qed.

(** The frame of a combat on the relational backend. *)
Lemma combat_frame_db db ms a d r n1 n2 db' res :
  CombatService.StartCombat_db db a d r n1 n2 = (db', Ok res) ->
  a <> d ->
  Character.ID (CombatResult.Loser res)
  <> Character.ID (CombatResult.Winner res) /\
  (forall id : Z,
     id <> Character.ID (CombatResult.Winner res) ->
     find (fun row => Character.ID row =? id) (Database.characters db')
     = find (fun row => Character.ID row =? id) (Database.characters db)) /\
  (exists old new : Character.t,
     find (fun row => Character.ID row =? Character.ID (CombatResult.Winner res))
       (Database.characters db) = Some old /\
     find (fun row => Character.ID row =? Character.ID (CombatResult.Winner res))
       (Database.characters db') = Some new /\
     kept old new) /\
  (exists entry : CombatLog.t,
     Database.combat_logs db' = (Database.combat_logs db ++ [entry])%list) /\
  same_elsewhere (mkWorld (Some db) ms) (mkWorld (Some db') ms).
Proof.
  intros Hrun Hne.
  destruct (CharacterService.GetCharacterByID_db db a) as [attacker|] eqn:Ha;
    [|unfold CombatService.StartCombat_db in Hrun; rewrite Ha in Hrun;
      discriminate].
  destruct (CharacterService.GetCharacterByID_db db d) as [defender|] eqn:Hd;
    [|unfold CombatService.StartCombat_db in Hrun; rewrite Ha, Hd in Hrun;
      discriminate].
  rewrite (StartCombat_db_resolved _ _ _ _ _ _ _ _ Ha Hd) in Hrun.
  unfold db_outcome in Hrun.
  assert (Hwl : (fst (resolve r attacker defender) = attacker
                 /\ snd (resolve r attacker defender) = defender)
                \/ (fst (resolve r attacker defender) = defender
                    /\ snd (resolve r attacker defender) = attacker))
    by (unfold resolve; destruct (Float64.gt r _); cbn [fst snd]; auto).
  destruct Hwl as [[Hw Hl]|[Hw Hl]]; rewrite Hw, Hl in Hrun; clear Hw Hl.
  - destruct (loaded_row _ _ _ _ Ha (kept_rewarded_db attacker defender))
      as (row & Hfind & Hkept & Ia).
    destruct (GetCharacterByID_db_inv _ _ _ Hd) as (_ & _ & Id & _).
    pose proof (kept_ID _ _ (kept_rewarded_db attacker defender)) as Hid.
    generalize dependent (rewarded_db attacker defender).
    intros winner' Hrun Hfind Hkept Hid.
    pose proof (f_equal fst Hrun) as Hdb. pose proof (f_equal snd Hrun) as Hres.
    clear Hrun. cbn [fst snd] in Hdb, Hres. apply Ok_inj in Hres.
    subst db' res.
    split; [cbn [CombatResult.Winner CombatResult.Loser]; congruence|].
    apply frame_db_writes with (row := row); cbn [CombatResult.Winner].
    + exact Hfind.
    + exact (kept_updated_row_now _ _ _ _ Hkept).
  - destruct (loaded_row _ _ _ _ Hd (kept_rewarded_db defender attacker))
      as (row & Hfind & Hkept & Id).
    destruct (GetCharacterByID_db_inv _ _ _ Ha) as (_ & _ & Ia & _).
    pose proof (kept_ID _ _ (kept_rewarded_db defender attacker)) as Hid.
    generalize dependent (rewarded_db defender attacker).
    intros winner' Hrun Hfind Hkept Hid.
    pose proof (f_equal fst Hrun) as Hdb. pose proof (f_equal snd Hrun) as Hres.
    clear Hrun. cbn [fst snd] in Hdb, Hres. apply Ok_inj in Hres.
    subst db' res.
    split; [cbn [CombatResult.Winner CombatResult.Loser]; congruence|].
    apply frame_db_writes with (row := row); cbn [CombatResult.Winner].
    + exact Hfind.
    + exact (kept_updated_row_now _ _ _ _ Hkept).
Qed.

(** The level, experience and spent points after the reward and the
    level-up check. *)
Lemma check_level_up_fields c :
  let needed := mul (Character.Level c) 100 in
  Character.Level (CombatService.check_level_up c)
  = (if needed <=? Character.Experience c
     then add (Character.Level c) 1 else Character.Level c) /\
  Character.Experience (CombatService.check_level_up c)
  = (if needed <=? Character.Experience c
     then sub (Character.Experience c) needed else Character.Experience c).
Proof.
  unfold CombatService.check_level_up. destruct c. cbn.
  destruct (_ <=? _); split; reflexivity.
Qed.

Lemma rewarded_db_fields winner loser :
  let total :=
    add (Character.Experience winner) (add 50 (mul (Character.Level loser) 10)) in
  let needed := mul (Character.Level winner) 100 in
  Character.Level (rewarded_db winner loser)
  = (if needed <=? total then add (Character.Level winner) 1
     else Character.Level winner) /\
  Character.Experience (rewarded_db winner loser)
  = (if needed <=? total then sub total needed else total) /\
  Character.ChannelPointsSpent (rewarded_db winner loser)
  = sub (Character.ChannelPointsSpent winner)
      (add 25 (mul (Character.Level loser) 5)).
Proof.
  unfold rewarded_db. rewrite check_level_up_points.
  destruct (check_level_up_fields
              (Character.set_ChannelPointsSpent
                 (sub
                    (Character.ChannelPointsSpent
                       (Character.set_Experience
                          (add (Character.Experience winner)
                             (experience_for loser)) winner))
                    (add 25 (mul (Character.Level loser) 5)))
                 (Character.set_Experience
                    (add (Character.Experience winner) (experience_for loser))
                    winner))) as [HL HE].
  rewrite HL, HE. unfold experience_for. destruct winner; cbn.
  repeat split.
Qed.

Lemma rewarded_memory_fields winner loser now :
  let total :=
    add (Character.Experience winner) (add 50 (mul (Character.Level loser) 10)) in
  let needed := mul (Character.Level winner) 100 in
  Character.Level (rewarded_memory winner loser now)
  = (if needed <=? total then add (Character.Level winner) 1
     else Character.Level winner) /\
  Character.Experience (rewarded_memory winner loser now)
  = (if needed <=? total then sub total needed else total) /\
  Character.ChannelPointsSpent (rewarded_memory winner loser now)
  = Character.ChannelPointsSpent winner.
Proof.
  split; [|split; [|apply points_rewarded_memory]].
  - unfold rewarded_memory, reward_memory.
    transitivity (Character.Level
                    (CombatService.check_level_up
                       (Character.set_Experience
                          (add (Character.Experience winner)
                             (experience_for loser)) winner))).
    + generalize (CombatService.check_level_up
                    (Character.set_Experience
                       (add (Character.Experience winner)
                          (experience_for loser)) winner)).
      intros c; destruct c; reflexivity.
    + rewrite (proj1 (check_level_up_fields _)). unfold experience_for.
      destruct winner; reflexivity.
  - unfold rewarded_memory, reward_memory.
    transitivity (Character.Experience
                    (CombatService.check_level_up
                       (Character.set_Experience
                          (add (Character.Experience winner)
                             (experience_for loser)) winner))).
    + generalize (CombatService.check_level_up
                    (Character.set_Experience
                       (add (Character.Experience winner)
                          (experience_for loser)) winner)).
      intros c; destruct c; reflexivity.
    + rewrite (proj2 (check_level_up_fields _)). unfold experience_for.
      destruct winner; reflexivity.
Qed.

(** The winner's record before and after a combat: the experience grows by
    the reward, one level-up is taken when level * 100 is reached, and the
    relational flow also lowers the spent points. *)
Lemma combat_winner_record w a d r n1 n2 w' res :
  CombatService.StartCombat w a d r n1 n2 = (w', Ok res) ->
  well_keyed (Memory w) ->
  exists old new : Character.t,
    stored w (Character.ID (CombatResult.Winner res)) = Some old /\
    stored w' (Character.ID (CombatResult.Winner res)) = Some new /\
    let total :=
      add (Character.Experience old)
        (add 50 (mul (Character.Level (CombatResult.Loser res)) 10)) in
    let needed := mul (Character.Level old) 100 in
    Character.Level new
    = (if needed <=? total then add (Character.Level old) 1
       else Character.Level old) /\
    Character.Experience new
    = (if needed <=? total then sub total needed else total) /\
    Character.ChannelPointsSpent new
    = match DB w with
      | None => Character.ChannelPointsSpent old
      | Some _ =>
          sub (Character.ChannelPointsSpent old)
            (add 25 (mul (Character.Level (CombatResult.Loser res)) 5))
      end.
Proof.
  intros Hrun Hk. destruct w as [[db|] ms].
  - rewrite (StartCombat_relational _ db) in Hrun by reflexivity.
    cbn [Memory] in Hrun.
    pose proof (f_equal fst Hrun) as Hw. pose proof (f_equal snd Hrun) as Hres.
    clear Hrun. cbn [fst snd] in Hw, Hres. subst w'.
    unfold stored. cbn [DB].
    destruct (CharacterService.GetCharacterByID_db db a) as [attacker|] eqn:Ha;
      [|unfold CombatService.StartCombat_db in Hres; rewrite Ha in Hres;
        discriminate].
    destruct (CharacterService.GetCharacterByID_db db d) as [defender|] eqn:Hd;
      [|unfold CombatService.StartCombat_db in Hres; rewrite Ha, Hd in Hres;
        discriminate].
    rewrite (StartCombat_db_resolved _ _ _ _ _ _ _ _ Ha Hd) in Hres |- *.
    assert (Hload : exists id,
               CharacterService.GetCharacterByID_db db id
               = Some (fst (resolve r attacker defender)))
      by (unfold resolve; destruct (Float64.gt r _); cbn [fst snd]; eauto).
    destruct Hload as [id Hload].
    generalize dependent (fst (resolve r attacker defender)).
    generalize dependent (snd (resolve r attacker defender)).
    clear Ha Hd. intros loser winner Hres Hload.
    destruct (GetCharacterByID_db_inv _ _ _ Hload)
      as (row & Hfind & Iw & Ir & _ & HL & HE & HP & _).
    destruct (rewarded_db_fields winner loser) as (FL & FE & FP).
    pose proof (kept_ID _ _ (kept_rewarded_db winner loser)) as Hid.
    unfold db_outcome in Hres |- *. cbn [fst snd] in Hres |- *.
    apply Ok_inj in Hres.
    generalize dependent (rewarded_db winner loser).
    intros winner' Hres FL FE FP Hid. subst res.
    cbn [CombatResult.Winner CombatResult.Loser].
    exists row, (CharacterService.updated_row row winner' n1).
    rewrite Hid, Iw. split; [exact Hfind|]. split.
    + unfold CombatService.logCombat. cbn [Database.characters].
      rewrite find_UpdateCharacter, Hfind. cbn [fmap option_fmap option_map].
      rewrite Hid, Iw, Ir, Z.eqb_refl. reflexivity.
    + cbn [CharacterService.updated_row Character.Level Character.Experience
             Character.ChannelPointsSpent].
      rewrite FL, FE, FP, HL, HE, HP. repeat split.
  - rewrite StartCombat_memory in Hrun by reflexivity. cbn [Memory] in Hrun, Hk.
    pose proof (f_equal fst Hrun) as Hw. pose proof (f_equal snd Hrun) as Hres.
    clear Hrun. cbn [fst snd] in Hw, Hres. subst w'.
    unfold stored. cbn [DB Memory].
    destruct (MemoryStorage.GetCharacterByID ms a) as [attacker|] eqn:Ha;
      [|unfold CombatService.startCombatMemory in Hres; rewrite Ha in Hres;
        discriminate].
    destruct (MemoryStorage.GetCharacterByID ms d) as [defender|] eqn:Hd;
      [|unfold CombatService.startCombatMemory in Hres; rewrite Ha, Hd in Hres;
        discriminate].
    assert (Hload : exists id,
               MemoryStorage.GetCharacterByID ms id
               = Some (fst (resolve r attacker defender)))
      by (unfold resolve; destruct (Float64.gt r _); cbn [fst snd]; eauto).
    destruct Hload as [id Hload].
    destruct (loaded_memory_ID _ _ _ Hk Hload) as [Iw Sw].
    assert (Hkey : Character.ID
                     (reward_memory (fst (resolve r attacker defender))
                        (snd (resolve r attacker defender)))
                   = Character.ID (fst (resolve r attacker defender))).
    { unfold reward_memory.
      rewrite (kept_ID _ _ (kept_check_level_up _)),
        (kept_ID _ _ (kept_set_Experience _ _)). reflexivity. }
    rewrite (startCombatMemory_resolved _ _ _ _ _ _ _ _ Ha Hd) in Hres |- *
      by (rewrite Hkey, Iw; exact Sw).
    unfold memory_outcome in Hres |- *. rewrite Hkey in *.
    cbn [fst snd] in Hres |- *. apply Ok_inj in Hres.
    remember (fst (resolve r attacker defender)) as winner eqn:Ew.
    remember (snd (resolve r attacker defender)) as loser eqn:El.
    clear Ew El Ha Hd.
    apply GetCharacterByID_memory_inv in Hload as (c0 & Hc0 & Hw).
    destruct (rewarded_memory_fields winner loser n1) as (FL & FE & FP).
    pose proof (kept_ID _ _ (kept_rewarded_memory winner loser n1)) as Hid.
    generalize dependent (rewarded_memory winner loser n1).
    intros winner' Hres FL FE FP Hid. subst res.
    cbn [CombatResult.Winner CombatResult.Loser].
    exists c0, winner'. rewrite Hid, Iw. split; [exact Hc0|]. split.
    + unfold MemoryStorage.AddCombatLog, MemoryStorage.set_characters.
      cbn [MemoryStorage.characters]. apply lookup_insert_eq.
    + rewrite FL, FE, FP, Hw. destruct c0; cbn. repeat split.
Qed.

(** The code's chance is the quotient of the spec when the sum of the powers
    is a Go [int]. *)
Lemma attackerChance_ratio ap dp :
  in_int (ap + dp) ->
  CombatService.attackerChance ap dp = Spec.win_ratio ap dp.
Proof.
  intros H. unfold CombatService.attackerChance, Spec.win_ratio, add.
  rewrite (wrap_id _ H). reflexivity.
Qed.

(** Against a chance that is not a number no roll is greater. *)
Lemma gt_nan r c : Float64.is_nan c = true -> Float64.gt r c = false.
Proof.
  destruct c; try discriminate. intros _.
  unfold Float64.gt, SFltb. destruct r; reflexivity.
Qed.

Lemma resolve_ratio r attacker defender :
  unit_draw r ->
  in_int (Character.CalculateCombatPower attacker
          + Character.CalculateCombatPower defender) ->
  let ratio :=
    Spec.win_ratio (Character.CalculateCombatPower attacker)
      (Character.CalculateCombatPower defender) in
  resolve r attacker defender
  = if (if (Character.CalculateCombatPower attacker =? 0)
           && (Character.CalculateCombatPower defender =? 0)
        then true else Float64.le r ratio)
    then (attacker, defender) else (defender, attacker).
Proof.
  intros Hr Hsum ratio. unfold resolve.
  rewrite (attackerChance_ratio _ _ Hsum). fold ratio.
  assert (Hpower : in_int (Character.CalculateCombatPower attacker))
    by (rewrite CombatPowerFacts.CalculateCombatPower_wrap; apply wrap_in_int).
  rewrite <- (FloatRange.win_ratio_nan _ _ Hpower Hsum). fold ratio.
  destruct (Float64.is_nan ratio) eqn:Hn.
  - rewrite (gt_nan _ _ Hn). reflexivity.
  - rewrite (gt_not_le _ _ (unit_draw_number _ Hr) Hn).
    destruct (Float64.le r ratio); reflexivity.
Qed.

(** C4, amended. A combat between two existing characters, with the draw
    [r] of [rand.Float64()] as input.  Unless both powers are 0, the
    attacker wins exactly when [r] is at most attackerPower / (attackerPower
    + defenderPower), the quotient taken as a [float64], and the defender
    wins otherwise; when both powers are 0 the quotient is not a number and
    the attacker wins whatever the draw.  The experience granted is
    50 + 10 * loser.level: it is reported in the result, and the winner's
    stored experience grows by it, less level * 100 with one level gained
    when that threshold is reached. *)
Theorem combat_resolution (w : World) (a d : Z) (r : spec_float)
    (n1 n2 : Time) (attacker defender : Character.t) :
  loaded w a = Some attacker ->
  loaded w d = Some defender ->
  well_keyed (Memory w) ->
  unit_draw r ->
  in_int (Character.CalculateCombatPower attacker
          + Character.CalculateCombatPower defender) ->
  in_int (50 + 10 * Character.Level attacker) ->
  in_int (50 + 10 * Character.Level defender) ->
  let ratio :=
    Spec.win_ratio (Character.CalculateCombatPower attacker)
      (Character.CalculateCombatPower defender) in
  exists (w' : World) (res : CombatResult.t) (attacker_wins : bool),
    CombatService.StartCombat w a d r n1 n2 = (w', Ok res) /\
    attacker_wins
    = (if (Character.CalculateCombatPower attacker =? 0)
          && (Character.CalculateCombatPower defender =? 0)
       then true else Float64.le r ratio) /\
    Character.ID (CombatResult.Winner res) = (if attacker_wins then a else d) /\
    Character.Username (CombatResult.Winner res)
    = Character.Username (if attacker_wins then attacker else defender) /\
    CombatResult.Loser res = (if attacker_wins then defender else attacker) /\
    CombatResult.ExperienceGained res
    = 50 + 10 * Character.Level (CombatResult.Loser res) /\
    CombatResult.AttackerPower res = Character.CalculateCombatPower attacker /\
    CombatResult.DefenderPower res = Character.CalculateCombatPower defender /\
    exists old new : Character.t,
      stored w (Character.ID (CombatResult.Winner res)) = Some old /\
      stored w' (Character.ID (CombatResult.Winner res)) = Some new /\
      let total :=
        add (Character.Experience old) (CombatResult.ExperienceGained res) in
      let needed := mul (Character.Level old) 100 in
      Character.Level new
      = (if needed <=? total then add (Character.Level old) 1
         else Character.Level old) /\
      Character.Experience new
      = (if needed <=? total then sub total needed else total).
Proof.
  intros Ha Hd Hk Hr Hsum Hxa Hxd ratio.
  destruct (StartCombat_outcome w a d r n1 n2 attacker defender Ha Hd Hk)
    as (w' & res & Hrun & Hkept & Hloser & Hexp & Hpa & Hpd & Ia & Id).
  pose proof (resolve_ratio r attacker defender Hr Hsum) as Hres.
  fold ratio in Hres. cbv zeta in Hres.
  exists w', res,
    (if (Character.CalculateCombatPower attacker =? 0)
        && (Character.CalculateCombatPower defender =? 0)
     then true else Float64.le r ratio).
  split; [exact Hrun|]. split; [reflexivity|].
  destruct (combat_winner_record w a d r n1 n2 w' res Hrun Hk)
    as (old & new & Hold & Hnew & HL & HE & _).
  assert (Hgain : CombatResult.ExperienceGained res
                  = add 50 (mul (Character.Level (CombatResult.Loser res)) 10))
    by (rewrite Hexp, Hloser; reflexivity).
  rewrite Hres in Hkept, Hloser, Hexp. clear Hres.
  destruct (if (Character.CalculateCombatPower attacker =? 0)
               && (Character.CalculateCombatPower defender =? 0)
            then true else Float64.le r ratio).
  - rewrite (kept_ID _ _ Hkept), (kept_Username _ _ Hkept).
    cbn [fst snd] in *.
    split; [exact Ia|]. split; [reflexivity|]. split; [exact Hloser|].
    split; [rewrite Hexp, Hloser; exact (experience_for_exact _ Hxd)|].
    split; [exact Hpa|]. split; [exact Hpd|].
    exists old, new. rewrite Hgain. rewrite (kept_ID _ _ Hkept) in Hold, Hnew.
    split; [exact Hold|]. split; [exact Hnew|]. split; [exact HL | exact HE].
  - rewrite (kept_ID _ _ Hkept), (kept_Username _ _ Hkept).
    cbn [fst snd] in *.
    split; [exact Id|]. split; [reflexivity|]. split; [exact Hloser|].
    split; [rewrite Hexp, Hloser; exact (experience_for_exact _ Hxa)|].
    split; [exact Hpa|]. split; [exact Hpd|].
    exists old, new. rewrite Hgain. rewrite (kept_ID _ _ Hkept) in Hold, Hnew.
    split; [exact Hold|]. split; [exact Hnew|]. split; [exact HL | exact HE].
Qed.

(** C6, amended. After a successful combat between two distinct characters
    the loser's persisted record is what it was, and so is every record but
    the winner's; the winner's record keeps its identity, stats and slots;
    its experience grows by the reward, with one level-up when level * 100
    is reached; its spent-points counter is what it was in memory and is
    lowered by 25 + 5 * loser.level on the relational backend (its update
    stamp changes, in memory also the cached combat power); exactly one
    entry is appended to the combat log; nothing else changes. *)
Theorem combat_frame (w : World) (a d : Z) (r : spec_float) (n1 n2 : Time)
    (w' : World) (res : CombatResult.t) :
  CombatService.StartCombat w a d r n1 n2 = (w', Ok res) ->
  a <> d ->
  well_keyed (Memory w) ->
  stored w' (Character.ID (CombatResult.Loser res))
  = stored w (Character.ID (CombatResult.Loser res)) /\
  (forall id : Z,
     id <> Character.ID (CombatResult.Winner res) ->
     stored w' id = stored w id) /\
  (exists old new : Character.t,
     stored w (Character.ID (CombatResult.Winner res)) = Some old /\
     stored w' (Character.ID (CombatResult.Winner res)) = Some new /\
     kept old new /\
     Character.ChannelPointsSpent new
     = match DB w with
       | None => Character.ChannelPointsSpent old
       | Some _ =>
           sub (Character.ChannelPointsSpent old)
             (add 25 (mul (Character.Level (CombatResult.Loser res)) 5))
       end /\
     let total :=
       add (Character.Experience old)
         (add 50 (mul (Character.Level (CombatResult.Loser res)) 10)) in
     let needed := mul (Character.Level old) 100 in
     Character.Level new
     = (if needed <=? total then add (Character.Level old) 1
        else Character.Level old) /\
     Character.Experience new
     = (if needed <=? total then sub total needed else total)) /\
  (exists entry : CombatLog.t,
     combat_log w' = (combat_log w ++ [entry])%list) /\
  same_elsewhere w w'.
Proof.
  intros Hrun Hne Hk.
  destruct (combat_winner_record w a d r n1 n2 w' res Hrun Hk)
    as (old & new & Hold & Hnew & HL & HE & HP).
  assert (Hframe :
    stored w' (Character.ID (CombatResult.Loser res))
    = stored w (Character.ID (CombatResult.Loser res)) /\
    (forall id : Z,
       id <> Character.ID (CombatResult.Winner res) ->
       stored w' id = stored w id) /\
    (exists old new : Character.t,
       stored w (Character.ID (CombatResult.Winner res)) = Some old /\
       stored w' (Character.ID (CombatResult.Winner res)) = Some new /\
       kept old new) /\
    (exists entry : CombatLog.t,
       combat_log w' = (combat_log w ++ [entry])%list) /\
    same_elsewhere w w').
  { clear old new Hold Hnew HL HE HP. destruct w as [[db|] ms].
    - rewrite (StartCombat_relational _ db) in Hrun by reflexivity.
      cbn [Memory] in Hrun.
      pose proof (f_equal fst Hrun) as Hw.
      pose proof (f_equal snd Hrun) as Hres.
      clear Hrun. cbn [fst snd] in Hw, Hres. subst w'.
      destruct (combat_frame_db db ms a d r n1 n2 _ res
                  ltac:(apply injective_projections; [reflexivity | exact Hres])
                  Hne) as (F1 & F2 & F3 & F6 & F7).
      unfold stored, combat_log. cbn [DB].
      split; [apply F2, F1|]. split; [exact F2|]. split; [exact F3|].
      split; assumption.
    - rewrite StartCombat_memory in Hrun by reflexivity.
      cbn [Memory] in Hrun, Hk.
      pose proof (f_equal fst Hrun) as Hw.
      pose proof (f_equal snd Hrun) as Hres.
      clear Hrun. cbn [fst snd] in Hw, Hres. subst w'.
      destruct (combat_frame_memory ms a d r n1 n2 _ res
                  ltac:(apply injective_projections; [reflexivity | exact Hres])
                  Hne Hk)
        as (F1 & F2 & (old & new & F3 & F4 & F5 & _) & F6 & F7).
      unfold stored, combat_log. cbn [DB Memory].
      split; [apply F2, F1|]. split; [exact F2|].
      split; [exists old, new; split; [exact F3|]; split; [exact F4|];
              exact F5|].
      split; assumption. }
  destruct Hframe as (G1 & G2 & (old' & new' & G3 & G4 & G5) & G6 & G7).
  split; [exact G1|]. split; [exact G2|]. split; [|split; assumption].
  exists old, new. split; [exact Hold|]. split; [exact Hnew|].
  assert (old' = old) by congruence. assert (new' = new) by congruence.
  subst old' new'. split; [exact G5|]. split; [exact HP|].
  split; [exact HL | exact HE].
Qed.

End CombatFacts.

(** ** Invariants of the in-memory backend *)

Module StoreFacts.
Import GoInt GoIntFacts CharacterFacts CombatFacts System.

Lemma tidy_new n1 n2 n3 n4 : tidy (MemoryStorage.NewMemoryStorage n1 n2 n3 n4).
Proof.
  split; intros k c H; unfold MemoryStorage.NewMemoryStorage in H;
    cbn [MemoryStorage.characters] in H; rewrite lookup_empty in H;
    discriminate.
Qed.

Lemma tidy_insert ms (c : Character.t) rest :
  tidy ms ->
  Character.Equipment c = None ->
  MemoryStorage.characters rest
  = <[Character.ID c := c]> (MemoryStorage.characters ms) ->
  tidy rest.
Proof.
  intros [Hk Hu] He Hrest.
  split; intros k c' H; rewrite Hrest in H;
    destruct (decide (Character.ID c = k)) as [<-|Hne].
  - rewrite lookup_insert_eq in H. congruence.
  - rewrite lookup_insert_ne in H by exact Hne. exact (Hk _ _ H).
  - rewrite lookup_insert_eq in H. congruence.
  - rewrite lookup_insert_ne in H by exact Hne. exact (Hu _ _ H).
Qed.

Lemma tidy_CreateCharacter ms username twitchUserID created updated :
  tidy ms ->
  tidy (fst (MemoryStorage.CreateCharacter ms username twitchUserID
               created updated)).
Proof.
  intros Ht. unfold MemoryStorage.CreateCharacter.
  destruct (existsb _ _); [exact Ht|]. cbn [fst].
  eapply tidy_insert with
    (c := Character.set_CombatPower
            (Character.CalculateCombatPower
               (Character.mk (MemoryStorage.nextCharacterID ms) username
                  twitchUserID 1 0 0 10 10 10 10 None None None None None None
                  created updated None None 0))
            (Character.mk (MemoryStorage.nextCharacterID ms) username
               twitchUserID 1 0 0 10 10 10 10 None None None None None None
               created updated None None 0)).
  - exact Ht.
  - reflexivity.
  - reflexivity.
Qed.

Lemma tidy_startCombatMemory ms a d r n1 n2 :
  tidy ms ->
  tidy (fst (CombatService.startCombatMemory ms a d r n1 n2)).
Proof.
  intros Ht.
  destruct (MemoryStorage.GetCharacterByID ms a) as [attacker|] eqn:Ha;
    [|unfold CombatService.startCombatMemory; rewrite Ha; exact Ht].
  destruct (MemoryStorage.GetCharacterByID ms d) as [defender|] eqn:Hd;
    [|unfold CombatService.startCombatMemory; rewrite Ha, Hd; exact Ht].
  destruct (loaded_memory_ID _ _ _ (proj1 Ht) Ha) as [Ia Sa].
  destruct (loaded_memory_ID _ _ _ (proj1 Ht) Hd) as [Id Sd].
  assert (Hwl : (fst (resolve r attacker defender) = attacker
                 /\ snd (resolve r attacker defender) = defender)
                \/ (fst (resolve r attacker defender) = defender
                    /\ snd (resolve r attacker defender) = attacker))
    by (unfold resolve; destruct (Float64.gt r _); cbn [fst snd]; auto).
  assert (He : forall c id, MemoryStorage.GetCharacterByID ms id = Some c ->
                            Character.Equipment c = None).
  { intros c id Hc. apply GetCharacterByID_memory_inv in Hc as (c0 & Hc0 & ->).
    destruct (kept_set_CombatPower (Character.CalculateCombatPower c0) c0)
      as ((_ & _ & _ & _ & _ & _ & _ & _ & _ & _ & E & _) & _).
    rewrite E. exact (proj2 Ht _ _ Hc0). }
  assert (Hkey : forall winner loser,
             Character.ID (reward_memory winner loser) = Character.ID winner).
  { intros winner loser. unfold reward_memory.
    rewrite (kept_ID _ _ (kept_check_level_up _)),
      (kept_ID _ _ (kept_set_Experience _ _)). reflexivity. }
  rewrite (startCombatMemory_resolved _ _ _ _ _ _ _ _ Ha Hd)
    by (rewrite Hkey; destruct Hwl as [[-> _]|[-> _]]; congruence).
  unfold memory_outcome. cbn [fst].
  destruct Hwl as [[-> ->]|[-> ->]].
  - eapply tidy_insert with (c := rewarded_memory attacker defender n1).
    + exact Ht.
    + destruct (kept_rewarded_memory attacker defender n1)
        as ((_ & _ & _ & _ & _ & _ & _ & _ & _ & _ & E & _) & _).
      rewrite E. exact (He _ _ Ha).
    + unfold MemoryStorage.AddCombatLog, MemoryStorage.set_characters.
      cbn [MemoryStorage.characters].
      rewrite (kept_ID _ _ (kept_rewarded_memory _ _ _)), Hkey. reflexivity.
  - eapply tidy_insert with (c := rewarded_memory defender attacker n1).
    + exact Ht.
    + destruct (kept_rewarded_memory defender attacker n1)
        as ((_ & _ & _ & _ & _ & _ & _ & _ & _ & _ & E & _) & _).
      rewrite E. exact (He _ _ Hd).
    + unfold MemoryStorage.AddCombatLog, MemoryStorage.set_characters.
      cbn [MemoryStorage.characters].
      rewrite (kept_ID _ _ (kept_rewarded_memory _ _ _)), Hkey. reflexivity.
Qed.

(** Every store the backend can reach is tidy. *)
Lemma reachable_tidy ms : reachable ms -> tidy ms.
Proof.
  induction 1 as [n1 n2 n3 n4|ms o _ IH _].
  - apply tidy_new.
  - destruct o; cbn [step].
    + apply tidy_CreateCharacter, IH.
    + apply tidy_startCombatMemory, IH.
Qed.

Lemma reachable_rounds n r ms :
  unit_draw r -> reachable ms -> reachable (rounds n r ms).
Proof.
  intros Hr. revert ms. induction n as [|n IH]; intros ms Hms; [exact Hms|].
  cbn [rounds]. apply IH. apply reachable_step; [|exact Hr].
  apply reachable_step; [exact Hms | exact Hr].
Qed.

End StoreFacts.

(** ** Merchant events *)

Module MerchantFacts.
Import GoInt GoIntFacts System.





End MerchantFacts.

(** ** Purchases *)

Module PurchaseFacts.
Import GoInt GoIntFacts System.

Lemma PurchaseItem_relational w db c l n1 n2 :
  DB w = Some db ->
  MerchantService.PurchaseItem w c l n1 n2
  = (mkWorld (Some (fst (MerchantService.PurchaseItem_db db c l n1 n2)))
       (Memory w),
     snd (MerchantService.PurchaseItem_db db c l n1 n2)).
Proof.
  intros H. unfold MerchantService.PurchaseItem. rewrite H.
  destruct (MerchantService.PurchaseItem_db _ _ _ _ _). reflexivity.
Qed.

Lemma line_items_AddItemToCharacter db c i q now :
  Database.merchant_event_items (ItemService.AddItemToCharacter_db db c i q now)
  = Database.merchant_event_items db.
Proof.
  unfold ItemService.AddItemToCharacter_db. destruct (find _ _); reflexivity.
Qed.

Lemma find_line_sold (rows : list MerchantEventItem.t) l :
  find (fun r => MerchantEventItem.id r =? l)
    (map (fun r =>
            if MerchantEventItem.id r =? l
            then MerchantEventItem.set_purchased
                   (add (MerchantEventItem.purchased r) 1) r
            else r) rows)
  = (fun r => MerchantEventItem.set_purchased
                (add (MerchantEventItem.purchased r) 1) r)
    <$> find (fun r => MerchantEventItem.id r =? l) rows.
Proof.
  induction rows as [|row rows IH]; [reflexivity|]. cbn [map find].
  destruct (MerchantEventItem.id row =? l) eqn:E.
  - destruct row; cbn in *. rewrite E. reflexivity.
  - rewrite E. exact IH.
Qed.

(** The relational flow on a line item that exists. *)
Lemma PurchaseItem_db_cases db c l n1 n2 line :
  find (fun r => MerchantEventItem.id r =? l)
    (Database.merchant_event_items db) = Some line ->
  (MerchantEventItem.stock line <= MerchantEventItem.purchased line ->
   MerchantService.PurchaseItem_db db c l n1 n2
   = (db, Error "item is out of stock")) /\
  (forall db',
     MerchantService.PurchaseItem_db db c l n1 n2 = (db', Ok tt) ->
     MerchantEventItem.purchased line < MerchantEventItem.stock line /\
     find (fun r => MerchantEventItem.id r =? l)
       (Database.merchant_event_items db')
     = Some (MerchantEventItem.set_purchased
               (add (MerchantEventItem.purchased line) 1) line)) /\
  (forall buyer,
     MerchantEventItem.purchased line < MerchantEventItem.stock line ->
     CharacterService.GetCharacterByID_db db c = Some buyer ->
     (add (Character.ChannelPointsSpent buyer) 1000
      <? add (Character.ChannelPointsSpent buyer)
           (MerchantEventItem.price_channel_points line)) = false ->
     exists db', MerchantService.PurchaseItem_db db c l n1 n2 = (db', Ok tt)).
Proof.
  intros Hfind. unfold MerchantService.PurchaseItem_db. rewrite Hfind.
  split; [|split].
  - intros Hout. apply Z.leb_le in Hout. rewrite Hout. reflexivity.
  - intros db'.
    destruct (Z.leb_spec (MerchantEventItem.stock line)
                (MerchantEventItem.purchased line)) as [Hout|Hin];
      [discriminate|].
    destruct (CharacterService.GetCharacterByID_db db c) as [buyer|];
      [|discriminate].
    destruct (_ <? _); [discriminate|].
    intros Hrun. pose proof (f_equal fst Hrun) as Hdb. clear Hrun.
    cbn [fst] in Hdb. subst db'. split; [exact Hin|].
    unfold CharacterService.UpdateCharacter, Database.set_characters.
    cbn [Database.merchant_event_items].
    rewrite line_items_AddItemToCharacter.
    unfold Database.set_merchant_event_items.
    cbn [Database.merchant_event_items].
    rewrite find_line_sold, Hfind. reflexivity.
  - intros buyer Hin Hbuyer Hcheck.
    destruct (Z.leb_spec (MerchantEventItem.stock line)
                (MerchantEventItem.purchased line)) as [Hout|_]; [lia|].
    rewrite Hbuyer, Hcheck. eexists. reflexivity.
Qed.

(** C9, amended. On the relational backend, the only one that keeps line
    items: a purchase of a line item whose stock is used up is rejected as
    out of stock and changes nothing; a purchase that succeeds found
    purchased < stock and leaves the purchased count one higher; and when a
    buyer who passes the points check buys the last unit, the purchase
    succeeds and every further attempt on that line item is rejected as out
    of stock. *)
Theorem purchase_checks_stock (w : World) (characterID lineItemID : Z)
    (n1 n2 : Time) (line : MerchantEventItem.t) :
  line_item w lineItemID = Some line ->
  in_int (MerchantEventItem.stock line) ->
  in_int (MerchantEventItem.purchased line) ->
  (MerchantEventItem.stock line <= MerchantEventItem.purchased line ->
   MerchantService.PurchaseItem w characterID lineItemID n1 n2
   = (w, Error "item is out of stock")) /\
  (forall w' : World,
     MerchantService.PurchaseItem w characterID lineItemID n1 n2 = (w', Ok tt) ->
     MerchantEventItem.purchased line < MerchantEventItem.stock line /\
     line_item w' lineItemID
     = Some (MerchantEventItem.set_purchased
               (MerchantEventItem.purchased line + 1) line)) /\
  (forall buyer : Character.t,
     MerchantEventItem.purchased line = MerchantEventItem.stock line - 1 ->
     loaded w characterID = Some buyer ->
     MerchantEventItem.price_channel_points line <= 1000 ->
     in_int (Character.ChannelPointsSpent buyer + 1000) ->
     in_int (Character.ChannelPointsSpent buyer
             + MerchantEventItem.price_channel_points line) ->
     exists w' : World,
       MerchantService.PurchaseItem w characterID lineItemID n1 n2
       = (w', Ok tt) /\
       forall (other : Z) (m1 m2 : Time),
         MerchantService.PurchaseItem w' other lineItemID m1 m2
         = (w', Error "item is out of stock")).
Proof.
  intros Hline Hstock Hpur. destruct w as [[db|] ms];
    unfold line_item in Hline; cbn [DB] in Hline; [|discriminate].
  destruct (PurchaseItem_db_cases db characterID lineItemID n1 n2 line Hline)
    as (Hout & Hok & Hlast).
  assert (Hinc : forall db',
     MerchantService.PurchaseItem_db db characterID lineItemID n1 n2
     = (db', Ok tt) ->
     MerchantEventItem.purchased line < MerchantEventItem.stock line /\
     find (fun r => MerchantEventItem.id r =? lineItemID)
       (Database.merchant_event_items db')
     = Some (MerchantEventItem.set_purchased
               (MerchantEventItem.purchased line + 1) line)).
  { intros db' Hrun. destruct (Hok db' Hrun) as [Hlt Hf]. split; [exact Hlt|].
    rewrite Hf. unfold add. rewrite wrap_id; [reflexivity|].
    unfold in_int, int_min, int_max in *. lia. }
  split; [|split].
  - intros Ho. rewrite (PurchaseItem_relational _ db) by reflexivity.
    rewrite (Hout Ho). reflexivity.
  - intros w' Hrun. rewrite (PurchaseItem_relational _ db) in Hrun by reflexivity.
    cbn [Memory] in Hrun.
    pose proof (f_equal fst Hrun) as Hw. pose proof (f_equal snd Hrun) as Hr.
    clear Hrun. cbn [fst snd] in Hw, Hr. subst w'.
    unfold line_item. cbn [DB].
    apply Hinc. apply injective_projections; [reflexivity | exact Hr].
  - intros buyer Hl Hbuyer Hprice Hr1 Hr2. unfold loaded in Hbuyer.
    cbn [DB] in Hbuyer.
    destruct (Hlast buyer ltac:(lia) Hbuyer) as (db' & Hrun).
    { unfold add. rewrite !wrap_id by assumption. apply Z.ltb_ge. lia. }
    exists (mkWorld (Some db') ms). split.
    + rewrite (PurchaseItem_relational _ db) by reflexivity.
      rewrite Hrun. reflexivity.
    + intros other m1 m2.
      rewrite (PurchaseItem_relational _ db') by reflexivity.
      destruct (Hinc db' Hrun) as [_ Hf].
      destruct (PurchaseItem_db_cases db' other lineItemID m1 m2 _ Hf)
        as (Hout' & _).
      rewrite Hout' by (destruct line; cbn in *; lia). reflexivity.
Qed.

End PurchaseFacts.

(** ** Listings *)

Module ListingFacts.
Import GoInt GoIntFacts CharacterFacts System.

Lemma leaderboard_leb_le a b :
  CharacterService.leaderboard_leb a b = true -> leaderboard_le a b.
Proof.
  unfold CharacterService.leaderboard_leb, leaderboard_le.
  rewrite orb_true_iff, andb_true_iff, Z.ltb_lt, Z.eqb_eq, Z.leb_le. tauto.
Qed.

Lemma leaderboard_leb_total a b :
  CharacterService.leaderboard_leb a b = false -> leaderboard_le b a.
Proof.
  unfold CharacterService.leaderboard_leb, leaderboard_le.
  rewrite orb_false_iff, andb_false_iff, Z.ltb_ge, Z.eqb_neq, Z.leb_gt. lia.
Qed.

Lemma leaderboard_le_trans a b c :
  leaderboard_le a b -> leaderboard_le b c -> leaderboard_le a c.
Proof. unfold leaderboard_le. lia. Qed.

Lemma order_insert_perm row rows :
  CharacterService.order_insert row rows ≡ₚ row :: rows.
Proof.
  induction rows as [|r rows IH]; [reflexivity|]. cbn [CharacterService.order_insert].
  destruct (CharacterService.leaderboard_leb row r); [reflexivity|].
  rewrite IH. apply perm_swap.
Qed.

Lemma order_insert_sorted row rows :
  StronglySorted leaderboard_le rows ->
  StronglySorted leaderboard_le (CharacterService.order_insert row rows).
Proof.
  induction 1 as [|r rows Hs IH Hall]; cbn [CharacterService.order_insert].
  - repeat constructor.
  - destruct (CharacterService.leaderboard_leb row r) eqn:E.
    + apply leaderboard_leb_le in E. constructor.
      * constructor; assumption.
      * constructor; [exact E|].
        eapply Forall_impl; [exact Hall|].
        intros x Hx. exact (leaderboard_le_trans _ _ _ E Hx).
    + apply leaderboard_leb_total in E. constructor; [exact IH|].
      rewrite order_insert_perm. constructor; assumption.
Qed.

Lemma order_by_leaderboard_sorted rows :
  StronglySorted leaderboard_le (CharacterService.order_by_leaderboard rows).
Proof.
  unfold CharacterService.order_by_leaderboard.
  induction rows as [|row rows IH]; cbn [fold_right]; [constructor|].
  apply order_insert_sorted, IH.
Qed.

Lemma order_by_leaderboard_perm rows :
  CharacterService.order_by_leaderboard rows ≡ₚ rows.
Proof.
  unfold CharacterService.order_by_leaderboard.
  induction rows as [|row rows IH]; cbn [fold_right]; [reflexivity|].
  rewrite order_insert_perm, IH. reflexivity.
Qed.

Lemma StronglySorted_map (f : Character.t -> Character.t) l :
  (forall c, Character.Level (f c) = Character.Level c
             /\ Character.Experience (f c) = Character.Experience c) ->
  StronglySorted leaderboard_le l ->
  StronglySorted leaderboard_le (map f l).
Proof.
  intros Hf. induction 1 as [|c l Hs IH Hall]; cbn [map]; constructor.
  - exact IH.
  - apply Forall_map. eapply Forall_impl; [exact Hall|].
    intros x Hx. unfold leaderboard_le in *. cbn.
    destruct (Hf c) as [-> ->]. destruct (Hf x) as [-> ->]. exact Hx.
Qed.

(** Without equipment the combat power is the weighted sum of the base
    stats. *)
Lemma base_power_refreshed c :
  Character.Equipment c = None -> base_power (refreshed c).
Proof.
  intros He. unfold base_power, refreshed.
  destruct (set_CombatPower_fields (Character.CalculateCombatPower c) c)
    as (_ & _ & HL & _ & _ & _ & HP).
  cbv zeta in HL, HP. rewrite HP, CombatPowerFacts.CalculateCombatPower_wrap.
  f_equal.
  unfold Spec.combatPower, Spec.total_strength, Spec.total_agility,
    Spec.total_vitality, Spec.total_intelligence, Spec.equipment_bonus.
  rewrite He. destruct c; simpl. lia.
Qed.

Lemma listing_db db :
  let l := CharacterService.GetAllCharacters_db db in
  StronglySorted leaderboard_le l /\
  l ≡ₚ map (fun row => refreshed (CharacterService.scan_listing row))
         (Database.characters db) /\
  Forall base_power l.
Proof.
  unfold CharacterService.GetAllCharacters_db.
  change (fun row : Character.t =>
            let char := CharacterService.scan_listing row in
            Character.set_CombatPower (Character.CalculateCombatPower char) char)
    with (fun row => refreshed (CharacterService.scan_listing row)).
  split; [|split].
  - apply StronglySorted_map; [|apply order_by_leaderboard_sorted].
    intros c. unfold refreshed.
    destruct (set_CombatPower_fields
                (Character.CalculateCombatPower (CharacterService.scan_listing c))
                (CharacterService.scan_listing c)) as (_ & _ & HL & HE & _).
    cbv zeta in HL, HE. rewrite HL, HE. destruct c; split; reflexivity.
  - apply Permutation_map, order_by_leaderboard_perm.
  - apply Forall_map, Forall_forall. intros row _.
    apply base_power_refreshed. reflexivity.
Qed.

Lemma omap_lookup_keys (m : gmap Z Character.t) (l : list (Z * Character.t)) :
  Forall (fun kc => m !! kc.1 = Some kc.2) l ->
  omap (fun id =>
          match m !! id with
          | None => None
          | Some char =>
              Some (Character.set_CombatPower
                      (Character.CalculateCombatPower char) char)
          end) l.*1
  = map refreshed l.*2.
Proof.
  induction 1 as [|[k c] l Hkc _ IH]; [reflexivity|].
  cbn [fmap list_fmap omap list_omap fst snd map] in *.
  rewrite Hkc, IH. reflexivity.
Qed.

Lemma listing_memory ms order :
  MemoryStorage.iteration_order ms order ->
  MemoryStorage.GetAllCharacters ms order
  ≡ₚ map refreshed (map_to_list (MemoryStorage.characters ms)).*2.
Proof.
  unfold MemoryStorage.iteration_order, MemoryStorage.GetAllCharacters.
  intros Hperm. rewrite Hperm. rewrite omap_lookup_keys; [reflexivity|].
  apply Forall_forall. intros [k c] Hin. cbn [fst snd].
  apply elem_of_map_to_list. exact Hin.
Qed.

(** What [GetAllCharacters] makes of one row. *)
Lemma listed_row (row : Character.t) :
  Spec.listed row (refreshed (CharacterService.scan_listing row)).
Proof.
  pose proof (base_power_refreshed (CharacterService.scan_listing row) eq_refl)
    as Hp.
  unfold base_power in Hp.
  unfold Spec.listed. unfold refreshed in *.
  destruct (set_CombatPower_fields
              (Character.CalculateCombatPower (CharacterService.scan_listing row))
              (CharacterService.scan_listing row))
    as (HI & HU & HL & HE & _ & HQ & HP).
  cbv zeta in *.
  generalize dependent (Character.CalculateCombatPower
                          (CharacterService.scan_listing row)).
  intros power Hp HI HU HL HE HQ HP.
  destruct row; cbn in *.
  repeat split; try assumption.
  rewrite Hp. f_equal. lia.
Qed.

(** C10, amended. With a database, listAll returns one record for every
    row of the characters table, carrying the row's identity, level,
    experience and base stats and the combat power of the base stats alone
    (no equipment is joined), ordered by level descending, then experience
    descending.  Without a database it returns the error of a missing
    connection and lists nothing, whatever the in-memory store holds.  The
    listing of the in-memory store, which listAll does not call, returns
    every stored character with the combat power of its base stats alone,
    in whatever order the map is traversed. *)
Theorem listing_order :
  (forall (w : World) (db : Database.t),
     DB w = Some db ->
     exists l rows : list Character.t,
       CharacterService.GetAllCharacters w = Ok l /\
       rows ≡ₚ Database.characters db /\
       Forall2 Spec.listed rows l /\
       StronglySorted leaderboard_le l)
  /\
  (forall w : World,
     DB w = None ->
     CharacterService.GetAllCharacters w
     = Error "database connection not available")
  /\
  (forall (ms : MemoryStorage.t) (order : list Z),
     reachable ms ->
     MemoryStorage.iteration_order ms order ->
     MemoryStorage.GetAllCharacters ms order
     ≡ₚ map refreshed (map_to_list (MemoryStorage.characters ms)).*2 /\
     Forall base_power (MemoryStorage.GetAllCharacters ms order)).
Proof.
  split; [|split].
  - intros w db Hdb. unfold CharacterService.GetAllCharacters. rewrite Hdb.
    exists (CharacterService.GetAllCharacters_db db),
      (CharacterService.order_by_leaderboard (Database.characters db)).
    split; [reflexivity|]. split; [apply order_by_leaderboard_perm|].
    split; [|apply listing_db].
    unfold CharacterService.GetAllCharacters_db.
    induction (CharacterService.order_by_leaderboard (Database.characters db))
      as [|row rows IH]; cbn [map]; constructor; [apply listed_row | exact IH].
  - intros w Hdb. unfold CharacterService.GetAllCharacters. rewrite Hdb.
    reflexivity.
  - intros ms order Hreach Horder.
    pose proof (listing_memory ms order Horder) as Hperm.
    split; [exact Hperm|]. rewrite Hperm.
    apply Forall_map, Forall_forall. intros c Hin.
    apply base_power_refreshed.
    apply list_elem_of_fmap in Hin as ([k c'] & -> & Hin).
    apply elem_of_map_to_list in Hin.
    exact (proj2 (StoreFacts.reachable_tidy ms Hreach) _ _ Hin).
Qed.

End ListingFacts.

(** ** The code on concrete inputs *)

Module Examples.
Import GoInt System.

Lemma unit_draw_zero : unit_draw Samples.roll_zero.
Proof. split; vm_compute; reflexivity. Qed.

Lemma reachable_store2 : reachable Samples.store2.
Proof.
  unfold Samples.store2.
  repeat (apply reachable_step; [|exact I]). apply reachable_new.
Qed.

Lemma reachable_newcomer_store : reachable Samples.newcomer_store.
Proof.
  unfold Samples.newcomer_store, Samples.veteran_store.
  apply reachable_step; [|exact I].
  apply reachable_step; [|exact unit_draw_zero].
  apply StoreFacts.reachable_rounds; [exact unit_draw_zero|].
  exact reachable_store2.
Qed.

(** C5. The combat flow checks the winner's level once, against
    level * 100: when "carol", freshly created at level 1, beats "alice" at
    level 205 she is granted 2100 experience and is stored at level 2 with
    2000 experience, which is not below 2 * 1000.  The store in which this
    happens is reached by creations and combats alone. *)
Theorem combat_leaves_experience_above_threshold :
  exists (ms : MemoryStorage.t) (veteran newcomer stored : Character.t),
    reachable ms /\
    MemoryStorage.characters ms !! 1 = Some veteran /\
    Character.Level veteran = 205 /\
    MemoryStorage.characters ms !! 3 = Some newcomer /\
    Character.Level newcomer = 1 /\ Character.Experience newcomer = 0 /\
    MemoryStorage.characters
      (fst (CombatService.startCombatMemory ms 3 1 Samples.roll_zero 5 5)) !! 3
    = Some stored /\
    Character.Level stored = 2 /\
    Character.Experience stored = 2000 /\
    Spec.requiredExperienceForNextLevel (Character.Level stored)
    <= Character.Experience stored.
Proof.
  exists Samples.newcomer_store.
  assert (H : exists veteran newcomer stored,
    (MemoryStorage.characters Samples.newcomer_store !! 1,
     MemoryStorage.characters Samples.newcomer_store !! 3,
     MemoryStorage.characters
       (fst (CombatService.startCombatMemory Samples.newcomer_store 3 1
               Samples.roll_zero 5 5)) !! 3)
    = (Some veteran, Some newcomer, Some stored) /\
    (Character.Level veteran, Character.Level newcomer,
     Character.Experience newcomer, Character.Level stored,
     Character.Experience stored) = (205, 1, 0, 2, 2000)).
  { vm_compute. eexists _, _, _. split; reflexivity. }
  destruct H as (veteran & newcomer & stored & Hs & Hv).
  pose proof (f_equal (fun p => fst (fst p)) Hs) as H1.
  pose proof (f_equal (fun p => snd (fst p)) Hs) as H3.
  pose proof (f_equal snd Hs) as H3'.
  pose proof (f_equal (fun p => fst (fst (fst (fst p)))) Hv) as V1.
  pose proof (f_equal (fun p => snd (fst (fst (fst p)))) Hv) as V2.
  pose proof (f_equal (fun p => snd (fst (fst p))) Hv) as V3.
  pose proof (f_equal (fun p => snd (fst p)) Hv) as V4.
  pose proof (f_equal snd Hv) as V5.
  clear Hs Hv. cbv beta in *. cbn [fst snd] in *.
  exists veteran, newcomer, stored.
  split; [exact reachable_newcomer_store|].
  repeat (split; [assumption|]).
  rewrite V4, V5. unfold Spec.requiredExperienceForNextLevel. lia.
Qed.

(** C6 as stated fails when a character fights itself: the loser is the
    winner, and its record is rewritten. *)
Lemma self_combat_rewrites_loser : ~ Stated.loser_untouched.
Proof.
  intros claim.
  pose (out := CombatService.StartCombat Samples.world_memory 1 1
                 Samples.roll_zero 5 6).
  specialize (claim Samples.world_memory 1 1 Samples.roll_zero 5 6
                (fst out)
                (match snd out with
                 | Ok res => res
                 | Error _ =>
                     CombatResult.mk Samples.alice Samples.alice 0 0 "" 0 []
                 end)).
  assert (Hrun : CombatService.StartCombat Samples.world_memory 1 1
                   Samples.roll_zero 5 6
                 = (fst out,
                    Ok (match snd out with
                        | Ok res => res
                        | Error _ =>
                            CombatResult.mk Samples.alice Samples.alice 0 0 ""
                              0 []
                        end)))
    by (vm_compute; reflexivity).
  specialize (claim Hrun). vm_compute in claim. discriminate claim.
Qed.

(** C9 as stated fails on the in-memory backend, where a purchase succeeds
    without any line item, stock or purchased count. *)
Lemma memory_purchase_skips_stock : ~ Stated.stock_checked.
Proof.
  intros claim.
  destruct (claim Samples.world_memory 1 2 0 0
              (fst (MerchantService.PurchaseItem Samples.world_memory 1 2 0 0)))
    as (line & Hline & _).
  - vm_compute. reflexivity.
  - discriminate Hline.
Qed.

(** Four purchases of the same item in a row all succeed there, more than
    any stock a line item is created with. *)
Lemma memory_purchases_never_run_out :
  snd (purchases 4 Samples.world_memory 1 2) = [Ok tt; Ok tt; Ok tt; Ok tt].
Proof. vm_compute. reflexivity. Qed.

Lemma reachable_store_bob_ahead : reachable Samples.store_bob_ahead.
Proof.
  unfold Samples.store_bob_ahead.
  repeat (apply reachable_step; [|exact unit_draw_zero]).
  exact reachable_store2.
Qed.

Lemma unit_draw_high : unit_draw Samples.roll_high.
Proof. split; vm_compute; reflexivity. Qed.

(** C4 as stated fails for two characters of combat power 0: the quotient
    0 / (0 + 0) is not a number, no draw is at most it, and the attacker
    wins. *)
Lemma idle_attacker_wins : ~ Stated.attacker_wins_by_ratio.
Proof.
  intros claim.
  destruct (CombatService.StartCombat Samples.idle_world 1 2
              Samples.roll_high 5 6) as [w' [res|msg]] eqn:Hrun;
    [|vm_compute in Hrun; discriminate].
  destruct (loaded Samples.idle_world 1) as [attacker|] eqn:Ha;
    [|vm_compute in Ha; discriminate].
  destruct (loaded Samples.idle_world 2) as [defender|] eqn:Hd;
    [|vm_compute in Hd; discriminate].
  destruct (claim Samples.idle_world 1 2 Samples.roll_high 5 6
              attacker defender w' res Ha Hd ltac:(discriminate)
              unit_draw_high Hrun) as [Hwin _].
  assert (Hid : Character.ID (CombatResult.Winner res) = 1).
  { pose proof (f_equal snd Hrun) as Hres. cbn [snd] in Hres.
    vm_compute in Hres. apply CombatFacts.Ok_inj in Hres. subst res.
    reflexivity. }
  specialize (Hwin Hid).
  vm_compute in Ha. injection Ha as <-.
  vm_compute in Hd. injection Hd as <-.
  vm_compute in Hwin. discriminate Hwin.
Qed.

(** C10 as stated fails without a database: listAll returns an error and
    no list, although the in-memory store holds "alice" and "bob". *)
Lemma listing_needs_database : ~ Stated.listing_ordered.
Proof.
  intros claim. destruct (claim Samples.world_memory) as (l & Hl & _).
  vm_compute in Hl. discriminate Hl.
Qed.

(** The listing of the in-memory store is not in leaderboard order: with
    "alice" at level 1 and "bob" at level 2, a traversal that visits id 1
    first returns "alice" before "bob". *)
Lemma store_listing_unordered : ~ Stated.store_listing_ordered.
Proof.
  intros claim.
  specialize (claim Samples.store_bob_ahead [1; 2] reachable_store_bob_ahead).
  assert (Horder : MemoryStorage.iteration_order Samples.store_bob_ahead [1; 2]).
  { unfold MemoryStorage.iteration_order.
    assert (Hkeys : (map_to_list
                       (MemoryStorage.characters Samples.store_bob_ahead)).*1
                    = [1; 2] \/
                    (map_to_list
                       (MemoryStorage.characters Samples.store_bob_ahead)).*1
                    = [2; 1])
      by (vm_compute; auto).
    destruct Hkeys as [-> | ->]; [reflexivity | apply perm_swap]. }
  specialize (claim Horder).
  assert (Hlist : exists a b,
             MemoryStorage.GetAllCharacters Samples.store_bob_ahead [1; 2]
             = [a; b] /\
             (Character.Level a, Character.Level b) = (1, 2))
    by (vm_compute; eexists _, _; split; reflexivity).
  destruct Hlist as (a & b & Hl & Hlv). rewrite Hl in claim.
  pose proof (f_equal fst Hlv) as La. pose proof (f_equal snd Hlv) as Lb.
  cbn [fst snd] in La, Lb.
  apply StronglySorted_inv in claim as [_ Hall].
  apply Forall_inv in Hall. unfold leaderboard_le in Hall. lia.
Qed.

End Examples.

(** ** The theorems at work on the sample data *)

Module Witnesses.
Import GoInt System.

(** "alice" with the sample boots and ring has combat power 124. *)
Lemma combat_power_formula_witness :
  in_int (Spec.combatPower Samples.alice_equipped) /\
  Character.CalculateCombatPower Samples.alice_equipped
  = 3 * Spec.total_strength Samples.alice_equipped
    + 2 * Spec.total_agility Samples.alice_equipped
    + 2 * Spec.total_vitality Samples.alice_equipped
    + 1 * Spec.total_intelligence Samples.alice_equipped
    + 5 * Character.Level Samples.alice_equipped.
Proof.
  assert (H : in_int (Spec.combatPower Samples.alice_equipped))
    by (vm_compute; split; discriminate).
  split; [exact H|].
  exact (CombatPowerFacts.combat_power_formula Samples.alice_equipped H).
Defined.

(** 250 points on "strength" take "alice" from 10 to 12 and count 250
    points as spent; an unknown stat kind is refused. *)
Lemma upgrade_stat_spec_witness :
  (exists c' : Character.t,
     Character.UpgradeStat Samples.alice "strength" 250 = (c', true) /\
     Character.Strength c' = 12 /\
     Character.Agility c' = 10 /\
     Character.ChannelPointsSpent c' = 250) /\
  Character.UpgradeStat Samples.alice "luck" 250 = (Samples.alice, false).
Proof.
  assert (Hp : in_int 250) by (vm_compute; split; discriminate).
  split.
  - destruct (proj1 (UpgradeFacts.upgrade_stat_spec Samples.alice "strength"
                       250 Hp))
      as (c' & Hrun & HS & HA & _ & _ & HP & _);
      try (vm_compute; split; discriminate).
    + vm_compute. auto.
    + vm_compute. discriminate.
    + exists c'. split; [exact Hrun|]. split; [rewrite HS; reflexivity|].
      split; [rewrite HA; reflexivity | rewrite HP; reflexivity].
  - apply (proj2 (UpgradeFacts.upgrade_stat_spec Samples.alice "luck" 250 Hp)).
    left. vm_compute. intuition discriminate.
Defined.

(** 3000 experience take "alice" from level 1 to level 3. *)
Lemma add_experience_spec_witness :
  exists c' : Character.t,
    Character.AddExperience 3 Samples.alice
      (Spec.requiredExperienceForNextLevel 1
       + Spec.requiredExperienceForNextLevel 2) = Some (c', true) /\
    Character.Level c' = 3 /\
    Character.Experience c' = Character.Experience Samples.alice /\
    Character.Strength c' = Character.Strength Samples.alice + 2 /\
    Character.Agility c' = Character.Agility Samples.alice + 2 /\
    Character.Vitality c' = Character.Vitality Samples.alice + 2 /\
    Character.Intelligence c' = Character.Intelligence Samples.alice + 2.
Proof.
  apply (proj2 ExperienceFacts.add_experience_spec Samples.alice 3%nat).
  - reflexivity.
  - vm_compute. split; [discriminate | reflexivity].
  - vm_compute. repeat split; discriminate.
  - apply le_n.
Defined.

(** A call naming the unknown character 99 fails and leaves the in-memory
    world as it was. *)
Lemma combat_missing_fighter_witness :
  stored Samples.world_memory 99 = None /\
  exists msg : string,
    CombatService.StartCombat Samples.world_memory 1 99 Samples.roll_high 5 6
    = (Samples.world_memory, Error msg).
Proof.
  assert (H : stored Samples.world_memory 99 = None)
    by (vm_compute; reflexivity).
  split; [exact H|].
  apply (CombatFacts.combat_missing_fighter Samples.world_memory 1 99
           Samples.roll_high 5 6).
  right. exact H.
Defined.

(** "alice" attacks "bob" in memory, both fresh with power 85, so that the
    quotient is 0.5: with the draw 0.0 "alice" wins, with the draw 0.75
    "bob" does; either way the winner is granted 60 and stays at level 1. *)
Lemma combat_resolution_witness :
  (exists (w' : World) (res : CombatResult.t) (new : Character.t),
     CombatService.StartCombat Samples.world_memory 1 2 Samples.roll_zero 5 6
     = (w', Ok res) /\
     Character.ID (CombatResult.Winner res) = 1 /\
     CombatResult.Loser res = Samples.bob /\
     CombatResult.ExperienceGained res = 60 /\
     stored w' 1 = Some new /\
     Character.Level new = 1 /\ Character.Experience new = 60) /\
  (exists (w' : World) (res : CombatResult.t) (new : Character.t),
     CombatService.StartCombat Samples.world_memory 1 2 Samples.roll_high 5 6
     = (w', Ok res) /\
     Character.ID (CombatResult.Winner res) = 2 /\
     CombatResult.Loser res = Samples.alice /\
     CombatResult.ExperienceGained res = 60 /\
     stored w' 2 = Some new /\
     Character.Level new = 1 /\ Character.Experience new = 60).
Proof.
  assert (Ha : loaded Samples.world_memory 1 = Some Samples.alice)
    by (vm_compute; reflexivity).
  assert (Hd : loaded Samples.world_memory 2 = Some Samples.bob)
    by (vm_compute; reflexivity).
  assert (Hk : well_keyed (Memory Samples.world_memory))
    by exact (proj1 (StoreFacts.reachable_tidy _ Examples.reachable_store2)).
  assert (Hsum : in_int (Character.CalculateCombatPower Samples.alice
                         + Character.CalculateCombatPower Samples.bob))
    by (vm_compute; split; discriminate).
  assert (Hxa : in_int (50 + 10 * Character.Level Samples.alice))
    by (vm_compute; split; discriminate).
  assert (Hxd : in_int (50 + 10 * Character.Level Samples.bob))
    by (vm_compute; split; discriminate).
  split.
  - destruct (CombatFacts.combat_resolution Samples.world_memory 1 2
                Samples.roll_zero 5 6 Samples.alice Samples.bob Ha Hd Hk
                Examples.unit_draw_zero Hsum Hxa Hxd)
      as (w' & res & b & Hrun & Hb & Hid & _ & Hloser & Hexp & _ & _
          & old & new & Hold & Hnew & HL & HE).
    vm_compute in Hb. subst b. rewrite Hloser in Hexp.
    rewrite Hid in Hold, Hnew. rewrite Hexp in HL, HE.
    vm_compute in Hold. injection Hold as <-.
    exists w', res, new. split; [exact Hrun|]. split; [exact Hid|].
    split; [exact Hloser|]. split; [exact Hexp|]. split; [exact Hnew|].
    split; [exact HL | exact HE].
  - destruct (CombatFacts.combat_resolution Samples.world_memory 1 2
                Samples.roll_high 5 6 Samples.alice Samples.bob Ha Hd Hk
                Examples.unit_draw_high Hsum Hxa Hxd)
      as (w' & res & b & Hrun & Hb & Hid & _ & Hloser & Hexp & _ & _
          & old & new & Hold & Hnew & HL & HE).
    vm_compute in Hb. subst b. rewrite Hloser in Hexp.
    rewrite Hid in Hold, Hnew. rewrite Hexp in HL, HE.
    vm_compute in Hold. injection Hold as <-.
    exists w', res, new. split; [exact Hrun|]. split; [exact Hid|].
    split; [exact Hloser|]. split; [exact Hexp|]. split; [exact Hnew|].
    split; [exact HL | exact HE].
Defined.

(** "bob" (level 3) attacks "alice" on the relational backend with the
    draw 0.0 and wins; the frame holds for that call, and "bob" is left
    with 30 spent points less. *)
Lemma combat_frame_witness :
  exists (w' : World) (res : CombatResult.t),
    CombatService.StartCombat Samples.world_db 2 1 Samples.roll_zero 5 6
    = (w', Ok res) /\
    stored w' (Character.ID (CombatResult.Loser res))
    = stored Samples.world_db (Character.ID (CombatResult.Loser res)) /\
    (forall id : Z,
       id <> Character.ID (CombatResult.Winner res) ->
       stored w' id = stored Samples.world_db id) /\
    (exists old new : Character.t,
       stored Samples.world_db (Character.ID (CombatResult.Winner res))
       = Some old /\
       stored w' (Character.ID (CombatResult.Winner res)) = Some new /\
       kept old new /\
       Character.ChannelPointsSpent new
       = sub (Character.ChannelPointsSpent old)
           (add 25 (mul (Character.Level (CombatResult.Loser res)) 5)) /\
       let total :=
         add (Character.Experience old)
           (add 50 (mul (Character.Level (CombatResult.Loser res)) 10)) in
       let needed := mul (Character.Level old) 100 in
       Character.Level new
       = (if needed <=? total then add (Character.Level old) 1
          else Character.Level old) /\
       Character.Experience new
       = (if needed <=? total then sub total needed else total)) /\
    (exists entry : CombatLog.t,
       combat_log w' = (combat_log Samples.world_db ++ [entry])%list) /\
    same_elsewhere Samples.world_db w'.
Proof.
  destruct (CombatService.StartCombat Samples.world_db 2 1 Samples.roll_zero
              5 6) as [w' [res|msg]] eqn:Hrun.
  - exists w', res. split; [reflexivity|].
    apply (CombatFacts.combat_frame Samples.world_db 2 1 Samples.roll_zero
             5 6 w' res Hrun).
    + discriminate.
    + intros k c H. vm_compute in H. discriminate.
  - vm_compute in Hrun. discriminate.
Defined.

(** Line item 1 of the sample database has two units of which one is sold:
    "alice" buys the last one, and whoever tries next is turned away. *)
Lemma purchase_checks_stock_witness :
  exists w' : World,
    MerchantService.PurchaseItem Samples.world_db 1 1 7 8 = (w', Ok tt) /\
    forall (other : Z) (m1 m2 : Time),
      MerchantService.PurchaseItem w' other 1 m1 m2
      = (w', Error "item is out of stock").
Proof.
  assert (Hline : line_item Samples.world_db 1
                  = Some (MerchantEventItem.mk 1 1 2 400 2 1))
    by (vm_compute; reflexivity).
  assert (Hstock : in_int 2) by (vm_compute; split; discriminate).
  assert (Hsold : in_int 1) by (vm_compute; split; discriminate).
  destruct (loaded Samples.world_db 1) as [buyer|] eqn:Hbuyer.
  - apply (proj2 (proj2 (PurchaseFacts.purchase_checks_stock Samples.world_db
                           1 1 7 8 _ Hline Hstock Hsold)) buyer).
    + reflexivity.
    + exact Hbuyer.
    + vm_compute. discriminate.
    + vm_compute in Hbuyer. injection Hbuyer as <-.
      vm_compute. split; discriminate.
    + vm_compute in Hbuyer. injection Hbuyer as <-.
      vm_compute. split; discriminate.
  - vm_compute in Hbuyer. discriminate.
Defined.

(** The sample database lists "bob" (level 3) before "alice" (level 1);
    the in-memory sample world lists nothing. *)
Lemma listing_order_witness :
  (exists l rows : list Character.t,
     CharacterService.GetAllCharacters Samples.world_db = Ok l /\
     rows ≡ₚ Database.characters Samples.database /\
     Forall2 Spec.listed rows l /\
     StronglySorted leaderboard_le l) /\
  CharacterService.GetAllCharacters Samples.world_memory
  = Error "database connection not available".
Proof.
  split.
  - exact (proj1 ListingFacts.listing_order Samples.world_db
             Samples.database eq_refl).
  - exact (proj1 (proj2 ListingFacts.listing_order) Samples.world_memory
             eq_refl).
Defined.

End Witnesses.

(** * More of the code *)

Module CounterFacts.
Import GoInt GoIntFacts.

(** A counter below the largest [int] is incremented without wrapping. *)
Lemma add_one (n : Z) : 0 <= n < int_max -> add n 1 = n + 1.
Proof.
  intros H. unfold add. apply wrap_id.
  unfold in_int, int_min, int_max in *. lia.
Qed.

End CounterFacts.

Module ItemFacts.
Import ItemOps.

(** The key [IsUpgradeFor] compares items of one type by: total bonus
    first, rarity rank second. *)
Lemma IsUpgradeFor_same_type (i o : Item.t) :
  Item.Type_ i = Item.Type_ o ->
  IsUpgradeFor i (Some o)
  = (GetTotalStatBonus o <? GetTotalStatBonus i)
    || ((GetTotalStatBonus o =? GetTotalStatBonus i)
        && (rarityOrder (Item.Rarity o) <? rarityOrder (Item.Rarity i))).
Proof.
  intros Ht. unfold IsUpgradeFor. rewrite Ht, String.eqb_refl. cbn [negb].
  destruct (Z.eqb_spec (GetTotalStatBonus i) (GetTotalStatBonus o)) as [->|Hne];
    cbn [negb].
  - rewrite Z.ltb_irrefl, Z.eqb_refl. reflexivity.
  - destruct (Z.eqb_spec (GetTotalStatBonus o) (GetTotalStatBonus i)); [congruence|].
    rewrite andb_false_l, orb_false_r. reflexivity.
Qed.

Lemma IsUpgradeFor_type (i o : Item.t) :
  IsUpgradeFor i (Some o) = true -> Item.Type_ i = Item.Type_ o.
Proof.
  unfold IsUpgradeFor.
  destruct (String.eqb_spec (Item.Type_ i) (Item.Type_ o)); [auto|discriminate].
Qed.

(** X1. [IsUpgradeFor] is a strict order on items: no item is an upgrade
    for itself, two items are never upgrades for each other, and an upgrade
    for an upgrade is an upgrade; every item is an upgrade for an empty
    slot, and items of different types are never upgrades for one
    another. *)
Theorem upgrade_is_strict_order :
  (forall i : Item.t, IsUpgradeFor i None = true) /\
  (forall i : Item.t, IsUpgradeFor i (Some i) = false) /\
  (forall i o : Item.t,
     IsUpgradeFor i (Some o) = true -> IsUpgradeFor o (Some i) = false) /\
  (forall a b c : Item.t,
     IsUpgradeFor a (Some b) = true -> IsUpgradeFor b (Some c) = true ->
     IsUpgradeFor a (Some c) = true) /\
  (forall i o : Item.t,
     Item.Type_ i <> Item.Type_ o -> IsUpgradeFor i (Some o) = false).
Proof.
  split; [reflexivity|]. split; [|split; [|split]].
  - intros i. rewrite IsUpgradeFor_same_type by reflexivity.
    rewrite !Z.ltb_irrefl, andb_false_r. reflexivity.
  - intros i o H. pose proof (IsUpgradeFor_type _ _ H) as Ht.
    rewrite IsUpgradeFor_same_type in H by exact Ht.
    rewrite IsUpgradeFor_same_type by (symmetry; exact Ht).
    apply orb_true_iff in H as [H | H].
    + apply Z.ltb_lt in H. apply orb_false_iff. split.
      * apply Z.ltb_ge. lia.
      * apply andb_false_iff. left. apply Z.eqb_neq. lia.
    + apply andb_true_iff in H as [He Hr].
      apply Z.eqb_eq in He. apply Z.ltb_lt in Hr. apply orb_false_iff. split.
      * apply Z.ltb_ge. lia.
      * apply andb_false_iff. right. apply Z.ltb_ge. lia.
  - intros a b c Hab Hbc.
    pose proof (IsUpgradeFor_type _ _ Hab) as Tab.
    pose proof (IsUpgradeFor_type _ _ Hbc) as Tbc.
    rewrite IsUpgradeFor_same_type in Hab by exact Tab.
    rewrite IsUpgradeFor_same_type in Hbc by exact Tbc.
    rewrite IsUpgradeFor_same_type by congruence.
    apply orb_true_iff in Hab. apply orb_true_iff in Hbc.
    rewrite andb_true_iff, Z.ltb_lt, Z.eqb_eq, Z.ltb_lt in Hab, Hbc.
    apply orb_true_iff. rewrite andb_true_iff, Z.ltb_lt, Z.eqb_eq, Z.ltb_lt.
    lia.
  - intros i o Hne. unfold IsUpgradeFor.
    destruct (String.eqb_spec (Item.Type_ i) (Item.Type_ o)); [contradiction|].
    reflexivity.
Qed.

End ItemFacts.

Module MemoryQueryFacts.
Import GoInt GoIntFacts MemoryStorage MemoryStorageOps.

Lemma newest_first_spec {A : Type} (l : list A) (start : Z) :
  0 <= start ->
  forall (n : nat) (acc : list A),
    (n <= length l)%nat ->
    newest_first l n start acc
    = (acc ++ reverse (drop (Z.to_nat start) (take n l)))%list.
Proof.
  intros Hs. induction n as [|i IH]; intros acc Hn.
  - cbn [newest_first]. rewrite take_0, drop_nil, reverse_nil, app_nil_r.
    reflexivity.
  - cbn [newest_first].
    destruct (lookup_lt_is_Some_2 l i ltac:(lia)) as [x Hx].
    rewrite (take_S_r _ _ _ Hx).
    destruct (Z.leb_spec start (Z.of_nat i)) as [Hle|Hgt].
    + rewrite Hx, IH by lia.
      rewrite drop_app_le by (rewrite length_take; lia).
      rewrite reverse_app, reverse_singleton, <- app_assoc. reflexivity.
    + rewrite drop_ge, reverse_nil, app_nil_r; [reflexivity|].
      rewrite length_app, length_take. cbn [length]. lia.
Qed.

Lemma history_start_spec (len : nat) (limit : Z) :
  in_int (Z.of_nat len - limit) ->
  history_start len limit = Z.max 0 (Z.of_nat len - limit).
Proof.
  intros Hin. unfold history_start, sub. rewrite (wrap_id _ Hin).
  destruct (Z.ltb_spec (Z.of_nat len - limit) 0); lia.
Qed.

Lemma newest_first_limit {A : Type} (l : list A) (limit : Z) :
  in_int (Z.of_nat (length l) - limit) ->
  newest_first l (length l) (history_start (length l) limit) []
  = take (Z.to_nat limit) (reverse l).
Proof.
  intros Hin. rewrite (history_start_spec _ _ Hin).
  rewrite newest_first_spec by lia. rewrite firstn_all, app_nil_l.
  rewrite <- (reverse_involutive (take _ (reverse l))).
  f_equal. rewrite reverse_take, reverse_involutive, length_reverse.
  destruct (Z.le_gt_cases limit 0) as [Hneg|Hpos].
  - rewrite !drop_ge by lia. reflexivity.
  - f_equal. lia.
Qed.

(** X2. The combat history and the latest events come newest first and are
    cut at [limit]: each listing is the first [limit] entries of the
    reversed log, so nothing for a limit of zero or less and the whole log
    for a limit beyond its length. *)
Theorem history_is_newest_first (ms : MemoryStorage.t) (limit : Z) :
  in_int (Z.of_nat (length (combatLogs ms)) - limit) ->
  in_int (Z.of_nat (length (events ms)) - limit) ->
  GetCombatHistory ms limit = take (Z.to_nat limit) (reverse (combatLogs ms)) /\
  GetLatestEvents ms limit = take (Z.to_nat limit) (reverse (events ms)).
Proof.
  intros H1 H2. split; [apply newest_first_limit, H1 | apply newest_first_limit, H2].
Qed.

(** X3. A combat log entry that was just added heads the history: it carries
    the id the store had in line for it and the time of the call, and the
    rest of the listing is the history as it was, with one entry less
    asked for. *)
Theorem added_log_heads_history (ms : MemoryStorage.t) (log : CombatLog.t)
    (now : Time) (limit : Z) :
  1 <= limit <= int_max ->
  Z.of_nat (length (combatLogs ms)) < int_max ->
  GetCombatHistory (AddCombatLog ms log now) limit
  = CombatLog.set_ID_CreatedAt (nextCombatLogID ms) now log
    :: GetCombatHistory ms (limit - 1).
Proof.
  intros Hl Hlen. unfold GetCombatHistory.
  rewrite !newest_first_limit.
  - cbn [AddCombatLog combatLogs]. rewrite reverse_app, reverse_singleton.
    replace (Z.to_nat limit) with (S (Z.to_nat (limit - 1))) by lia.
    reflexivity.
  - unfold in_int, int_min, int_max in *. lia.
  - cbn [AddCombatLog combatLogs]. rewrite length_app. cbn [length].
    unfold in_int, int_min, int_max in *. lia.
Qed.

End MemoryQueryFacts.

Module ItemQueryFacts.
Import GoInt GoIntFacts CounterFacts MemoryStorage MemoryStorageOps.

Lemma length_visited_items (ms : MemoryStorage.t) (order : list Z) :
  (length (visited_items ms order) <= length order)%nat.
Proof.
  unfold visited_items. induction order as [|id rest IH]; [reflexivity|].
  cbn [omap list_omap]. destruct (items ms !! id); cbn [length]; lia.
Qed.

Lemma GetItemsByType_loop_spec (itemType : Item.ItemType) (limit offset : Z) :
  forall (visited items : list Item.t) (skipped added : Z),
    0 <= skipped -> 0 <= added ->
    skipped + Z.of_nat (length visited) <= int_max ->
    added + Z.of_nat (length visited) <= int_max ->
    GetItemsByType_loop visited itemType limit offset items skipped added
    = (items
       ++ take (Z.to_nat (limit - added))
            (drop (Z.to_nat (offset - skipped))
               (filter (fun it => Item.Type_ it = itemType) visited)))%list.
Proof.
  induction visited as [|item rest IH]; intros items skipped added Hs Ha Hsl Hal.
  - cbn [GetItemsByType_loop]. rewrite filter_nil, drop_nil, take_nil, app_nil_r.
    reflexivity.
  - cbn [GetItemsByType_loop]. cbn [length] in Hsl, Hal.
    destruct (String.eqb_spec (Item.Type_ item) itemType) as [Ht|Ht].
    + rewrite filter_cons_True by exact Ht.
      destruct (Z.ltb_spec skipped offset) as [Hlt|Hge].
      * rewrite IH by (rewrite ?add_one; lia). rewrite add_one by lia.
        replace (Z.to_nat (offset - skipped))
          with (S (Z.to_nat (offset - (skipped + 1)))) by lia.
        reflexivity.
      * replace (Z.to_nat (offset - skipped)) with 0%nat by lia.
        rewrite drop_0.
        destruct (Z.leb_spec limit added) as [Hfull|Hroom].
        -- replace (Z.to_nat (limit - added)) with 0%nat by lia.
           rewrite take_0, app_nil_r. reflexivity.
        -- rewrite IH by (rewrite ?add_one; lia). rewrite add_one by lia.
           replace (Z.to_nat (offset - skipped)) with 0%nat by lia.
           rewrite drop_0, <- app_assoc.
           replace (Z.to_nat (limit - added))
             with (S (Z.to_nat (limit - (added + 1)))) by lia.
           reflexivity.
    + rewrite filter_cons_False by exact Ht. apply IH; lia.
Qed.

Lemma GetRandomItems_loop_spec (count : Z) (isSpecial : bool) :
  forall (visited items : list Item.t) (added : Z),
    0 <= added ->
    added + Z.of_nat (length visited) <= int_max ->
    GetRandomItems_loop visited count isSpecial items added
    = (items
       ++ take (Z.to_nat (count - added))
            (filter (fun it => Item.IsSpecial it = isSpecial) visited))%list.
Proof.
  induction visited as [|item rest IH]; intros items added Ha Hal.
  - cbn [GetRandomItems_loop]. rewrite filter_nil, take_nil, app_nil_r.
    reflexivity.
  - cbn [GetRandomItems_loop]. cbn [length] in Hal.
    destruct (Bool.eqb_spec (Item.IsSpecial item) isSpecial) as [Hf|Hf].
    + rewrite filter_cons_True by exact Hf. cbn [andb].
      destruct (Z.ltb_spec added count) as [Hroom|Hfull].
      * rewrite IH by (rewrite ?add_one; lia). rewrite add_one by lia.
        rewrite <- app_assoc.
        replace (Z.to_nat (count - added))
          with (S (Z.to_nat (count - (added + 1)))) by lia.
        reflexivity.
      * rewrite IH by lia.
        replace (Z.to_nat (count - added)) with 0%nat by lia.
        rewrite !take_0. reflexivity.
    + rewrite filter_cons_False by exact Hf. cbn [andb]. apply IH; lia.
Qed.

(** X4. [GetItemsByType] pages through the items of the type in the order
    the map is traversed: it skips the first [offset] of them and returns
    the next [limit]; a negative offset skips nothing and a limit of zero
    or less returns nothing.  For one traversal order consecutive pages
    tile the items of the type, without gap or overlap. *)
Theorem items_by_type_pages (ms : MemoryStorage.t) (order : list Z)
    (itemType : Item.ItemType) (limit offset : Z) :
  Z.of_nat (length order) <= int_max ->
  GetItemsByType ms order itemType limit offset
  = take (Z.to_nat limit)
      (drop (Z.to_nat offset)
         (filter (fun it => Item.Type_ it = itemType) (visited_items ms order)))
  /\
  (forall more : Z,
     0 <= offset -> 0 <= limit -> 0 <= more ->
     (GetItemsByType ms order itemType limit offset
      ++ GetItemsByType ms order itemType more (offset + limit))%list
     = GetItemsByType ms order itemType (limit + more) offset).
Proof.
  intros Hlen.
  assert (Hform : forall limit offset : Z,
             GetItemsByType ms order itemType limit offset
             = take (Z.to_nat limit)
                 (drop (Z.to_nat offset)
                    (filter (fun it => Item.Type_ it = itemType)
                       (visited_items ms order)))).
  { intros l o. unfold GetItemsByType.
    pose proof (length_visited_items ms order).
    rewrite GetItemsByType_loop_spec by lia.
    rewrite !Z.sub_0_r. reflexivity. }
  split; [apply Hform|].
  intros more Ho Hl Hm. rewrite !Hform.
  rewrite !Z2Nat.inj_add by lia.
  rewrite <- drop_drop, <- take_take_drop.
  reflexivity.
Qed.

(** X5. [GetRandomItems] of the in-memory backend draws nothing at
    random beyond the order in which the map is traversed: it returns the
    first [count] items with the wanted [IsSpecial] flag in that order, so
    nothing for a count of zero or less. *)
Theorem random_items_are_first_matches (ms : MemoryStorage.t) (order : list Z)
    (count : Z) (isSpecial : bool) :
  Z.of_nat (length order) <= int_max ->
  GetRandomItems ms order count isSpecial
  = take (Z.to_nat count)
      (filter (fun it => Item.IsSpecial it = isSpecial) (visited_items ms order)).
Proof.
  intros Hlen. unfold GetRandomItems.
  pose proof (length_visited_items ms order).
  rewrite GetRandomItems_loop_spec by lia.
  rewrite Z.sub_0_r. reflexivity.
Qed.

End ItemQueryFacts.

Module EventFacts.
Import MemoryStorage MemoryStorageOps.

Lemma MarkEventTriggered_loop_none (events : list Event.t) (eventID : Z) :
  Forall (fun e => Event.ID e <> eventID) events ->
  MarkEventTriggered_loop events eventID = None.
Proof.
  induction 1 as [|e rest Hne _ IH]; [reflexivity|].
  cbn [MarkEventTriggered_loop].
  destruct (Z.eqb_spec (Event.ID e) eventID); [contradiction|].
  rewrite IH. reflexivity.
Qed.

Lemma MarkEventTriggered_loop_first (before after : list Event.t)
    (e : Event.t) (eventID : Z) :
  Forall (fun e => Event.ID e <> eventID) before ->
  Event.ID e = eventID ->
  MarkEventTriggered_loop (before ++ e :: after) eventID
  = Some (before ++ set_IsTriggered true e :: after)%list.
Proof.
  intros Hb He. induction Hb as [|b rest Hne _ IH].
  - cbn [app MarkEventTriggered_loop].
    destruct (Z.eqb_spec (Event.ID e) eventID); [reflexivity|contradiction].
  - cbn [app MarkEventTriggered_loop].
    destruct (Z.eqb_spec (Event.ID b) eventID); [contradiction|].
    rewrite IH. reflexivity.
Qed.

(** X6. [MarkEventTriggered] flags the first event that has the id and
    nothing else: the other events, also later ones with the same id, and
    the rest of the store stay as they were, and marking a second time
    changes nothing more.  When no event has the id the call reports
    "event not found" and the store is unchanged. *)
Theorem mark_event_triggered_spec (ms : MemoryStorage.t) (eventID : Z) :
  (Forall (fun e => Event.ID e <> eventID) (events ms) ->
   MarkEventTriggered ms eventID = (ms, Error "event not found")) /\
  (forall (before after : list Event.t) (e : Event.t),
     events ms = (before ++ e :: after)%list ->
     Forall (fun e => Event.ID e <> eventID) before ->
     Event.ID e = eventID ->
     let ms' :=
       set_events (before ++ set_IsTriggered true e :: after)%list ms in
     MarkEventTriggered ms eventID = (ms', Ok tt) /\
     MarkEventTriggered ms' eventID = (ms', Ok tt)).
Proof.
  split.
  - intros Hnone. unfold MarkEventTriggered.
    rewrite MarkEventTriggered_loop_none by exact Hnone. reflexivity.
  - intros before after e Hev Hb He ms'. split.
    + unfold MarkEventTriggered. rewrite Hev.
      rewrite MarkEventTriggered_loop_first by assumption. reflexivity.
    + unfold MarkEventTriggered, ms'. cbn [set_events events].
      rewrite MarkEventTriggered_loop_first by assumption.
      destruct e; reflexivity.
Qed.

End EventFacts.

Module CharacterStoreFacts.
Import GoInt GoIntFacts CounterFacts CharacterFacts CombatFacts StoreFacts System.
Import MemoryStorage MemoryStorageOps Invariants.

Lemma username_taken_iff (ms : MemoryStorage.t) (username : string) :
  existsb (fun kc => String.eqb (Character.Username (snd kc)) username)
    (map_to_list (characters ms)) = false
  <-> (forall (k : Z) (c : Character.t),
         characters ms !! k = Some c -> Character.Username c <> username).
Proof.
  split.
  - intros Hex k c Hk Hu.
    assert (Hin : existsb
                    (fun kc => String.eqb (Character.Username (snd kc)) username)
                    (map_to_list (characters ms)) = true).
    { apply existsb_exists. exists (k, c). split.
      - apply list_elem_of_In, elem_of_map_to_list. exact Hk.
      - cbn [snd]. apply String.eqb_eq. exact Hu. }
    congruence.
  - intros Hall.
    destruct (existsb _ _) eqn:Hex; [|reflexivity].
    apply existsb_exists in Hex as ([k c] & Hin & Hu).
    apply list_elem_of_In, elem_of_map_to_list in Hin. cbn [snd] in Hu.
    apply String.eqb_eq in Hu. destruct (Hall _ _ Hin Hu).
Qed.

Lemma CreateCharacter_fresh ms username twitchUserID created updated :
  (forall (k : Z) (c : Character.t),
     characters ms !! k = Some c -> Character.Username c <> username) ->
  CreateCharacter ms username twitchUserID created updated
  = (mk (<[nextCharacterID ms :=
             fresh_character (nextCharacterID ms) username twitchUserID
               created updated]> (characters ms))
        (items ms) (combatLogs ms) (events ms) (merchants ms)
        (merchantObjects ms) (activeMerchant ms) (inventories ms)
        (add (nextCharacterID ms) 1) (nextCombatLogID ms) (nextEventID ms)
        (nextMerchantID ms),
     Ok (fresh_character (nextCharacterID ms) username twitchUserID
           created updated)).
Proof.
  intros Hfree. unfold CreateCharacter.
  rewrite (proj2 (username_taken_iff ms username) Hfree). reflexivity.
Qed.

Lemma CreateCharacter_taken ms username twitchUserID created updated k c :
  characters ms !! k = Some c -> Character.Username c = username ->
  CreateCharacter ms username twitchUserID created updated
  = (ms, Error ("character with username '" ++ username ++ "' already exists")).
Proof.
  intros Hk Hu. unfold CreateCharacter.
  destruct (existsb _ _) eqn:Hex; [reflexivity|].
  destruct (proj1 (username_taken_iff ms username) Hex _ _ Hk Hu).
Qed.

(** What a combat does to the character map: nothing, or one record is
    replaced by one that keeps its identity, stats and slots. *)
Lemma startCombatMemory_characters ms a d r n1 n2 :
  tidy ms ->
  let ms' := fst (CombatService.startCombatMemory ms a d r n1 n2) in
  nextCharacterID ms' = nextCharacterID ms /\
  (characters ms' = characters ms
   \/ exists (k : Z) (old new : Character.t),
        characters ms !! k = Some old /\ kept old new /\
        characters ms' = <[k := new]> (characters ms)).
Proof.
  intros Ht ms'. subst ms'.
  destruct (GetCharacterByID ms a) as [attacker|] eqn:Ha;
    [|unfold CombatService.startCombatMemory; rewrite Ha; cbn [fst]; auto].
  destruct (GetCharacterByID ms d) as [defender|] eqn:Hd;
    [|unfold CombatService.startCombatMemory; rewrite Ha, Hd; cbn [fst]; auto].
  destruct (loaded_memory_ID _ _ _ (proj1 Ht) Ha) as [Ia Sa].
  destruct (loaded_memory_ID _ _ _ (proj1 Ht) Hd) as [Id Sd].
  assert (Hkey : forall winner loser,
             Character.ID (reward_memory winner loser) = Character.ID winner).
  { intros winner loser. unfold reward_memory.
    rewrite (kept_ID _ _ (kept_check_level_up _)),
      (kept_ID _ _ (kept_set_Experience _ _)). reflexivity. }
  assert (Hload : forall c id, GetCharacterByID ms id = Some c ->
             exists c0, characters ms !! id = Some c0 /\ kept c0 c).
  { intros c id Hc. apply GetCharacterByID_memory_inv in Hc as (c0 & Hc0 & ->).
    exists c0. split; [exact Hc0|]. apply kept_set_CombatPower. }
  assert (Hwl : (fst (resolve r attacker defender) = attacker
                 /\ snd (resolve r attacker defender) = defender)
                \/ (fst (resolve r attacker defender) = defender
                    /\ snd (resolve r attacker defender) = attacker))
    by (unfold resolve; destruct (Float64.gt r _); cbn [fst snd]; auto).
  rewrite (startCombatMemory_resolved _ _ _ _ _ _ _ _ Ha Hd)
    by (rewrite Hkey; destruct Hwl as [[-> _]|[-> _]]; congruence).
  unfold memory_outcome. cbn [fst].
  unfold AddCombatLog, set_characters. cbn [characters nextCharacterID].
  split; [reflexivity|]. right. rewrite Hkey.
  destruct Hwl as [[-> ->]|[-> ->]].
  - destruct (Hload _ _ Ha) as (c0 & Hc0 & Hk).
    exists a, c0, (rewarded_memory attacker defender n1).
    split; [exact Hc0|]. split; [|rewrite Ia; reflexivity].
    exact (kept_trans _ _ _ Hk (kept_rewarded_memory _ _ _)).
  - destruct (Hload _ _ Hd) as (c0 & Hc0 & Hk).
    exists d, c0, (rewarded_memory defender attacker n1).
    split; [exact Hc0|]. split; [|rewrite Id; reflexivity].
    exact (kept_trans _ _ _ Hk (kept_rewarded_memory _ _ _)).
Qed.

Lemma unique_usernames_replace ms (k : Z) (old new : Character.t)
    (chars' : gmap Z Character.t) :
  (forall k1 k2 c1 c2,
     characters ms !! k1 = Some c1 -> characters ms !! k2 = Some c2 ->
     Character.Username c1 = Character.Username c2 -> k1 = k2) ->
  characters ms !! k = Some old ->
  Character.Username new = Character.Username old ->
  chars' = <[k := new]> (characters ms) ->
  forall k1 k2 c1 c2,
    chars' !! k1 = Some c1 -> chars' !! k2 = Some c2 ->
    Character.Username c1 = Character.Username c2 -> k1 = k2.
Proof.
  intros Hu Hold Hname -> k1 k2 c1 c2 H1 H2 He.
  destruct (decide (k = k1)) as [<-|N1], (decide (k = k2)) as [<-|N2];
    [reflexivity| | |].
  - rewrite lookup_insert_eq in H1. rewrite lookup_insert_ne in H2 by exact N2.
    injection H1 as <-. apply (Hu _ _ _ _ Hold H2). congruence.
  - rewrite lookup_insert_eq in H2. rewrite lookup_insert_ne in H1 by exact N1.
    injection H2 as <-. apply (Hu _ _ _ _ H1 Hold). congruence.
  - rewrite lookup_insert_ne in H1 by exact N1.
    rewrite lookup_insert_ne in H2 by exact N2. exact (Hu _ _ _ _ H1 H2 He).
Qed.

Lemma unique_usernames_step ms o :
  tidy ms -> unique_usernames ms -> unique_usernames (step ms o).
Proof.
  intros Ht Hu. destruct o as [username tw created updated|a d r n1 n2];
    cbn [step].
  - unfold CreateCharacter.
    destruct (existsb _ _) eqn:Hex; [exact Hu|]. cbn [fst].
    pose proof (proj1 (username_taken_iff ms username) Hex) as Hfree.
    intros k1 k2 c1 c2. cbn [characters]. intros H1 H2 He.
    destruct (decide (nextCharacterID ms = k1)) as [<-|N1],
      (decide (nextCharacterID ms = k2)) as [<-|N2]; [reflexivity| | |].
    + rewrite lookup_insert_eq in H1. rewrite lookup_insert_ne in H2 by exact N2.
      injection H1 as <-. destruct (Hfree _ _ H2). symmetry. exact He.
    + rewrite lookup_insert_eq in H2. rewrite lookup_insert_ne in H1 by exact N1.
      injection H2 as <-. destruct (Hfree _ _ H1). exact He.
    + rewrite lookup_insert_ne in H1 by exact N1.
      rewrite lookup_insert_ne in H2 by exact N2. exact (Hu _ _ _ _ H1 H2 He).
  - destruct (startCombatMemory_characters ms a d r n1 n2 Ht)
      as [_ [Hsame|(k & old & new & Hold & Hk & Hnew)]].
    + unfold unique_usernames. rewrite Hsame. exact Hu.
    + exact (unique_usernames_replace ms k old new _ Hu Hold
               (kept_Username _ _ Hk) Hnew).
Qed.

Lemma reachable_unique_usernames ms : reachable ms -> unique_usernames ms.
Proof.
  induction 1 as [n1 n2 n3 n4|ms o Hr IH _].
  - intros k1 k2 c1 c2 H1. unfold NewMemoryStorage in H1.
    cbn [characters] in H1. rewrite lookup_empty in H1. discriminate.
  - apply unique_usernames_step; [exact (reachable_tidy _ Hr) | exact IH].
Qed.

Lemma GetCharacterByUsername_loop_found (visited : list Character.t)
    (username : string) (c : Character.t) :
  c ∈ visited ->
  Character.Username c = username ->
  (forall c', c' ∈ visited -> Character.Username c' = username -> c' = c) ->
  GetCharacterByUsername_loop visited username = Some (refreshed c).
Proof.
  induction visited as [|x rest IH]; intros Hin Hu Hall.
  - apply elem_of_nil in Hin. destruct Hin.
  - cbn [GetCharacterByUsername_loop].
    destruct (String.eqb_spec (Character.Username x) username) as [Hx|Hx].
    + rewrite (Hall x (list_elem_of_here _ _) Hx). reflexivity.
    + apply elem_of_cons in Hin as [->|Hin]; [contradiction|].
      apply IH; [exact Hin | exact Hu |].
      intros c' Hc'. apply Hall. apply list_elem_of_further. exact Hc'.
Qed.

Lemma GetCharacterByUsername_loop_none (visited : list Character.t)
    (username : string) :
  (forall c, c ∈ visited -> Character.Username c <> username) ->
  GetCharacterByUsername_loop visited username = None.
Proof.
  induction visited as [|x rest IH]; intros Hall; [reflexivity|].
  cbn [GetCharacterByUsername_loop].
  destruct (String.eqb_spec (Character.Username x) username) as [Hx|Hx].
  - destruct (Hall x (list_elem_of_here _ _) Hx).
  - apply IH. intros c Hc. apply Hall. apply list_elem_of_further. exact Hc.
Qed.

Lemma elem_of_visited_characters ms order (c : Character.t) :
  iteration_order ms order ->
  c ∈ visited_characters ms order
  <-> exists k : Z, characters ms !! k = Some c.
Proof.
  intros Hord. unfold visited_characters. rewrite list_elem_of_omap. split.
  - intros (k & _ & Hk). exists k. exact Hk.
  - intros (k & Hk). exists k. split; [|exact Hk].
    unfold iteration_order in Hord. rewrite Hord.
    apply list_elem_of_fmap. exists (k, c). split; [reflexivity|].
    apply elem_of_map_to_list. exact Hk.
Qed.

(** X7. In every store the in-memory backend can reach no two characters
    share a username, so [GetCharacterByUsername] does not depend on the
    order in which the map is traversed: it returns the one character with
    the username, with its combat power recomputed, and nil when there is
    none. *)
Theorem lookup_by_username_any_order (ms : MemoryStorage.t) (order : list Z)
    (username : string) :
  reachable ms ->
  iteration_order ms order ->
  unique_usernames ms /\
  (forall (k : Z) (c : Character.t),
     characters ms !! k = Some c -> Character.Username c = username ->
     GetCharacterByUsername ms order username = Some (refreshed c)) /\
  ((forall (k : Z) (c : Character.t),
      characters ms !! k = Some c -> Character.Username c <> username) ->
   GetCharacterByUsername ms order username = None).
Proof.
  intros Hr Hord. pose proof (reachable_unique_usernames ms Hr) as Hu.
  split; [exact Hu|]. split.
  - intros k c Hk Hname. unfold GetCharacterByUsername.
    apply GetCharacterByUsername_loop_found.
    + apply (elem_of_visited_characters ms order c Hord). exists k. exact Hk.
    + exact Hname.
    + intros c' Hc' Hname'.
      apply (elem_of_visited_characters ms order c' Hord) in Hc' as (k' & Hk').
      assert (k' = k) as -> by (apply (Hu _ _ _ _ Hk' Hk); congruence).
      congruence.
  - intros Hnone. unfold GetCharacterByUsername.
    apply GetCharacterByUsername_loop_none. intros c Hc.
    apply (elem_of_visited_characters ms order c Hord) in Hc as (k & Hk).
    exact (Hnone _ _ Hk).
Qed.

(** X8. [CreateCharacter] refuses a username that a stored character has
    and then changes nothing.  Otherwise it stores, under the next id, a
    level-1 character with 0 experience, 0 spent points, 10 in every stat
    and combat power 85; that character is what a lookup by the id returns,
    lookups of other ids are not affected, and a second creation with the
    same username is refused. *)
Theorem create_character_spec (ms : MemoryStorage.t) (username : string)
    (twitchUserID : option string) (created updated : Time) :
  (forall (k : Z) (c : Character.t),
     characters ms !! k = Some c -> Character.Username c = username ->
     CreateCharacter ms username twitchUserID created updated
     = (ms, Error ("character with username '" ++ username
                   ++ "' already exists"))) /\
  ((forall (k : Z) (c : Character.t),
      characters ms !! k = Some c -> Character.Username c <> username) ->
   exists ms' : MemoryStorage.t,
     let char :=
       fresh_character (nextCharacterID ms) username twitchUserID
         created updated in
     CreateCharacter ms username twitchUserID created updated = (ms', Ok char) /\
     GetCharacterByID ms' (nextCharacterID ms) = Some char /\
     (forall id : Z,
        id <> nextCharacterID ms ->
        GetCharacterByID ms' id = GetCharacterByID ms id) /\
     (forall (tw : option string) (t1 t2 : Time),
        CreateCharacter ms' username tw t1 t2
        = (ms', Error ("character with username '" ++ username
                       ++ "' already exists")))).
Proof.
  split.
  - intros k c Hk Hu. exact (CreateCharacter_taken _ _ _ _ _ _ _ Hk Hu).
  - intros Hfree. eexists. cbv zeta.
    split; [apply CreateCharacter_fresh, Hfree|].
    split; [|split].
    + unfold GetCharacterByID. cbn [characters].
      rewrite lookup_insert_eq. reflexivity.
    + intros id Hne. unfold GetCharacterByID. cbn [characters].
      rewrite lookup_insert_ne by congruence. reflexivity.
    + intros tw t1 t2.
      eapply CreateCharacter_taken with (k := nextCharacterID ms).
      * cbn [characters]. apply lookup_insert_eq.
      * reflexivity.
Qed.

Lemma ids_below_counter_step ms o :
  tidy ms -> nextCharacterID ms < int_max ->
  ids_below_counter ms -> ids_below_counter (step ms o).
Proof.
  intros Ht Hmax [Hpos Hids].
  destruct o as [username tw created updated|a d r n1 n2]; cbn [step].
  - unfold CreateCharacter.
    destruct (existsb _ _); [split; assumption|]. cbn [fst].
    unfold ids_below_counter. cbn [characters nextCharacterID].
    rewrite add_one by lia. split; [lia|].
    intros k c Hk.
    destruct (decide (nextCharacterID ms = k)) as [<-|Hne]; [lia|].
    rewrite lookup_insert_ne in Hk by exact Hne.
    specialize (Hids _ _ Hk). lia.
  - destruct (startCombatMemory_characters ms a d r n1 n2 Ht)
      as [Hnext [Hsame|(k & old & new & Hold & _ & Hnew)]];
      unfold ids_below_counter; rewrite Hnext.
    + rewrite Hsame. split; assumption.
    + rewrite Hnew. split; [exact Hpos|]. intros k' c Hk'.
      destruct (decide (k = k')) as [<-|Hne]; [exact (Hids _ _ Hold)|].
      rewrite lookup_insert_ne in Hk' by exact Hne. exact (Hids _ _ Hk').
Qed.

(** X9. Ids are handed out in order and never reused: the store starts
    with every id in use below the id counter, creations and combats keep
    it so while the counter is below the largest [int], and in such a store
    a successful [CreateCharacter] keeps every stored record as it was and
    makes the map one entry larger. *)
Theorem create_never_overwrites :
  (forall n1 n2 n3 n4 : Time,
     ids_below_counter (NewMemoryStorage n1 n2 n3 n4)) /\
  (forall (ms : MemoryStorage.t) (o : op),
     reachable ms -> nextCharacterID ms < int_max ->
     ids_below_counter ms -> ids_below_counter (step ms o)) /\
  (forall (ms ms' : MemoryStorage.t) (username : string)
          (twitchUserID : option string) (created updated : Time)
          (char : Character.t),
     ids_below_counter ms ->
     CreateCharacter ms username twitchUserID created updated = (ms', Ok char) ->
     (forall (k : Z) (c : Character.t),
        characters ms !! k = Some c -> characters ms' !! k = Some c) /\
     size (characters ms') = S (size (characters ms))).
Proof.
  split; [|split].
  - intros n1 n2 n3 n4. split; [vm_compute; discriminate|].
    intros k c Hk. unfold NewMemoryStorage in Hk. cbn [characters] in Hk.
    rewrite lookup_empty in Hk. discriminate.
  - intros ms o Hr. apply ids_below_counter_step, reachable_tidy, Hr.
  - intros ms ms' username tw created updated char [Hpos Hids] Hrun.
    unfold CreateCharacter in Hrun.
    destruct (existsb _ _); [discriminate|].
    pose proof (f_equal fst Hrun) as Hms. cbn [fst] in Hms. subst ms'.
    cbn [characters].
    assert (Hnew : characters ms !! nextCharacterID ms = None).
    { destruct (characters ms !! nextCharacterID ms) as [c|] eqn:Hc;
        [|reflexivity].
      specialize (Hids _ _ Hc). lia. }
    split.
    + intros k c Hk. rewrite lookup_insert_ne; [exact Hk|].
      intros <-. congruence.
    + apply map_size_insert_None. exact Hnew.
Qed.

End CharacterStoreFacts.

Module InventoryFacts.
Import GoInt MemoryStorage MemoryStorageOps.

(** X10. [PurchaseItem] of the in-memory backend: an unknown character is
    reported first, an unknown item next, and neither call changes the
    store.  Otherwise the item is appended to the buyer's inventory, the
    price is added to the buyer's spent points, whatever the price is, and
    no other character or inventory changes. *)
Theorem memory_purchase_spec (ms : MemoryStorage.t)
    (characterID itemID price : Z) :
  (characters ms !! characterID = None ->
   PurchaseItem ms characterID itemID price = (ms, Error "character not found"))
  /\
  (is_Some (characters ms !! characterID) -> items ms !! itemID = None ->
   PurchaseItem ms characterID itemID price = (ms, Error "item not found"))
  /\
  (forall (char : Character.t) (item : Item.t),
     characters ms !! characterID = Some char ->
     items ms !! itemID = Some item ->
     exists ms' : MemoryStorage.t,
       PurchaseItem ms characterID itemID price = (ms', Ok tt) /\
       GetCharacterInventory ms' characterID
       = (GetCharacterInventory ms characterID ++ [item])%list /\
       characters ms' !! characterID
       = Some (Character.set_ChannelPointsSpent
                 (add (Character.ChannelPointsSpent char) price) char) /\
       (forall other : Z,
          other <> characterID ->
          GetCharacterInventory ms' other = GetCharacterInventory ms other /\
          characters ms' !! other = characters ms !! other) /\
       items ms' = items ms).
Proof.
  split; [|split].
  - intros Hc. unfold PurchaseItem. rewrite Hc. reflexivity.
  - intros [char Hc] Hi. unfold PurchaseItem. rewrite Hc, Hi. reflexivity.
  - intros char item Hc Hi. unfold PurchaseItem. rewrite Hc, Hi.
    eexists. split; [reflexivity|].
    unfold GetCharacterInventory. cbn [inventories characters items].
    rewrite !lookup_insert_eq. split; [|split; [reflexivity|split]].
    + destruct (inventories ms !! characterID); reflexivity.
    + intros other Hne. rewrite !lookup_insert_ne by congruence. auto.
    + reflexivity.
Qed.

(** X11. A merchant event made by [CreateMerchant] is the current one
    until its end time, the first clock reading plus the duration: before
    that [GetCurrentMerchant] returns the event and leaves the store alone;
    from then on it returns nil, and the first such call drops the event
    for good, so that no later call returns it, whatever the clock reads. *)
Theorem merchant_is_current_until_it_ends (ms : MemoryStorage.t)
    (eventType : string) (durationMinutes : Z) (now1 now2 t : Time) :
  let ms1 := fst (CreateMerchant ms eventType durationMinutes now1 now2) in
  let merchant :=
    MerchantEvent.mk (nextMerchantID ms) eventType "[1,2,3]" now2
      (Some (time_add now1 (minutes durationMinutes))) true [] in
  snd (CreateMerchant ms eventType durationMinutes now1 now2) = merchant /\
  (t < time_add now1 (minutes durationMinutes) ->
   GetCurrentMerchant ms1 t = (ms1, Some merchant)) /\
  (time_add now1 (minutes durationMinutes) <= t ->
   snd (GetCurrentMerchant ms1 t) = None /\
   forall t' : Time,
     GetCurrentMerchant (fst (GetCurrentMerchant ms1 t)) t'
     = (fst (GetCurrentMerchant ms1 t), None)).
Proof.
  intros ms1 merchant.
  assert (Hactive : activeMerchant ms1
                    = Some (length
                              (match activeMerchant ms with
                               | None => merchantObjects ms
                               | Some p =>
                                   alter (MerchantEvent.set_IsActive false) p
                                     (merchantObjects ms)
                               end))) by reflexivity.
  assert (Hobject : merchantObjects ms1
                    !! length
                         (match activeMerchant ms with
                          | None => merchantObjects ms
                          | Some p =>
                              alter (MerchantEvent.set_IsActive false) p
                                (merchantObjects ms)
                          end) = Some merchant).
  { subst ms1. unfold CreateMerchant. cbn [fst merchantObjects].
    rewrite lookup_app_r by reflexivity. rewrite Nat.sub_diag. reflexivity. }
  split; [reflexivity|]. split.
  - intros Ht. unfold GetCurrentMerchant. rewrite Hactive, Hobject.
    cbn [MerchantEvent.IsActive MerchantEvent.EndTime merchant].
    destruct (Z.ltb_spec t (time_add now1 (minutes durationMinutes)));
      [reflexivity|lia].
  - intros Ht.
    assert (Hgone : GetCurrentMerchant ms1 t
                    = (mk (characters ms1) (items ms1) (combatLogs ms1)
                         (events ms1) (merchants ms1) (merchantObjects ms1)
                         None (inventories ms1) (nextCharacterID ms1)
                         (nextCombatLogID ms1) (nextEventID ms1)
                         (nextMerchantID ms1), None)).
    { unfold GetCurrentMerchant. rewrite Hactive, Hobject.
      cbn [MerchantEvent.IsActive MerchantEvent.EndTime merchant].
      destruct (Z.ltb_spec t (time_add now1 (minutes durationMinutes)));
        [lia|reflexivity]. }
    rewrite Hgone. cbn [fst snd]. split; [reflexivity|]. intros t'. reflexivity.
Qed.

End InventoryFacts.

Module EquipFacts.
Import GoInt System ItemOps ItemServiceOps CharacterServiceOps.

Lemma valid_item_type (t : Item.ItemType) :
  ValidateItemType t = true
  <-> t = Item.ItemTypeBoots \/ t = Item.ItemTypePants
      \/ t = Item.ItemTypeArmor \/ t = Item.ItemTypeHelmet
      \/ t = Item.ItemTypeRing \/ t = Item.ItemTypeChain.
Proof.
  unfold ValidateItemType. rewrite !orb_true_iff, !String.eqb_eq. tauto.
Qed.

(** The [switch] on the slot type has a case exactly for the types
    [ValidateItemType] accepts. *)
Lemma assign_slot_valid (t : Item.ItemType) (v : option Z) (c : Character.t) :
  is_Some (assign_slot t v c) <-> ValidateItemType t = true.
Proof.
  unfold assign_slot, ValidateItemType.
  destruct (String.eqb t Item.ItemTypeBoots); [split; eauto|].
  destruct (String.eqb t Item.ItemTypePants); [split; eauto|].
  destruct (String.eqb t Item.ItemTypeArmor); [split; eauto|].
  destruct (String.eqb t Item.ItemTypeHelmet); [split; eauto|].
  destruct (String.eqb t Item.ItemTypeRing); [split; eauto|].
  destruct (String.eqb t Item.ItemTypeChain); [split; eauto|].
  cbn [orb]. split; [intros [x Hx]; discriminate | discriminate].
Qed.

Lemma GetItemByID_relational (w : World) (db : Database.t) (id : Z) :
  DB w = Some db -> ItemService.GetItemByID w id = ItemService.GetItemByID_db db id.
Proof. intros H. unfold ItemService.GetItemByID. rewrite H. reflexivity. Qed.

Lemma GetCharacterByID_relational (w : World) (db : Database.t) (id : Z) :
  DB w = Some db ->
  CharacterService.GetCharacterByID w id
  = Ok (CharacterService.GetCharacterByID_db db id).
Proof. intros H. unfold CharacterService.GetCharacterByID. rewrite H. reflexivity. Qed.

(** What a load shows of a row: the slot columns of the row, and in each
    slot the item its column names. *)
Lemma loaded_slots (db : Database.t) (id : Z) (row : Character.t) :
  find (fun row => Character.ID row =? id) (Database.characters db) = Some row ->
  exists c : Character.t,
    CharacterService.GetCharacterByID_db db id = Some c /\
    Character.Level c = Character.Level row /\
    Character.Experience c = Character.Experience row /\
    Character.ChannelPointsSpent c = Character.ChannelPointsSpent row /\
    Character.Strength c = Character.Strength row /\
    Character.Agility c = Character.Agility row /\
    Character.Vitality c = Character.Vitality row /\
    Character.Intelligence c = Character.Intelligence row /\
    forall t : Item.ItemType,
      slot_of t c = slot_of t row /\
      worn t c
      = match slot_of t row with
        | None => None
        | Some itemID => ItemService.GetItemByID_db db itemID
        end.
Proof.
  intros Hrow. unfold CharacterService.GetCharacterByID_db. rewrite Hrow.
  eexists. split; [reflexivity|]. destruct row.
  do 7 (split; [reflexivity|]).
  intros ty. unfold slot_of, worn. cbn.
  split; [reflexivity|].
  destruct (String.eqb ty Item.ItemTypeBoots); [reflexivity|].
  destruct (String.eqb ty Item.ItemTypePants); [reflexivity|].
  destruct (String.eqb ty Item.ItemTypeArmor); [reflexivity|].
  destruct (String.eqb ty Item.ItemTypeHelmet); [reflexivity|].
  destruct (String.eqb ty Item.ItemTypeRing); [reflexivity|].
  destruct (String.eqb ty Item.ItemTypeChain); reflexivity.
Qed.

Lemma find_ID (rows : list Character.t) (id : Z) (row : Character.t) :
  find (fun row => Character.ID row =? id) rows = Some row ->
  Character.ID row = id.
Proof.
  intros H. apply find_some in H as [_ H]. apply Z.eqb_eq in H. exact H.
Qed.

Lemma find_updated (db : Database.t) (c row : Character.t) (now : Time) :
  find (fun row => Character.ID row =? Character.ID c) (Database.characters db)
  = Some row ->
  find (fun row => Character.ID row =? Character.ID c)
    (Database.characters (CharacterService.UpdateCharacter db c now))
  = Some (CharacterService.updated_row row c now).
Proof.
  intros Hrow. rewrite CombatFacts.find_UpdateCharacter, Hrow.
  cbn [fmap option_fmap option_map].
  rewrite (find_ID _ _ _ Hrow), Z.eqb_refl. reflexivity.
Qed.

Ltac slot_cases ty :=
  destruct (String.eqb_spec ty Item.ItemTypeBoots);
  [|destruct (String.eqb_spec ty Item.ItemTypePants);
    [|destruct (String.eqb_spec ty Item.ItemTypeArmor);
      [|destruct (String.eqb_spec ty Item.ItemTypeHelmet);
        [|destruct (String.eqb_spec ty Item.ItemTypeRing);
          [|destruct (String.eqb_spec ty Item.ItemTypeChain)]]]]].

(** The assignment sets the slot of the type and no other slot, and keeps
    the other columns. *)
Lemma assign_slot_spec (ty : Item.ItemType) (v : option Z) (c c' : Character.t) :
  assign_slot ty v c = Some c' ->
  slot_of ty c' = v /\
  (forall t : Item.ItemType, t <> ty -> slot_of t c' = slot_of t c) /\
  Character.ID c' = Character.ID c /\
  Character.Level c' = Character.Level c /\
  Character.Experience c' = Character.Experience c /\
  Character.ChannelPointsSpent c' = Character.ChannelPointsSpent c /\
  Character.Strength c' = Character.Strength c /\
  Character.Agility c' = Character.Agility c /\
  Character.Vitality c' = Character.Vitality c /\
  Character.Intelligence c' = Character.Intelligence c.
Proof.
  unfold assign_slot. intros H.
  slot_cases ty; try discriminate; injection H as <-; subst ty;
    (split; [reflexivity|]); (split; [|repeat split]);
    intros t Hne; unfold slot_of; cbn [set_slots Character.BootsID
      Character.PantsID Character.ArmorID Character.HelmetID Character.RingID
      Character.ChainID];
    slot_cases t; try reflexivity; congruence.
Qed.

Lemma updated_row_slots (row c : Character.t) (now : Time) (t : Item.ItemType) :
  slot_of t (CharacterService.updated_row row c now) = slot_of t c.
Proof. reflexivity. Qed.

Lemma UpdateCharacter_frame (db : Database.t) (c : Character.t) (now : Time) :
  Database.items (CharacterService.UpdateCharacter db c now) = Database.items db /\
  Database.character_items (CharacterService.UpdateCharacter db c now)
  = Database.character_items db.
Proof. split; reflexivity. Qed.

Lemma GetItemByID_db_frame (db : Database.t) (c : Character.t) (now : Time)
    (id : Z) :
  ItemService.GetItemByID_db (CharacterService.UpdateCharacter db c now) id
  = ItemService.GetItemByID_db db id.
Proof. reflexivity. Qed.

(** A slot assignment written back with [UpdateCharacter]: what the next
    load of the character shows. *)
Lemma assign_and_update (db : Database.t) (id : Z) (row c c1 : Character.t)
    (ty : Item.ItemType) (v : option Z) (now : Time) :
  find (fun row => Character.ID row =? id) (Database.characters db) = Some row ->
  CharacterService.GetCharacterByID_db db id = Some c ->
  assign_slot ty v c = Some c1 ->
  let db' := CharacterService.UpdateCharacter db c1 now in
  exists c' : Character.t,
    CharacterService.GetCharacterByID_db db' id = Some c' /\
    slot_of ty c' = v /\
    worn ty c'
    = match v with
      | None => None
      | Some itemID => ItemService.GetItemByID_db db itemID
      end /\
    (forall t : Item.ItemType,
       t <> ty -> slot_of t c' = slot_of t c /\ worn t c' = worn t c) /\
    Character.Level c' = Character.Level c /\
    Character.Experience c' = Character.Experience c /\
    Character.ChannelPointsSpent c' = Character.ChannelPointsSpent c /\
    Character.Strength c' = Character.Strength c /\
    Character.Agility c' = Character.Agility c /\
    Character.Vitality c' = Character.Vitality c /\
    Character.Intelligence c' = Character.Intelligence c /\
    (forall other : Z,
       other <> id ->
       find (fun row => Character.ID row =? other) (Database.characters db')
       = find (fun row => Character.ID row =? other) (Database.characters db)).
Proof.
  intros Hrow Hc Hassign db'.
  destruct (loaded_slots db id row Hrow)
    as (c0 & Hc0 & L0 & E0 & P0 & S0 & A0 & V0 & I0 & Hslots0).
  assert (c0 = c) as -> by congruence.
  destruct (assign_slot_spec _ _ _ _ Hassign)
    as (Hty & Hothers & Hid & L1 & E1 & P1 & S1 & A1 & V1 & I1).
  assert (Hcid : Character.ID c = id).
  { destruct (CombatFacts.GetCharacterByID_db_inv _ _ _ Hc) as (_ & _ & H & _).
    exact H. }
  assert (Hrow' : find (fun row => Character.ID row =? id)
                    (Database.characters db')
                  = Some (CharacterService.updated_row row c1 now)).
  { subst db'. rewrite <- Hcid, <- Hid. apply find_updated.
    rewrite Hid, Hcid. exact Hrow. }
  destruct (loaded_slots db' id _ Hrow')
    as (c' & Hc' & L' & E' & P' & S' & A' & V' & I' & Hslots').
  exists c'. split; [exact Hc'|].
  assert (Hslot : forall t, slot_of t c' = slot_of t c1).
  { intros t. rewrite (proj1 (Hslots' t)). apply updated_row_slots. }
  split; [rewrite Hslot; exact Hty|].
  split.
  { rewrite (proj2 (Hslots' ty)), updated_row_slots, Hty. reflexivity. }
  split.
  { intros t Hne. split.
    - rewrite Hslot. apply Hothers, Hne.
    - rewrite (proj2 (Hslots' t)), updated_row_slots, (Hothers t Hne).
      rewrite (proj2 (Hslots0 t)), <- (proj1 (Hslots0 t)). reflexivity. }
  cbn [CharacterService.updated_row Character.Level Character.Experience
         Character.ChannelPointsSpent Character.Strength Character.Agility
         Character.Vitality Character.Intelligence] in L', E', P', S', A', V', I'.
  do 7 (split; [congruence|]).
  intros other Hne. subst db'.
  apply CombatFacts.find_UpdateCharacter_other. congruence.
Qed.

Lemma EquipItem_run (w : World) (db : Database.t) (characterID itemID : Z)
    (now : Time) (item : Item.t) (c c1 : Character.t) :
  DB w = Some db ->
  ItemService.GetItemByID_db db itemID = Some item ->
  CharacterService.GetCharacterByID_db db characterID = Some c ->
  CharacterOwnsItem_db db characterID itemID = true ->
  assign_slot (Item.Type_ item) (Some itemID) c = Some c1 ->
  EquipItem w characterID itemID now
  = (mkWorld (Some (CharacterService.UpdateCharacter db c1 now)) (Memory w),
     Ok tt).
Proof.
  intros Hdb Hitem Hc Howns Hassign.
  unfold EquipItem. rewrite (GetItemByID_relational w db itemID Hdb), Hitem.
  rewrite (GetCharacterByID_relational w db characterID Hdb), Hc.
  unfold CharacterOwnsItem. rewrite Hdb, Howns. cbn [negb].
  rewrite Hassign. unfold UpdateCharacter. rewrite Hdb. reflexivity.
Qed.

Lemma UnequipItem_run (w : World) (db : Database.t) (characterID : Z)
    (slotType : Item.ItemType) (now : Time) (c c1 : Character.t) :
  DB w = Some db ->
  CharacterService.GetCharacterByID_db db characterID = Some c ->
  assign_slot slotType None c = Some c1 ->
  UnequipItem w characterID slotType now
  = (mkWorld (Some (CharacterService.UpdateCharacter db c1 now)) (Memory w),
     Ok tt).
Proof.
  intros Hdb Hc Hassign. unfold UnequipItem.
  rewrite (GetCharacterByID_relational w db characterID Hdb), Hc.
  rewrite Hassign. unfold UpdateCharacter. rewrite Hdb. reflexivity.
Qed.

(** X12. [EquipItem] on the relational backend: for an item that exists,
    has one of the six slot types and is owned by the character, the call
    succeeds; the next load of the character shows the item worn in the
    slot of its type, the slot column holding its id, every other slot,
    the level, experience, spent points and base stats as before; and no
    other character's row changes. *)
Theorem equip_places_item (w : World) (db : Database.t)
    (characterID itemID : Z) (now : Time) (item : Item.t) (c : Character.t) :
  DB w = Some db ->
  ItemService.GetItemByID_db db itemID = Some item ->
  loaded w characterID = Some c ->
  CharacterOwnsItem_db db characterID itemID = true ->
  ValidateItemType (Item.Type_ item) = true ->
  exists (w' : World) (c' : Character.t),
    EquipItem w characterID itemID now = (w', Ok tt) /\
    loaded w' characterID = Some c' /\
    slot_of (Item.Type_ item) c' = Some itemID /\
    worn (Item.Type_ item) c' = Some item /\
    (forall t : Item.ItemType,
       t <> Item.Type_ item ->
       slot_of t c' = slot_of t c /\ worn t c' = worn t c) /\
    Character.Level c' = Character.Level c /\
    Character.Experience c' = Character.Experience c /\
    Character.ChannelPointsSpent c' = Character.ChannelPointsSpent c /\
    Character.Strength c' = Character.Strength c /\
    Character.Agility c' = Character.Agility c /\
    Character.Vitality c' = Character.Vitality c /\
    Character.Intelligence c' = Character.Intelligence c /\
    (forall other : Z, other <> characterID -> stored w' other = stored w other).
Proof.
  intros Hdb Hitem Hc Howns Hvalid.
  unfold loaded in Hc. rewrite Hdb in Hc.
  destruct (CombatFacts.GetCharacterByID_db_inv _ _ _ Hc) as (row & Hrow & _).
  destruct (proj2 (assign_slot_valid (Item.Type_ item) (Some itemID) c) Hvalid)
    as [c1 Hassign].
  destruct (assign_and_update db characterID row c c1 _ _ now Hrow Hc Hassign)
    as (c' & Hc' & Hslot & Hworn & Hrest).
  exists (mkWorld (Some (CharacterService.UpdateCharacter db c1 now)) (Memory w)), c'.
  split; [exact (EquipItem_run w db _ _ now item c c1 Hdb Hitem Hc Howns Hassign)|].
  split; [exact Hc'|]. split; [exact Hslot|].
  split; [rewrite Hworn; exact Hitem|].
  unfold stored. rewrite Hdb. cbn [DB]. exact Hrest.
Qed.

(** X13. [UnequipItem] on the relational backend: for one of the six slot
    types and a character that exists the call succeeds; the next load
    shows the slot empty and everything else as before; no other
    character's row changes. *)
Theorem unequip_empties_slot (w : World) (db : Database.t) (characterID : Z)
    (slotType : Item.ItemType) (now : Time) (c : Character.t) :
  DB w = Some db ->
  loaded w characterID = Some c ->
  ValidateItemType slotType = true ->
  exists (w' : World) (c' : Character.t),
    UnequipItem w characterID slotType now = (w', Ok tt) /\
    loaded w' characterID = Some c' /\
    slot_of slotType c' = None /\
    worn slotType c' = None /\
    (forall t : Item.ItemType,
       t <> slotType -> slot_of t c' = slot_of t c /\ worn t c' = worn t c) /\
    Character.Level c' = Character.Level c /\
    Character.Experience c' = Character.Experience c /\
    Character.ChannelPointsSpent c' = Character.ChannelPointsSpent c /\
    Character.Strength c' = Character.Strength c /\
    Character.Agility c' = Character.Agility c /\
    Character.Vitality c' = Character.Vitality c /\
    Character.Intelligence c' = Character.Intelligence c /\
    (forall other : Z, other <> characterID -> stored w' other = stored w other).
Proof.
  intros Hdb Hc Hvalid.
  unfold loaded in Hc. rewrite Hdb in Hc.
  destruct (CombatFacts.GetCharacterByID_db_inv _ _ _ Hc) as (row & Hrow & _).
  destruct (proj2 (assign_slot_valid slotType None c) Hvalid) as [c1 Hassign].
  destruct (assign_and_update db characterID row c c1 _ _ now Hrow Hc Hassign)
    as (c' & Hc' & Hslot & Hworn & Hrest).
  exists (mkWorld (Some (CharacterService.UpdateCharacter db c1 now)) (Memory w)), c'.
  split; [exact (UnequipItem_run w db _ _ now c c1 Hdb Hc Hassign)|].
  split; [exact Hc'|]. split; [exact Hslot|]. split; [exact Hworn|].
  unfold stored. rewrite Hdb. cbn [DB]. exact Hrest.
Qed.

(** X14. Equipping an item into an empty slot and then unequipping that
    slot gives the character back as it was: both calls succeed, and the
    load after them shows every slot, the level, experience, spent points
    and base stats as the load before them did. *)
Theorem equip_unequip_round_trip (w : World) (db : Database.t)
    (characterID itemID : Z) (now1 now2 : Time) (item : Item.t)
    (c : Character.t) :
  DB w = Some db ->
  ItemService.GetItemByID_db db itemID = Some item ->
  loaded w characterID = Some c ->
  CharacterOwnsItem_db db characterID itemID = true ->
  ValidateItemType (Item.Type_ item) = true ->
  slot_of (Item.Type_ item) c = None ->
  exists (w1 w2 : World) (c2 : Character.t),
    EquipItem w characterID itemID now1 = (w1, Ok tt) /\
    UnequipItem w1 characterID (Item.Type_ item) now2 = (w2, Ok tt) /\
    loaded w2 characterID = Some c2 /\
    (forall t : Item.ItemType,
       slot_of t c2 = slot_of t c /\ worn t c2 = worn t c) /\
    Character.Level c2 = Character.Level c /\
    Character.Experience c2 = Character.Experience c /\
    Character.ChannelPointsSpent c2 = Character.ChannelPointsSpent c /\
    Character.Strength c2 = Character.Strength c /\
    Character.Agility c2 = Character.Agility c /\
    Character.Vitality c2 = Character.Vitality c /\
    Character.Intelligence c2 = Character.Intelligence c.
Proof.
  intros Hdb Hitem Hc Howns Hvalid Hempty.
  unfold loaded in Hc. rewrite Hdb in Hc.
  destruct (CombatFacts.GetCharacterByID_db_inv _ _ _ Hc) as (row & Hrow & _).
  destruct (loaded_slots db characterID row Hrow) as (c0 & Hc0 & Hshow).
  assert (c0 = c) as -> by congruence.
  destruct (proj2 (assign_slot_valid (Item.Type_ item) (Some itemID) c) Hvalid)
    as [c1 Hassign1].
  destruct (assign_and_update db characterID row c c1 _ _ now1 Hrow Hc Hassign1)
    as (c' & Hc' & Hslot1 & _ & Hrest1 & L1 & E1 & P1 & S1 & A1 & V1 & I1 & _).
  set (db1 := CharacterService.UpdateCharacter db c1 now1) in *.
  destruct (CombatFacts.GetCharacterByID_db_inv _ _ _ Hc') as (row1 & Hrow1 & _).
  destruct (proj2 (assign_slot_valid (Item.Type_ item) None c') Hvalid)
    as [c1' Hassign2].
  destruct (assign_and_update db1 characterID row1 c' c1' _ _ now2
              Hrow1 Hc' Hassign2)
    as (c2 & Hc2 & Hslot2 & Hworn2 & Hrest2 & L2 & E2 & P2 & S2 & A2 & V2 & I2 & _).
  exists (mkWorld (Some db1) (Memory w)),
    (mkWorld (Some (CharacterService.UpdateCharacter db1 c1' now2)) (Memory w)),
    c2.
  split; [exact (EquipItem_run w db _ _ now1 item c c1 Hdb Hitem Hc Howns Hassign1)|].
  split; [exact (UnequipItem_run (mkWorld (Some db1) (Memory w)) db1 _ _ now2
                   c' c1' eq_refl Hc' Hassign2)|].
  split; [exact Hc2|]. split; [|repeat split; congruence].
  intros t. destruct (String.eqb_spec t (Item.Type_ item)) as [->|Hne].
  - rewrite Hslot2, Hworn2, Hempty.
    destruct Hshow as (_ & _ & _ & _ & _ & _ & _ & Hshow).
    rewrite (proj2 (Hshow _)), <- (proj1 (Hshow _)), Hempty. split; reflexivity.
  - destruct (Hrest2 t Hne) as [-> ->]. exact (Hrest1 t Hne).
Qed.

(** X15. [EquipItem] succeeds exactly when there is a database in which
    the item exists, the character exists, a [character_items] row links
    the two and the item's type is one of the six slot types.  A call that
    fails leaves the world as it was, and without a database every call
    fails: with "item not found" when the in-memory store has no such item,
    with "database connection not available" otherwise. *)
Theorem equip_item_succeeds_iff (w : World) (characterID itemID : Z)
    (now : Time) :
  ((exists w' : World, EquipItem w characterID itemID now = (w', Ok tt))
   <-> exists (db : Database.t) (item : Item.t) (c : Character.t),
         DB w = Some db /\
         ItemService.GetItemByID_db db itemID = Some item /\
         CharacterService.GetCharacterByID_db db characterID = Some c /\
         CharacterOwnsItem_db db characterID itemID = true /\
         ValidateItemType (Item.Type_ item) = true) /\
  (forall (w' : World) (msg : string),
     EquipItem w characterID itemID now = (w', Error msg) -> w' = w) /\
  (DB w = None ->
   EquipItem w characterID itemID now
   = (w, Error (match MemoryStorage.GetItemByID (Memory w) itemID with
                | None => "item not found"
                | Some _ => "database connection not available"
                end))).
Proof.
  split; [split|split].
  - intros [w' Hrun]. unfold EquipItem in Hrun.
    destruct (DB w) as [db|] eqn:Hdb.
    + rewrite (GetItemByID_relational w db itemID Hdb) in Hrun.
      rewrite (GetCharacterByID_relational w db characterID Hdb) in Hrun.
      destruct (ItemService.GetItemByID_db db itemID) as [item|] eqn:Hitem;
        [|discriminate].
      destruct (CharacterService.GetCharacterByID_db db characterID)
        as [c|] eqn:Hc; [|discriminate].
      unfold CharacterOwnsItem in Hrun. rewrite Hdb in Hrun.
      destruct (CharacterOwnsItem_db db characterID itemID) eqn:Howns;
        [|discriminate].
      cbn [negb] in Hrun.
      destruct (assign_slot (Item.Type_ item) (Some itemID) c) as [c1|] eqn:Ha;
        [|discriminate].
      exists db, item, c.
      split; [reflexivity|]. split; [exact Hitem|]. split; [exact Hc|].
      split; [exact Howns|].
      apply (assign_slot_valid (Item.Type_ item) (Some itemID) c).
      rewrite Ha. eauto.
    + unfold CharacterService.GetCharacterByID in Hrun. rewrite Hdb in Hrun.
      destruct (ItemService.GetItemByID w itemID); discriminate.
  - intros (db & item & c & Hdb & Hitem & Hc & Howns & Hvalid).
    destruct (proj2 (assign_slot_valid (Item.Type_ item) (Some itemID) c) Hvalid)
      as [c1 Hassign].
    eexists. exact (EquipItem_run w db _ _ now item c c1 Hdb Hitem Hc Howns Hassign).
  - intros w' msg Hrun. unfold EquipItem in Hrun.
    destruct (ItemService.GetItemByID w itemID) as [item|];
      [|injection Hrun as <- _; reflexivity].
    destruct (CharacterService.GetCharacterByID w characterID) as [[c|]|m];
      [| injection Hrun as <- _; reflexivity
       | injection Hrun as <- _; reflexivity].
    destruct (negb (CharacterOwnsItem w characterID itemID));
      [injection Hrun as <- _; reflexivity|].
    destruct (assign_slot (Item.Type_ item) (Some itemID) c) as [c1|];
      [|injection Hrun as <- _; reflexivity].
    unfold UpdateCharacter in Hrun.
    destruct (DB w); [discriminate | injection Hrun as <- _; reflexivity].
  - intros Hdb. unfold EquipItem, ItemService.GetItemByID,
      CharacterService.GetCharacterByID. rewrite Hdb.
    destruct (MemoryStorage.GetItemByID (Memory w) itemID); reflexivity.
Qed.

End EquipFacts.

Module CombatLogFacts.
Import GoInt CharacterFacts CombatFacts System.

Lemma db_outcome_entry db n1 n2 attacker defender winner loser db' res :
  db_outcome db n1 n2 attacker defender winner loser = (db', Ok res) ->
  Database.combat_logs db'
  = (Database.combat_logs db
     ++ [CombatLog.mk (Database.next_combat_log_id db)
           (Character.ID (CombatResult.Winner res))
           (Character.ID (CombatResult.Loser res))
           (Character.ID (CombatResult.Winner res))
           (CombatResult.AttackerPower res) (CombatResult.DefenderPower res)
           (CombatResult.CombatLog res) n2 None None None])%list.
Proof.
  unfold db_outcome. generalize (rewarded_db winner loser). intros winner' Hrun.
  pose proof (f_equal fst Hrun) as Hdb. pose proof (f_equal snd Hrun) as Hres.
  clear Hrun. cbn [fst snd] in Hdb, Hres. apply Ok_inj in Hres.
  subst db' res. reflexivity.
Qed.

Lemma memory_outcome_entry ms a d n1 n2 attacker defender winner loser ms' res :
  memory_outcome ms a d n1 n2 attacker defender winner loser = (ms', Ok res) ->
  MemoryStorage.combatLogs ms'
  = (MemoryStorage.combatLogs ms
     ++ [CombatLog.mk (MemoryStorage.nextCombatLogID ms) a d
           (Character.ID (CombatResult.Winner res))
           (CombatResult.AttackerPower res) (CombatResult.DefenderPower res)
           (CombatResult.CombatLog res) n2 None None None])%list.
Proof.
  unfold memory_outcome.
  generalize (Character.ID (reward_memory winner loser)).
  generalize (rewarded_memory winner loser n1). intros winner' key Hrun.
  pose proof (f_equal fst Hrun) as Hms. pose proof (f_equal snd Hrun) as Hres.
  clear Hrun. cbn [fst snd] in Hms, Hres. apply Ok_inj in Hres.
  subst ms' res.
  unfold MemoryStorage.AddCombatLog, MemoryStorage.set_characters,
    CombatLog.set_ID_CreatedAt.
  cbn [MemoryStorage.combatLogs MemoryStorage.nextCombatLogID
         CombatLog.AttackerID CombatLog.DefenderID CombatLog.WinnerID
         CombatLog.AttackerPower CombatLog.DefenderPower
         CombatLog.CombatLogText CombatLog.Attacker CombatLog.Defender
         CombatLog.Winner CombatResult.Winner CombatResult.AttackerPower
         CombatResult.DefenderPower CombatResult.CombatLog].
  reflexivity.
Qed.

(** X16. The log entry of a successful combat.  Both backends append one
    entry with the next log id, the winner's id, the powers of the attacker
    and of the defender, the text of the result and the time of the write.
    The in-memory backend files it under the ids of the call; the
    relational backend puts the winner's id in the attacker column and the
    loser's id in the defender column, so a combat the defender won is
    logged with the defender as attacker, next to the attacker's power. *)
Theorem combat_log_entry (w : World) (a d : Z) (r : spec_float)
    (n1 n2 : Time) (w' : World) (res : CombatResult.t) :
  CombatService.StartCombat w a d r n1 n2 = (w', Ok res) ->
  well_keyed (Memory w) ->
  combat_log w'
  = (combat_log w
     ++ [CombatLog.mk
           (match DB w with
            | None => MemoryStorage.nextCombatLogID (Memory w)
            | Some db => Database.next_combat_log_id db
            end)
           (match DB w with
            | None => a
            | Some _ => Character.ID (CombatResult.Winner res)
            end)
           (match DB w with
            | None => d
            | Some _ => Character.ID (CombatResult.Loser res)
            end)
           (Character.ID (CombatResult.Winner res))
           (CombatResult.AttackerPower res) (CombatResult.DefenderPower res)
           (CombatResult.CombatLog res) n2 None None None])%list.
Proof.
  intros Hrun Hk. destruct w as [[db|] ms]; cbn [DB Memory] in *.
  - rewrite (StartCombat_relational _ db) in Hrun by reflexivity.
    cbn [Memory] in Hrun.
    pose proof (f_equal fst Hrun) as Hw. pose proof (f_equal snd Hrun) as Hres.
    clear Hrun. cbn [fst snd] in Hw, Hres. subst w'.
    unfold combat_log. cbn [DB].
    destruct (CharacterService.GetCharacterByID_db db a) as [attacker|] eqn:Ha;
      [|unfold CombatService.StartCombat_db in Hres; rewrite Ha in Hres;
        discriminate].
    destruct (CharacterService.GetCharacterByID_db db d) as [defender|] eqn:Hd;
      [|unfold CombatService.StartCombat_db in Hres; rewrite Ha, Hd in Hres;
        discriminate].
    rewrite (StartCombat_db_resolved _ _ _ _ _ _ _ _ Ha Hd) in Hres |- *.
    eapply db_outcome_entry. apply injective_projections; [reflexivity|].
    cbn [snd]. exact Hres.
  - rewrite StartCombat_memory in Hrun by reflexivity. cbn [Memory] in Hrun.
    pose proof (f_equal fst Hrun) as Hw. pose proof (f_equal snd Hrun) as Hres.
    clear Hrun. cbn [fst snd] in Hw, Hres. subst w'.
    unfold combat_log. cbn [DB Memory].
    destruct (MemoryStorage.GetCharacterByID ms a) as [attacker|] eqn:Ha;
      [|unfold CombatService.startCombatMemory in Hres; rewrite Ha in Hres;
        discriminate].
    destruct (MemoryStorage.GetCharacterByID ms d) as [defender|] eqn:Hd;
      [|unfold CombatService.startCombatMemory in Hres; rewrite Ha, Hd in Hres;
        discriminate].
    destruct (loaded_memory_ID _ _ _ Hk Ha) as [Ia Sa].
    destruct (loaded_memory_ID _ _ _ Hk Hd) as [Id Sd].
    assert (Hkey : is_Some
                     (MemoryStorage.characters ms
                      !! Character.ID
                           (reward_memory (fst (resolve r attacker defender))
                              (snd (resolve r attacker defender))))).
    { unfold reward_memory.
      rewrite (kept_ID _ _ (kept_check_level_up _)),
        (kept_ID _ _ (kept_set_Experience _ _)).
      unfold resolve. destruct (Float64.gt r _); cbn [fst snd]; congruence. }
    rewrite (startCombatMemory_resolved _ _ _ _ _ _ _ _ Ha Hd Hkey) in Hres |- *.
    eapply memory_outcome_entry. apply injective_projections; [reflexivity|].
    cbn [snd]. exact Hres.
Qed.

End CombatLogFacts.

Module ArenaFacts.
Import GoInt GoIntFacts Arena.

Lemma roll_bounds (power draw : Z) :
  0 <= power -> 20 * power <= int_max -> 0 <= draw < 40 ->
  80 * power <= 100 * roll power draw <= 119 * power.
Proof.
  intros Hp Hmax Hd. unfold roll, add, sub, mul, quot.
  assert (Hint : forall z, - (20 * power) <= z <= 20 * power -> in_int z)
    by (unfold in_int, int_min, int_max in *; intros; lia).
  rewrite (wrap_id (draw - 20))
    by (unfold in_int, int_min, int_max; lia).
  rewrite (wrap_id (power * (draw - 20))) by (apply Hint; nia).
  pose proof (Z.quot_rem' (power * (draw - 20)) 100) as Hqr.
  destruct (Z.le_gt_cases 20 draw) as [Hup|Hdown].
  - assert (0 <= power * (draw - 20) <= 19 * power) as Hnn by nia.
    pose proof (Z.rem_bound_pos (power * (draw - 20)) 100
                  (proj1 Hnn) ltac:(lia)).
    rewrite (wrap_id (Z.quot _ _)) by (apply Hint; lia).
    rewrite wrap_id by (apply Hint; lia). lia.
  - assert (- (20 * power) <= power * (draw - 20) <= 0) as Hnp by nia.
    pose proof (Z.rem_bound_pos_neg (power * (draw - 20)) 100
                  ltac:(lia) (proj2 Hnp)).
    rewrite (wrap_id (Z.quot _ _)) by (apply Hint; lia).
    rewrite wrap_id by (apply Hint; lia). lia.
Qed.

(** X17. [SimulateCombat] is decided by the powers when they are far
    enough apart: the rolls stay within 80% and 119% of the powers, so an
    attacker with more than 119/80 of the defender's power wins whatever
    the two draws are, and is then granted 50 experience per level of the
    defender; a defender with at least 119/80 of the attacker's power
    always wins. *)
Theorem simulate_combat_decided_by_power (attacker defender : Character.t)
    (same_object : bool) (draw1 draw2 unrepresentable : Z) :
  0 <= Character.CalculateCombatPower attacker ->
  0 <= Character.CalculateCombatPower defender ->
  20 * Character.CalculateCombatPower attacker <= int_max ->
  20 * Character.CalculateCombatPower defender <= int_max ->
  0 <= draw1 < 40 -> 0 <= draw2 < 40 ->
  let res :=
    SimulateCombat attacker defender same_object draw1 draw2 unrepresentable in
  (119 * Character.CalculateCombatPower defender
   < 80 * Character.CalculateCombatPower attacker ->
   CombatResult.Winner res = attacker /\ CombatResult.Loser res = defender /\
   (same_object = false ->
    CombatResult.ExperienceGained res = mul (Character.Level defender) 50)) /\
  (119 * Character.CalculateCombatPower attacker
   <= 80 * Character.CalculateCombatPower defender ->
   CombatResult.Winner res = defender /\ CombatResult.Loser res = attacker).
Proof.
  intros Ha Hd Hma Hmd H1 H2 res.
  pose proof (roll_bounds _ _ Ha Hma H1) as Ra.
  pose proof (roll_bounds _ _ Hd Hmd H2) as Rd.
  subst res. unfold SimulateCombat.
  cbn [CombatResult.Winner CombatResult.Loser CombatResult.ExperienceGained].
  split.
  - intros Hfar.
    destruct (Z.ltb_spec (roll (Character.CalculateCombatPower defender) draw2)
                (roll (Character.CalculateCombatPower attacker) draw1)); [|lia].
    split; [reflexivity|]. split; [reflexivity|]. intros ->. reflexivity.
  - intros Hfar.
    destruct (Z.ltb_spec (roll (Character.CalculateCombatPower defender) draw2)
                (roll (Character.CalculateCombatPower attacker) draw1)); [lia|].
    split; reflexivity.
Qed.

End ArenaFacts.

Module FloatValueFacts.
Import GoInt Float64Ops ItemValue Arena.

(** A conversion that gives the same result for two different platform
    values does not depend on the platform value. *)
Lemma to_int_representable (f : spec_float) (v : Z) :
  to_int 0 f = v -> to_int 1 f = v -> forall u : Z, to_int u f = v.
Proof.
  unfold to_int. destruct f as [s| | |s m e]; intros H0 H1 u;
    try congruence.
  destruct ((int_min <=? _) && (_ <=? int_max)); congruence.
Qed.

Definition exact_on (f : Z -> spec_float) (spec : Z -> Z) (n : Z) : bool :=
  forallb (fun x => (to_int 0 (f x) =? spec x) && (to_int 1 (f x) =? spec x))
    (map Z.of_nat (seq 0 (S (Z.to_nat n)))).

Lemma exact_on_spec (f : Z -> spec_float) (spec : Z -> Z) (n : Z) :
  exact_on f spec n = true ->
  forall x u : Z, 0 <= x <= n -> to_int u (f x) = spec x.
Proof.
  unfold exact_on. rewrite forallb_forall. intros Hall x u Hx.
  specialize (Hall x). rewrite andb_true_iff, !Z.eqb_eq in Hall.
  apply to_int_representable; apply Hall; apply in_map_iff;
    exists (Z.to_nat x); (split; [lia | apply in_seq; lia]).
Qed.

(** X18. The defender bonus of [SimulateCombat], [int(float64(x) * 1.2)]
    on x = 50 * level, loses nothing to rounding for loser levels up to
    1000: whenever the bonus applies, that is when the attacker's roll does
    not exceed the defender's or both pointers are one object, the
    experience is exactly 60 * level. *)
Theorem defender_bonus_is_exact (attacker defender : Character.t)
    (same_object : bool) (draw1 draw2 unrepresentable : Z) :
  let res :=
    SimulateCombat attacker defender same_object draw1 draw2 unrepresentable in
  roll (Character.CalculateCombatPower attacker) draw1
  <= roll (Character.CalculateCombatPower defender) draw2
  \/ same_object = true ->
  0 <= Character.Level (CombatResult.Loser res) <= 1000 ->
  CombatResult.ExperienceGained res
  = 60 * Character.Level (CombatResult.Loser res).
Proof.
  assert (Hexact : forall level u : Z,
             0 <= level <= 1000 ->
             to_int u (Float64Ops.mul (Float64.of_int (GoInt.mul level 50)) c_1_2)
             = 60 * level).
  { apply (exact_on_spec
             (fun level =>
                Float64Ops.mul (Float64.of_int (GoInt.mul level 50)) c_1_2)
             (fun level => 60 * level) 1000).
    vm_compute. reflexivity. }
  intros res. subst res. unfold SimulateCombat.
  cbn [CombatResult.Winner CombatResult.Loser CombatResult.ExperienceGained].
  destruct (Z.ltb_spec (roll (Character.CalculateCombatPower defender) draw2)
              (roll (Character.CalculateCombatPower attacker) draw1)).
  - intros [Hw|Hs] Hl; [lia|]. subst same_object. apply Hexact, Hl.
  - intros _ Hl. apply Hexact, Hl.
Qed.

(** X19. [GetEffectiveValue] is the item's value times the multiplier of
    its rarity, cut to a whole number, with no loss to rounding for values
    from 0 to 1000: the value itself for a common item and for an
    unrecognised rarity, one and a half times the value rounded down for a
    rare item, twice the value for an epic one and three times the value
    for a legendary one. *)
Theorem effective_value_is_exact (unrepresentable : Z) (i : Item.t) :
  0 <= Item.Value i <= 1000 ->
  GetEffectiveValue unrepresentable i
  = if String.eqb (Item.Rarity i) Item.RarityCommon then Item.Value i
    else if String.eqb (Item.Rarity i) Item.RarityRare
         then 3 * Item.Value i / 2
    else if String.eqb (Item.Rarity i) Item.RarityEpic then 2 * Item.Value i
    else if String.eqb (Item.Rarity i) Item.RarityLegendary
         then 3 * Item.Value i
    else Item.Value i.
Proof.
  intros Hv. unfold GetEffectiveValue, GetRarityMultiplier.
  destruct (String.eqb (Item.Rarity i) Item.RarityCommon).
  { apply (exact_on_spec (fun v => Float64Ops.mul (Float64.of_int v) c_1_0)
             (fun v => v) 1000); [vm_compute; reflexivity | exact Hv]. }
  destruct (String.eqb (Item.Rarity i) Item.RarityRare).
  { apply (exact_on_spec (fun v => Float64Ops.mul (Float64.of_int v) c_1_5)
             (fun v => 3 * v / 2) 1000); [vm_compute; reflexivity | exact Hv]. }
  destruct (String.eqb (Item.Rarity i) Item.RarityEpic).
  { apply (exact_on_spec (fun v => Float64Ops.mul (Float64.of_int v) c_2_0)
             (fun v => 2 * v) 1000); [vm_compute; reflexivity | exact Hv]. }
  destruct (String.eqb (Item.Rarity i) Item.RarityLegendary).
  { apply (exact_on_spec (fun v => Float64Ops.mul (Float64.of_int v) c_3_0)
             (fun v => 3 * v) 1000); [vm_compute; reflexivity | exact Hv]. }
  apply (exact_on_spec (fun v => Float64Ops.mul (Float64.of_int v) c_1_0)
           (fun v => v) 1000); [vm_compute; reflexivity | exact Hv].
Qed.

End FloatValueFacts.

(** ** The added theorems at work on the sample data *)

Module MoreWitnesses.
Import GoInt System MemoryStorage MemoryStorageOps.

(** The steel boots are an upgrade for the iron ones, not the other way
    round. *)
Lemma upgrade_is_strict_order_witness :
  ItemOps.IsUpgradeFor Wardrobe.steel_boots (Some Samples.iron_boots) = true /\
  ItemOps.IsUpgradeFor Samples.iron_boots (Some Wardrobe.steel_boots) = false.
Proof.
  assert (H : ItemOps.IsUpgradeFor Wardrobe.steel_boots
                (Some Samples.iron_boots) = true) by (vm_compute; reflexivity).
  split; [exact H|].
  exact (proj1 (proj2 (proj2 ItemFacts.upgrade_is_strict_order))
           Wardrobe.steel_boots Samples.iron_boots H).
Defined.

(** After two combats the history cut at 1 is the second entry alone. *)
Lemma history_is_newest_first_witness :
  GetCombatHistory Samples.store_bob_ahead 1
  = take 1 (reverse (combatLogs Samples.store_bob_ahead)) /\
  GetLatestEvents Samples.store_bob_ahead 1
  = take 1 (reverse (events Samples.store_bob_ahead)).
Proof.
  apply (MemoryQueryFacts.history_is_newest_first Samples.store_bob_ahead 1);
    vm_compute; split; discriminate.
Defined.

Lemma added_log_heads_history_witness :
  GetCombatHistory
    (AddCombatLog Samples.store2
       (CombatLog.mk 0 1 2 1 85 85 "" 0 None None None) 7) 3
  = CombatLog.set_ID_CreatedAt (nextCombatLogID Samples.store2) 7
      (CombatLog.mk 0 1 2 1 85 85 "" 0 None None None)
    :: GetCombatHistory Samples.store2 (3 - 1).
Proof.
  apply (MemoryQueryFacts.added_log_heads_history Samples.store2
           (CombatLog.mk 0 1 2 1 85 85 "" 0 None None None) 7 3).
  - vm_compute. split; discriminate.
  - vm_compute. reflexivity.
Defined.

(** The one pair of boots of the sample items is the whole first page. *)
Lemma items_by_type_pages_witness :
  GetItemsByType Samples.store0 [1; 2; 3] Item.ItemTypeBoots 5 0
  = take (Z.to_nat 5)
      (drop (Z.to_nat 0)
         (filter (fun it => Item.Type_ it = Item.ItemTypeBoots)
            (visited_items Samples.store0 [1; 2; 3]))).
Proof.
  apply (proj1 (ItemQueryFacts.items_by_type_pages Samples.store0 [1; 2; 3]
                  Item.ItemTypeBoots 5 0 ltac:(vm_compute; discriminate))).
Defined.

Lemma random_items_are_first_matches_witness :
  GetRandomItems Samples.store0 [1; 2; 3] 1 false
  = take (Z.to_nat 1)
      (filter (fun it => Item.IsSpecial it = false)
         (visited_items Samples.store0 [1; 2; 3])).
Proof.
  apply (ItemQueryFacts.random_items_are_first_matches Samples.store0
           [1; 2; 3] 1 false).
  vm_compute. discriminate.
Defined.

(** The sample event has id 1; no event has id 5. *)
Lemma mark_event_triggered_spec_witness :
  MarkEventTriggered Samples.store0 5
  = (Samples.store0, Error "event not found") /\
  snd (MarkEventTriggered Samples.store0 1) = Ok tt.
Proof.
  split.
  - apply (proj1 (EventFacts.mark_event_triggered_spec Samples.store0 5)).
    repeat constructor. vm_compute. discriminate.
  - destruct (List.hd_error (events Samples.store0)) as [e|] eqn:He;
      [|vm_compute in He; discriminate].
    rewrite (proj1 (proj2 (EventFacts.mark_event_triggered_spec
                             Samples.store0 1) [] [] e
                     ltac:(vm_compute in He; injection He as <-; reflexivity)
                     ltac:(constructor)
                     ltac:(vm_compute in He; injection He as <-; reflexivity))).
    reflexivity.
Defined.

Lemma store2_order : iteration_order Samples.store2 [1; 2].
Proof.
  unfold iteration_order.
  assert (Hkeys : (map_to_list (characters Samples.store2)).*1 = [2; 1])
    by (vm_compute; reflexivity).
  rewrite Hkeys. apply perm_swap.
Defined.

(** "bob" is found by name in the store with "alice" and "bob". *)
Lemma lookup_by_username_any_order_witness :
  GetCharacterByUsername Samples.store2 [1; 2] "bob"
  = Some (refreshed Samples.bob).
Proof.
  apply (proj1 (proj2 (CharacterStoreFacts.lookup_by_username_any_order
                         Samples.store2 [1; 2] "bob"
                         Examples.reachable_store2 store2_order)) 2).
  - vm_compute. reflexivity.
  - reflexivity.
Defined.

(** "alice" cannot be created twice. *)
Lemma create_character_spec_witness :
  CreateCharacter Samples.store2 "alice" None 5 5
  = (Samples.store2,
     Error ("character with username '" ++ "alice" ++ "' already exists")).
Proof.
  apply (proj1 (CharacterStoreFacts.create_character_spec Samples.store2
                  "alice" None 5 5) 1 Samples.alice).
  - vm_compute. reflexivity.
  - reflexivity.
Defined.

(** Creating "carol" after "alice" and "bob" makes three characters. *)
Lemma create_never_overwrites_witness :
  size (characters
          (fst (CreateCharacter Samples.store2 "carol" None 5 5)))
  = S (size (characters Samples.store2)).
Proof.
  destruct CharacterStoreFacts.create_never_overwrites
    as (Hnew & Hstep & Hcreate).
  assert (H1 : Invariants.ids_below_counter
                 (step Samples.store0 (Create "alice" None 1 1))).
  { apply Hstep; [apply reachable_new | vm_compute; reflexivity | apply Hnew]. }
  assert (H2 : Invariants.ids_below_counter Samples.store2).
  { apply (Hstep _ (Create "bob" None 2 2));
      [|vm_compute; reflexivity | exact H1].
    apply reachable_step; [apply reachable_new | exact I]. }
  destruct (CreateCharacter Samples.store2 "carol" None 5 5)
    as [ms' [char|msg]] eqn:Hrun; [|vm_compute in Hrun; discriminate].
  exact (proj2 (Hcreate Samples.store2 ms' "carol" None 5 5 char H2 Hrun)).
Defined.

(** "alice" buys the iron boots for 30 points on the in-memory backend. *)
Lemma memory_purchase_spec_witness :
  exists ms' : MemoryStorage.t,
    PurchaseItem Samples.store2 1 1 30 = (ms', Ok tt) /\
    GetCharacterInventory ms' 1
    = (GetCharacterInventory Samples.store2 1
       ++ [Item.mk 1 "Iron Boots" Item.ItemTypeBoots Item.RarityCommon
             2 1 1 0 None 50 false 0])%list.
Proof.
  destruct (proj2 (proj2 (InventoryFacts.memory_purchase_spec Samples.store2
                            1 1 30))
              Samples.alice
              (Item.mk 1 "Iron Boots" Item.ItemTypeBoots Item.RarityCommon
                 2 1 1 0 None 50 false 0)
              ltac:(vm_compute; reflexivity) ltac:(vm_compute; reflexivity))
    as (ms' & Hrun & Hinv & _).
  exists ms'. split; [exact Hrun | exact Hinv].
Defined.

(** A one-hour merchant created at time 10 is current at time 11. *)
Lemma merchant_is_current_until_it_ends_witness :
  GetCurrentMerchant
    (fst (CreateMerchant Samples.store0 "random_shop" 60 10 10)) 11
  = (fst (CreateMerchant Samples.store0 "random_shop" 60 10 10),
     Some (MerchantEvent.mk (nextMerchantID Samples.store0) "random_shop"
             "[1,2,3]" 10 (Some (time_add 10 (minutes 60))) true [])).
Proof.
  apply (proj1 (proj2 (InventoryFacts.merchant_is_current_until_it_ends
                         Samples.store0 "random_shop" 60 10 10 11))).
  vm_compute. reflexivity.
Defined.

(** "alice" owns the iron boots in the wardrobe database and puts them
    on. *)
Lemma equip_places_item_witness :
  exists (w' : World) (c' : Character.t),
    CharacterServiceOps.EquipItem Wardrobe.world 1 1 9 = (w', Ok tt) /\
    loaded w' 1 = Some c' /\
    CharacterServiceOps.slot_of Item.ItemTypeBoots c' = Some 1 /\
    CharacterServiceOps.worn Item.ItemTypeBoots c' = Some Samples.iron_boots.
Proof.
  destruct (loaded Wardrobe.world 1) as [c|] eqn:Hc;
    [|vm_compute in Hc; discriminate].
  destruct (EquipFacts.equip_places_item Wardrobe.world Wardrobe.database
              1 1 9 Samples.iron_boots c eq_refl
              ltac:(vm_compute; reflexivity) Hc
              ltac:(vm_compute; reflexivity) ltac:(vm_compute; reflexivity))
    as (w' & c' & Hrun & Hload & Hslot & Hworn & _).
  exists w', c'. repeat split; assumption.
Defined.

Lemma unequip_empties_slot_witness :
  exists (w' : World) (c' : Character.t),
    CharacterServiceOps.UnequipItem Wardrobe.world 1 Item.ItemTypeRing 9
    = (w', Ok tt) /\
    loaded w' 1 = Some c' /\
    CharacterServiceOps.slot_of Item.ItemTypeRing c' = None.
Proof.
  destruct (loaded Wardrobe.world 1) as [c|] eqn:Hc;
    [|vm_compute in Hc; discriminate].
  destruct (EquipFacts.unequip_empties_slot Wardrobe.world Wardrobe.database
              1 Item.ItemTypeRing 9 c eq_refl Hc
              ltac:(vm_compute; reflexivity))
    as (w' & c' & Hrun & Hload & Hslot & _).
  exists w', c'. repeat split; assumption.
Defined.

Lemma equip_unequip_round_trip_witness :
  exists (w1 w2 : World) (c2 : Character.t),
    CharacterServiceOps.EquipItem Wardrobe.world 1 1 9 = (w1, Ok tt) /\
    CharacterServiceOps.UnequipItem w1 1 Item.ItemTypeBoots 10 = (w2, Ok tt) /\
    loaded w2 1 = Some c2 /\
    CharacterServiceOps.slot_of Item.ItemTypeBoots c2 = None.
Proof.
  destruct (loaded Wardrobe.world 1) as [c|] eqn:Hc;
    [|vm_compute in Hc; discriminate].
  assert (Hempty : CharacterServiceOps.slot_of Item.ItemTypeBoots c = None)
    by (vm_compute in Hc; injection Hc as <-; reflexivity).
  destruct (EquipFacts.equip_unequip_round_trip Wardrobe.world
              Wardrobe.database 1 1 9 10 Samples.iron_boots c eq_refl
              ltac:(vm_compute; reflexivity) Hc
              ltac:(vm_compute; reflexivity) ltac:(vm_compute; reflexivity)
              Hempty)
    as (w1 & w2 & c2 & Hrun1 & Hrun2 & Hload & Hslots & _).
  exists w1, w2, c2. split; [exact Hrun1|]. split; [exact Hrun2|].
  split; [exact Hload|].
  rewrite (proj1 (Hslots Item.ItemTypeBoots)). exact Hempty.
Defined.

(** Without a database the iron boots cannot be put on. *)
Lemma equip_item_succeeds_iff_witness :
  CharacterServiceOps.EquipItem Samples.world_memory 1 1 9
  = (Samples.world_memory, Error "database connection not available").
Proof.
  rewrite (proj2 (proj2 (EquipFacts.equip_item_succeeds_iff
                           Samples.world_memory 1 1 9)) eq_refl).
  reflexivity.
Defined.

(** "bob" (level 3) attacks "alice" on the relational backend and wins:
    one entry is appended, filed under the winner's id. *)
Lemma combat_log_entry_witness :
  exists (w' : World) (res : CombatResult.t),
    CombatService.StartCombat Samples.world_db 2 1 Samples.roll_zero 5 6
    = (w', Ok res) /\
    List.length (combat_log w') = S (List.length (combat_log Samples.world_db)).
Proof.
  destruct (CombatService.StartCombat Samples.world_db 2 1 Samples.roll_zero
              5 6) as [w' [res|msg]] eqn:Hrun;
    [|vm_compute in Hrun; discriminate].
  exists w', res. split; [reflexivity|].
  rewrite (CombatLogFacts.combat_log_entry Samples.world_db 2 1
             Samples.roll_zero 5 6 w' res Hrun
             ltac:(intros k c H; vm_compute in H; discriminate)).
  rewrite List.length_app. cbn [List.length]. lia.
Defined.

(** The champion (power 580) attacks "alice" (power 85) and wins whatever
    the draws are; here they are 0 and 39. *)
Lemma simulate_combat_decided_by_power_witness :
  CombatResult.Winner
    (Arena.SimulateCombat Wardrobe.champion Samples.alice false 0 39 0)
  = Wardrobe.champion.
Proof.
  apply (proj1 (ArenaFacts.simulate_combat_decided_by_power Wardrobe.champion
                  Samples.alice false 0 39 0
                  ltac:(vm_compute; discriminate)
                  ltac:(vm_compute; discriminate)
                  ltac:(vm_compute; discriminate)
                  ltac:(vm_compute; discriminate)
                  ltac:(lia) ltac:(lia))).
  vm_compute. reflexivity.
Defined.

(** "alice" attacks the champion and loses: the champion, defending, is
    granted 60 experience for her level 1. *)
Lemma defender_bonus_is_exact_witness :
  CombatResult.ExperienceGained
    (Arena.SimulateCombat Samples.alice Wardrobe.champion false 39 0 0)
  = 60 * Character.Level
           (CombatResult.Loser
              (Arena.SimulateCombat Samples.alice Wardrobe.champion false
                 39 0 0)).
Proof.
  apply (FloatValueFacts.defender_bonus_is_exact Samples.alice
           Wardrobe.champion false 39 0 0).
  - left. vm_compute. discriminate.
  - vm_compute. split; discriminate.
Defined.

(** The rare "Mystic Sword" of value 200 is worth 300. *)
Lemma effective_value_is_exact_witness :
  ItemValue.GetEffectiveValue 0 Samples.mystic_ring = 300.
Proof.
  rewrite (FloatValueFacts.effective_value_is_exact 0 Samples.mystic_ring
             ltac:(vm_compute; split; discriminate)).
  reflexivity.
Defined.

End MoreWitnesses.

(** ** One merchant event in force *)

Module MerchantRuns.
Import GoInt System Runs.













End MerchantRuns.
